(** * hsafa Python SDK: the event-stream client and the correlated wait

    A shallow embedding of [hsafa/sse.py] (class [SSEStream]) and of
    [hsafa/resources/messages.py] ([MessagesResource.send_and_wait]),
    together with the properties of the written specification that can be
    stated over it.

    Conventions.
    - Python [str] values are byte strings in UTF-8: every operation the
      code performs on them ([startswith(":")], [find(":")], slicing at the
      colon, [lstrip(" ")], [==], [join]) acts on ASCII delimiters, so it
      commutes with the encoding.
    - Values produced by [json.loads] are the inductive type [json];
      Python's [None] is [JNull].
    - A call that can raise returns a [result]; every exception that occurs
      in the modelled code derives from Python's [Exception] class, which is
      what the [except Exception] clauses of the source catch.
    - Mutable objects captured by closures (the handler registry, the
      correlation state of a wait) are threaded explicitly. *)

From Stdlib Require Import String Ascii ZArith QArith Qminmax List Bool Lia.
From Stdlib Require Import Floats.SpecFloat DecimalString.
From stdpp Require Import base option strings list gmap.
Import ListNotations.

Set Warnings "-register-all".

(** String concatenation computes under [simpl] in this file. *)
#[local] Arguments String.append !s1 s2 : simpl nomatch.

Local Open Scope Z_scope.
Local Open Scope list_scope.
Local Open Scope string_scope.

(** ** Python values *)

Module Py.

(** What [json.loads] can return. Objects keep their keys in insertion
    order, each key once. *)
Inductive json : Type :=
| JNull
| JBool (b : bool)
| JInt (z : Z)
| JFloat (f : spec_float)
| JStr (s : string)
| JArr (items : list json)
| JObj (fields : list (string * json)).

(** Exceptions, all subclasses of [Exception]. [UserError] stands for any
    other exception a caller-supplied callable may raise. *)
Inductive exn : Type :=
| AttributeError
| TypeError
| KeyError
| IndexError
| JSONDecodeError
| ConnectionError
| OverflowError
| TimeoutError (msg : string)
| RuntimeError (msg : string)
| HsafaApiError (status : Z)
| UserError (tag : string).

Inductive result (A : Type) : Type :=
| Ok (a : A)
| Raise (e : exn).
Arguments Ok {A} a.
Arguments Raise {A} e.

(** Sequencing: the first exception raised ends the computation. *)
#[export] Instance result_ret : MRet result := fun A a => Ok a.
#[export] Instance result_bind : MBind result := fun A B k r =>
  match r with
  | Ok a => k a
  | Raise e => Raise e
  end.

(** [bool(v)]: the truth value Python gives to [v] in [if v], [not v] and
    [v or w]. *)
Definition truthy (v : json) : bool :=
  match v with
  | JNull => false
  | JBool b => b
  | JInt z => negb (Z.eqb z 0)
  | JFloat f => match f with S754_zero _ => false | _ => true end
  | JStr s => negb (String.eqb s "")
  | JArr items => match items with [] => false | _ :: _ => true end
  | JObj fields => match fields with [] => false | _ :: _ => true end
  end.

(** [a or b] *)
Definition py_or (a b : json) : json := if truthy a then a else b.

(** Lookup of a key in the fields of an object. *)
Fixpoint dict_get (k : string) (fields : list (string * json)) : option json :=
  match fields with
  | [] => None
  | (k', v) :: rest => if String.eqb k k' then Some v else dict_get k rest
  end.

(** [d[k] = v]: an existing key keeps its position, a new key goes last. *)
Fixpoint dict_set {A} (k : string) (v : A) (fields : list (string * A))
  : list (string * A) :=
  match fields with
  | [] => [(k, v)]
  | (k', v') :: rest =>
      if String.eqb k k' then (k, v) :: rest else (k', v') :: dict_set k v rest
  end.

(** [v.get(k, dflt)]; only a [dict] has the method. *)
Definition get_default (v : json) (k : string) (dflt : json) : result json :=
  match v with
  | JObj fields => Ok (default dflt (dict_get k fields))
  | _ => Raise AttributeError
  end.

(** [v.get(k)] *)
Definition get (v : json) (k : string) : result json := get_default v k JNull.

(** [isinstance(v, dict)] *)
Definition is_dict (v : json) : bool :=
  match v with JObj _ => true | _ => false end.

(** Lists and dicts are unhashable: using one as a dictionary key raises
    [TypeError]. *)
Definition hashable (v : json) : bool :=
  match v with
  | JArr _ | JObj _ => false
  | _ => true
  end.

(** [v[0]] *)
Definition index0 (v : json) : result json :=
  match v with
  | JArr (x :: _) => Ok x
  | JArr [] => Raise IndexError
  | JStr (String c _) => Ok (JStr (String c ""))
  | JStr EmptyString => Raise IndexError
  | JObj _ => Raise KeyError
  | _ => Raise TypeError
  end.

(** [v[k]] for a string key [k] *)
Definition getitem (v : json) (k : string) : result json :=
  match v with
  | JObj fields =>
      match dict_get k fields with
      | Some x => Ok x
      | None => Raise KeyError
      end
  | _ => Raise TypeError
  end.

(** The exact rational value of a number, for [==] across [bool], [int]
    and finite [float]. *)
Definition float_value (f : spec_float) : option Q :=
  match f with
  | S754_zero _ => Some 0%Q
  | S754_finite sgn m e =>
      let zm := if sgn then Z.neg m else Z.pos m in
      Some (if Z.leb 0 e then inject_Z (zm * 2 ^ e)%Z
            else Qmake zm (Z.to_pos (2 ^ (- e))%Z))
  | _ => None
  end.

Definition number_value (v : json) : option Q :=
  match v with
  | JBool b => Some (inject_Z (Z.b2z b))
  | JInt z => Some (inject_Z z)
  | JFloat f => float_value f
  | _ => None
  end.

Definition is_number (v : json) : bool :=
  match v with
  | JBool _ | JInt _ | JFloat _ => true
  | _ => false
  end.

(** [a == b]. Numbers compare by value (so [True == 1 == 1.0]), infinities
    by sign, a NaN equals nothing; strings and lists compare structurally;
    dicts compare as maps, whatever the order of their keys. *)
Fixpoint py_eq (a b : json) {struct a} : bool :=
  match a, b with
  | JNull, JNull => true
  | JStr s, JStr t => String.eqb s t
  | JArr la, JArr lb =>
      (fix go (la lb : list json) {struct la} : bool :=
         match la, lb with
         | [], [] => true
         | x :: la', y :: lb' => py_eq x y && go la' lb'
         | _, _ => false
         end) la lb
  | JObj fa, JObj fb =>
      Nat.eqb (length fa) (length fb) &&
      (fix go (fa : list (string * json)) {struct fa} : bool :=
         match fa with
         | [] => true
         | (k, v) :: fa' =>
             match dict_get k fb with
             | Some w => py_eq v w
             | None => false
             end && go fa'
         end) fa
  | _, _ =>
      if is_number a && is_number b then
        match number_value a, number_value b with
        | Some x, Some y => Qeq_bool x y
        | None, None =>
            match a, b with
            | JFloat (S754_infinity s), JFloat (S754_infinity t) => Bool.eqb s t
            | _, _ => false
            end
        | _, _ => false
        end
      else false
  end.

(** [sep.join(parts)] for a list of [str]. *)
Fixpoint join (sep : string) (parts : list string) : string :=
  match parts with
  | [] => ""
  | [p] => p
  | p :: rest => p ++ sep ++ join sep rest
  end.

(** [sep.join(parts)] for a list of arbitrary values: a value that is not
    a [str] raises [TypeError]. *)
Fixpoint as_strs (parts : list json) : result (list string) :=
  match parts with
  | [] => Ok []
  | JStr s :: rest => r ← as_strs rest; Ok (s :: r)
  | _ :: _ => Raise TypeError
  end.

Definition join_values (sep : string) (parts : list json) : result string :=
  strs ← as_strs parts; Ok (join sep strs).

End Py.

Import Py.

(** ** A reader for JSON text

    [json.loads] belongs to the Python library; the development takes it as
    a parameter. [JsonText.loads] is an instance to run examples with: a
    reader for the documents made of objects, arrays, strings with the
    two-character escapes, integers, [true], [false] and [null]. On such a
    text it returns what [json.loads] returns (for a repeated key the last
    value, at the position of the first). *)

Module JsonText.

Definition is_ws (c : ascii) : bool :=
  Ascii.eqb c " " || Ascii.eqb c "009" || Ascii.eqb c "010" || Ascii.eqb c "013".

Fixpoint skip_ws (s : string) : string :=
  match s with
  | String c rest => if is_ws c then skip_ws rest else s
  | EmptyString => s
  end.

Definition digit_of (c : ascii) : option Z :=
  let n := Z.of_nat (nat_of_ascii c) in
  if Z.leb 48 n && Z.leb n 57 then Some (n - 48) else None.

Fixpoint read_digits (acc : Z) (s : string) : Z * string :=
  match s with
  | String c rest =>
      match digit_of c with
      | Some d => read_digits (10 * acc + d) rest
      | None => (acc, s)
      end
  | EmptyString => (acc, s)
  end.

(** A fraction or an exponent follows: a [float], which is not read. *)
Definition continues_number (s : string) : bool :=
  match s with
  | String c _ => Ascii.eqb c "." || Ascii.eqb c "e" || Ascii.eqb c "E"
  | EmptyString => false
  end.

Definition is_digit (s : string) : bool :=
  match s with
  | String c _ => match digit_of c with Some _ => true | None => false end
  | EmptyString => false
  end.

(** An integer literal: no leading zero before another digit. *)
Definition read_int (s : string) : option (Z * string) :=
  let '(neg, s1) :=
    match s with
    | String "-" rest => (true, rest)
    | _ => (false, s)
    end in
  match s1 with
  | String c rest =>
      if is_digit s1 then
        let '(n, s2) := read_digits 0 s1 in
        if (Ascii.eqb c "0" && is_digit rest) || continues_number s2 then None
        else Some (if neg then - n else n, s2)
      else None
  | EmptyString => None
  end.

Definition unescape (c : ascii) : option ascii :=
  if Ascii.eqb c "034" then Some "034"%char
  else if Ascii.eqb c "\" then Some "\"%char
  else if Ascii.eqb c "/" then Some "/"%char
  else if Ascii.eqb c "n" then Some "010"%char
  else if Ascii.eqb c "t" then Some "009"%char
  else if Ascii.eqb c "r" then Some "013"%char
  else if Ascii.eqb c "b" then Some "008"%char
  else if Ascii.eqb c "f" then Some "012"%char
  else None.

(** The characters of a string after its opening quote. *)
Fixpoint read_string (s : string) : option (string * string) :=
  match s with
  | EmptyString => None
  | String c rest =>
      if Ascii.eqb c "034" then Some ("", rest)
      else if Ascii.eqb c "\" then
        match rest with
        | String e rest' =>
            match unescape e, read_string rest' with
            | Some c', Some (str, r) => Some (String c' str, r)
            | _, _ => None
            end
        | EmptyString => None
        end
      else if Nat.ltb (nat_of_ascii c) 32 then None
      else
        match read_string rest with
        | Some (str, r) => Some (String c str, r)
        | None => None
        end
  end.

Fixpoint expect (word s : string) : option string :=
  match word, s with
  | EmptyString, _ => Some s
  | String a word', String b s' => if Ascii.eqb a b then expect word' s' else None
  | _, _ => None
  end.

(** [read_value] reads one value; [read_items] the rest of an array, after
    a value is due; [read_fields] the rest of an object, after a member is
    due. The fuel bounds the nesting and the number of members. *)
Fixpoint read_value (fuel : nat) (s : string) : option (json * string) :=
  match fuel with
  | O => None
  | Datatypes.S fuel' =>
      match skip_ws s with
      | String "n" rest => r ← expect "ull" rest; Some (JNull, r)
      | String "t" rest => r ← expect "rue" rest; Some (JBool true, r)
      | String "f" rest => r ← expect "alse" rest; Some (JBool false, r)
      | String "034" rest => '(str, r) ← read_string rest; Some (JStr str, r)
      | String "[" rest =>
          match skip_ws rest with
          | String "]" r => Some (JArr [], r)
          | _ => '(items, r) ← read_items fuel' rest; Some (JArr items, r)
          end
      | String "{" rest =>
          match skip_ws rest with
          | String "}" r => Some (JObj [], r)
          | _ => '(fields, r) ← read_fields fuel' rest []; Some (JObj fields, r)
          end
      | other => '(n, r) ← read_int other; Some (JInt n, r)
      end
  end
with read_items (fuel : nat) (s : string) : option (list json * string) :=
  match fuel with
  | O => None
  | Datatypes.S fuel' =>
      '(v, r) ← read_value fuel' s;
      match skip_ws r with
      | String "," r' => '(vs, r'') ← read_items fuel' r'; Some (v :: vs, r'')
      | String "]" r' => Some ([v], r')
      | _ => None
      end
  end
with read_fields (fuel : nat) (s : string) (acc : list (string * json))
  : option (list (string * json) * string) :=
  match fuel with
  | O => None
  | Datatypes.S fuel' =>
      match skip_ws s with
      | String "034" rest =>
          '(k, r) ← read_string rest;
          match skip_ws r with
          | String ":" r' =>
              '(v, r'') ← read_value fuel' r';
              let acc' := dict_set k v acc in
              match skip_ws r'' with
              | String "," r3 => read_fields fuel' r3 acc'
              | String "}" r3 => Some (acc', r3)
              | _ => None
              end
          | _ => None
          end
      | _ => None
      end
  end.

Definition loads (s : string) : option json :=
  '(v, r) ← read_value (Datatypes.S (String.length s)) s;
  match skip_ws r with
  | EmptyString => Some v
  | _ => None
  end.

(** JSON text is written below with ['] for the double quote. *)
Fixpoint dq (s : string) : string :=
  match s with
  | String c rest => String (if Ascii.eqb c "'" then "034"%char else c) (dq rest)
  | EmptyString => ""
  end.

End JsonText.

(** ** [hsafa/sse.py]: class [SSEStream] *)

Module SSE.

(** *** String operations used by the line parser *)

(** [line.startswith(":")] *)
Definition starts_with_colon (line : string) : bool :=
  match line with
  | String c _ => Ascii.eqb c ":"
  | EmptyString => false
  end.

(** [line.find(":")]: index of the first colon, [-1] when there is none. *)
Fixpoint find_colon (line : string) : Z :=
  match line with
  | EmptyString => -1
  | String c rest =>
      if Ascii.eqb c ":" then 0
      else let i := find_colon rest in
           if Z.eqb i (-1) then -1 else i + 1
  end.

Fixpoint take (n : nat) (s : string) : string :=
  match n, s with
  | S n', String c rest => String c (take n' rest)
  | _, _ => ""
  end.

Fixpoint drop (n : nat) (s : string) : string :=
  match n, s with
  | S n', String _ rest => drop n' rest
  | _, _ => s
  end.

(** [line[:i]] and [line[i:]] for [0 <= i] *)
Definition slice_to (line : string) (i : Z) : string := take (Z.to_nat i) line.
Definition slice_from (line : string) (i : Z) : string := drop (Z.to_nat i) line.

(** [s.lstrip(" ")]: removes every leading space. *)
Fixpoint lstrip_spaces (s : string) : string :=
  match s with
  | String c rest => if Ascii.eqb c " " then lstrip_spaces rest else s
  | EmptyString => ""
  end.

Definition newline : string := String "010" "".

(** *** Frames and events *)

(** The accumulator [current = {"data": [], "id": None, "type": None}]. *)
Record frame : Type := {
  frame_data : list string;
  frame_id : option string;
  frame_type : option string
}.

Definition empty_frame : frame :=
  {| frame_data := []; frame_id := None; frame_type := None |}.

(** The dict built by [_process_raw]; one field per key. *)
Record event : Type := {
  ev_id : json;
  ev_type : json;
  ev_ts : json;
  ev_data : json;
  ev_smartSpaceId : json;
  ev_runId : json;
  ev_entityId : json;
  ev_agentEntityId : json;
  ev_seq : json
}.

(** [event.get(k)] on such a dict. *)
Definition event_get (ev : event) (k : string) : json :=
  if String.eqb k "id" then ev_id ev
  else if String.eqb k "type" then ev_type ev
  else if String.eqb k "ts" then ev_ts ev
  else if String.eqb k "data" then ev_data ev
  else if String.eqb k "smartSpaceId" then ev_smartSpaceId ev
  else if String.eqb k "runId" then ev_runId ev
  else if String.eqb k "entityId" then ev_entityId ev
  else if String.eqb k "agentEntityId" then ev_agentEntityId ev
  else if String.eqb k "seq" then ev_seq ev
  else JNull.

(** An optional [str] of the accumulator as a value ([None] is [JNull]). *)
Definition of_opt (o : option string) : json :=
  match o with
  | Some s => JStr s
  | None => JNull
  end.

(** Lines 81-92 of [_process_raw]: the event built from the accumulator
    and the parsed document. [parsed.get] raises [AttributeError] when the
    document is not an object. *)
Definition build_event (raw : frame) (parsed : json) : result event :=
  pdata ← get parsed "data";
  let data_field := py_or pdata parsed in
  pid ← get_default parsed "id" (JStr "");
  ptype ← get parsed "type";
  pts ← get_default parsed "ts" (JStr "");
  pspace ← get parsed "smartSpaceId";
  prun ← get parsed "runId";
  drun ← (if is_dict data_field then get data_field "runId" else Ok JNull);
  pentity ← get parsed "entityId";
  pagent ← get parsed "agentEntityId";
  pseq ← get parsed "seq";
  Ok {| ev_id := py_or (of_opt (frame_id raw)) pid;
        ev_type := py_or (py_or ptype (of_opt (frame_type raw))) (JStr "unknown");
        ev_ts := pts;
        ev_data := data_field;
        ev_smartSpaceId := pspace;
        ev_runId := py_or prun drun;
        ev_entityId := pentity;
        ev_agentEntityId := pagent;
        ev_seq := pseq |}.

(** A listener: a callable taking the event. It acts on a state of type
    [S], which it may change before it returns or raises. *)
Abbreviation listener S := (event -> S -> S * result unit).

Section Stream.

(** [json.loads], a function of the Python library: [None] when it raises
    (a [JSONDecodeError], or a [RecursionError] on deep nesting). *)
Variable json_loads : string -> option json.

(** The state that listeners and callbacks act on. *)
Context {S : Type}.

(** Lines 80-92 of [_process_raw]: the event that the [try] block builds
    from a non-empty data string, or the exception that ends the block
    before [_emit] is called. *)
Definition decode (raw : frame) (data_str : string) : result event :=
  match json_loads data_str with
  | None => Raise JSONDecodeError
  | Some parsed => build_event raw parsed
  end.

(** [for handler in hs: try: handler(event) except Exception: pass] *)
Fixpoint call_all (hs : list (listener S)) (ev : event) (s : S) : S :=
  match hs with
  | [] => s
  | handler :: rest => call_all rest ev (fst (handler ev s))
  end.

(** [self._handlers.get(key, [])] for a key that is any value: the keys of
    the registry are [str], so only a [str] can be found. *)
Definition handlers_get (handlers : gmap string (list (listener S))) (key : json)
  : result (list (listener S)) :=
  if hashable key then
    Ok (match key with
        | JStr t => default [] (handlers !! t)
        | _ => []
        end)
  else Raise TypeError.

Definition _emit (handlers : gmap string (list (listener S)))
    (event_type : json) (ev : event) (s : S) : S * result unit :=
  match handlers_get handlers event_type with
  | Raise e => (s, Raise e)
  | Ok typed =>
      let s1 := call_all typed ev s in
      let s2 := call_all (default [] (handlers !! "*")) ev s1 in
      (s2, Ok tt)
  end.

(** [_process_raw]: the [try] block runs [decode] and [_emit]; the clause
    [except (json.JSONDecodeError, Exception): pass] discards whatever
    either raises. *)
Definition _process_raw (handlers : gmap string (list (listener S)))
    (raw : frame) (s : S) : S * result unit :=
  let data_str := join newline (frame_data raw) in
  if String.eqb data_str "" then (s, Ok tt)
  else
    let '(s', _) :=
      match decode raw data_str with
      | Raise e => (s, Raise e)
      | Ok ev => _emit handlers (ev_type ev) ev s
      end in
    (s', Ok tt).

(** [self._handlers.setdefault(event_type, []).append(handler)] *)
Definition handlers_on (event_type : string) (handler : listener S)
    (handlers : gmap string (list (listener S))) : gmap string (list (listener S)) :=
  <[event_type := (default [] (handlers !! event_type) ++ [handler])%list]> handlers.

(** *** The connection object *)

(** [min(a, b)] of Python: [b] if [b < a], else [a]. *)
Definition py_min (a b : Q) : Q :=
  match Qcompare b a with
  | Lt => b
  | _ => a
  end.

(** The attributes set by [__init__]. The two delays are floats, in
    seconds, given by their exact values; they are finite and in the
    range that [time.sleep] accepts (on a negative delay it raises
    [ValueError]). [_thread] records whether the background thread has
    been started. *)
Record SSEStream : Type := {
  _url : string;
  _headers : gmap string string;
  _reconnect : bool;
  _reconnect_delay : Q;
  _max_reconnect_delay : Q;
  _on_open : option (S -> S * result unit);
  _on_error : option (exn -> S -> S * result unit);
  _on_close : option (S -> S * result unit);
  _handlers : gmap string (list (listener S));
  _closed : bool;
  _reconnect_attempts : Z;
  _thread : bool
}.

(** [SSEStream(url, headers, reconnect=True, reconnect_delay=1.0,
    max_reconnect_delay=30.0, on_open=None, on_error=None, on_close=None)] *)
Definition init (url : string) (headers : gmap string string)
    (reconnect : bool) (reconnect_delay max_reconnect_delay : Q)
    (on_open : option (S -> S * result unit))
    (on_error : option (exn -> S -> S * result unit))
    (on_close : option (S -> S * result unit)) : SSEStream :=
  {| _url := url;
     _headers := <["Cache-Control" := "no-cache"]>
                   (<["Accept" := "text/event-stream"]> headers);
     _reconnect := reconnect;
     _reconnect_delay := reconnect_delay;
     _max_reconnect_delay := max_reconnect_delay;
     _on_open := on_open;
     _on_error := on_error;
     _on_close := on_close;
     _handlers := ∅;
     _closed := false;
     _reconnect_attempts := 0;
     _thread := false |}.

Definition default_reconnect_delay : Q := 1.
Definition default_max_reconnect_delay : Q := 30.

Definition set_handlers (h : gmap string (list (listener S))) (st : SSEStream) :=
  {| _url := _url st; _headers := _headers st; _reconnect := _reconnect st;
     _reconnect_delay := _reconnect_delay st;
     _max_reconnect_delay := _max_reconnect_delay st;
     _on_open := _on_open st; _on_error := _on_error st;
     _on_close := _on_close st; _handlers := h; _closed := _closed st;
     _reconnect_attempts := _reconnect_attempts st; _thread := _thread st |}.

Definition set_closed (b : bool) (st : SSEStream) :=
  {| _url := _url st; _headers := _headers st; _reconnect := _reconnect st;
     _reconnect_delay := _reconnect_delay st;
     _max_reconnect_delay := _max_reconnect_delay st;
     _on_open := _on_open st; _on_error := _on_error st;
     _on_close := _on_close st; _handlers := _handlers st; _closed := b;
     _reconnect_attempts := _reconnect_attempts st; _thread := _thread st |}.

Definition set_reconnect_attempts (n : Z) (st : SSEStream) :=
  {| _url := _url st; _headers := _headers st; _reconnect := _reconnect st;
     _reconnect_delay := _reconnect_delay st;
     _max_reconnect_delay := _max_reconnect_delay st;
     _on_open := _on_open st; _on_error := _on_error st;
     _on_close := _on_close st; _handlers := _handlers st;
     _closed := _closed st; _reconnect_attempts := n; _thread := _thread st |}.

Definition set_thread (b : bool) (st : SSEStream) :=
  {| _url := _url st; _headers := _headers st; _reconnect := _reconnect st;
     _reconnect_delay := _reconnect_delay st;
     _max_reconnect_delay := _max_reconnect_delay st;
     _on_open := _on_open st; _on_error := _on_error st;
     _on_close := _on_close st; _handlers := _handlers st;
     _closed := _closed st; _reconnect_attempts := _reconnect_attempts st;
     _thread := b |}.

(** [stream.on(event_type, handler)] *)
Definition on (event_type : string) (handler : listener S) (st : SSEStream)
  : SSEStream :=
  set_handlers (handlers_on event_type handler (_handlers st)) st.

(** An optional callback, called when it is set. *)
Definition call_opt (cb : option (S -> S * result unit)) (s : S)
  : S * result unit :=
  match cb with
  | Some f => f s
  | None => (s, Ok tt)
  end.

(** [stream.close()]: the flag is set before the callback runs, so it stays
    set when the callback raises. *)
Definition close (st : SSEStream) (s : S) : SSEStream * S * result unit :=
  let st' := set_closed true st in
  let '(s', r) := call_opt (_on_close st') s in
  (st', s', r).

(** [stream.start()] *)
Definition start (st : SSEStream) : SSEStream := set_thread true st.

(** *** The read loop *)

(** Lines 141-146: a recognised field is stored in the accumulator. *)
Definition assign_field (field value : string) (current : frame) : frame :=
  if String.eqb field "id" then
    {| frame_data := frame_data current; frame_id := Some value;
       frame_type := frame_type current |}
  else if String.eqb field "event" then
    {| frame_data := frame_data current; frame_id := frame_id current;
       frame_type := Some value |}
  else if String.eqb field "data" then
    {| frame_data := (frame_data current ++ [value])%list;
       frame_id := frame_id current; frame_type := frame_type current |}
  else current.

(** One iteration of [for raw_line in resp.iter_lines(...)] past the
    [closed] and [None] checks (lines 124-146). *)
Definition feed_line (handlers : gmap string (list (listener S)))
    (line : string) (current : frame) (s : S) : frame * S :=
  if starts_with_colon line then (current, s)
  else if String.eqb line "" then
    (empty_frame,
     match frame_data current with
     | [] => s
     | _ :: _ => fst (_process_raw handlers current s)
     end)
  else
    let colon := find_colon line in
    if Z.eqb colon (-1) then (current, s)
    else
      let field := slice_to line colon in
      let value := lstrip_spaces (slice_from line (colon + 1)) in
      (assign_field field value current, s).

(** What the environment does while a response is being read: the server
    delivers a line ([iter_lines] may yield [None]), or another thread
    calls [close()]. *)
Inductive read_item : Type :=
| Line (raw_line : option string)
| CloseCalled.

(** How reading a response ends: the server ends the body, or the
    transport fails. *)
Inductive stream_end : Type :=
| EndOfStream
| ReadError (e : exn).

(** One pass through the body of [while not self._closed]. For a failed
    request, [closed_meanwhile] tells whether [close()] was called while
    the request was in flight. *)
Inductive attempt : Type :=
| ConnectError (e : exn) (closed_meanwhile : bool)
| BadStatus (closed_meanwhile : bool)
| Opened (items : list read_item) (ending : stream_end).

(** What the loop does that its environment can observe. *)
Inductive action : Type :=
| Connect
| Sleep (delay : Q).

(** How far [_run] got: it returned (the loop condition failed, or it hit
    [return] or [break]), an exception escaped it, or it is still in the
    loop, about to issue the next request. *)
Inductive run_end : Type :=
| Returned
| Crashed (e : exn)
| Running.

(** The [for] loop over the lines of one response. The last component is
    [true] when the loop hit [return] (a line arrived after [close()]). *)
Fixpoint read_lines (st : SSEStream) (items : list read_item)
    (current : frame) (s : S) : SSEStream * S * bool :=
  match items with
  | [] => (st, s, false)
  | CloseCalled :: rest =>
      let '(st', s', _) := close st s in
      read_lines st' rest current s'
  | Line raw_line :: rest =>
      if _closed st then (st, s, true)
      else
        match raw_line with
        | None => read_lines st rest current s
        | Some line =>
            let '(current', s') := feed_line (_handlers st) line current s in
            read_lines st rest current' s'
        end
  end.

(** [delay * (2 ** n)], a float times an integer (lines 156-157). The
    integer is converted to a float first, and from [2 ** 1024] on the
    conversion raises [OverflowError]. Below that the factor is a power of
    two, so the product is exact unless it is beyond the largest float,
    where it is [inf]; [min] with a finite maximum then gives the maximum,
    as it does on the exact product. *)
Definition float_times_pow2 (delay : Q) (n : Z) : result Q :=
  if Z.leb 1024 n then Raise OverflowError
  else Ok (delay * inject_Z (2 ^ n))%Q.

(** The [except Exception as exc] clause (lines 148-160). [None] as last
    component: the loop goes on. Nothing catches what the clause itself
    raises: the exception of the error callback, or the [OverflowError]
    of the delay, raised after the counter was incremented and before
    the sleep. *)
Definition on_failure (st : SSEStream) (exc : exn) (s : S)
  : SSEStream * S * list action * option run_end :=
  if _closed st then (st, s, [], Some Returned)
  else
    let '(s1, r) :=
      match _on_error st with
      | Some f => f exc s
      | None => (s, Ok tt)
      end in
    match r with
    | Raise e => (st, s1, [], Some (Crashed e))
    | Ok _ =>
        if negb (_reconnect st) then (st, s1, [], Some Returned)
        else
          let st1 := set_reconnect_attempts (_reconnect_attempts st + 1) st in
          match float_times_pow2 (_reconnect_delay st1)
                                 (_reconnect_attempts st1 - 1) with
          | Raise e => (st1, s1, [], Some (Crashed e))
          | Ok scaled =>
              let delay := py_min scaled (_max_reconnect_delay st1) in
              (st1, s1, [Sleep delay], None)
          end
    end.

(** The body of the [while] loop for one attempt. *)
Definition run_attempt (st : SSEStream) (a : attempt) (s : S)
  : SSEStream * S * list action * option run_end :=
  let closing (b : bool) :=
    if b then let '(st', s', _) := close st s in (st', s') else (st, s) in
  match a with
  | ConnectError e b =>
      let '(st', s') := closing b in
      let '(st2, s2, acts, fin) := on_failure st' e s' in
      (st2, s2, Connect :: acts, fin)
  | BadStatus b =>
      let '(st', s') := closing b in
      let '(st2, s2, acts, fin) := on_failure st' ConnectionError s' in
      (st2, s2, Connect :: acts, fin)
  | Opened items ending =>
      let st1 := set_reconnect_attempts 0 st in
      let '(s1, r) := call_opt (_on_open st1) s in
      match r with
      | Raise e =>
          let '(st2, s2, acts, fin) := on_failure st1 e s1 in
          (st2, s2, Connect :: acts, fin)
      | Ok _ =>
          let '(st2, s2, returned) := read_lines st1 items empty_frame s1 in
          if returned then (st2, s2, [Connect], Some Returned)
          else
            match ending with
            | EndOfStream => (st2, s2, [Connect], None)
            | ReadError e =>
                let '(st3, s3, acts, fin) := on_failure st2 e s2 in
                (st3, s3, Connect :: acts, fin)
            end
      end
  end.

(** What the environment does between two checks of the loop condition. *)
Inductive step : Type :=
| Attempt (a : attempt)
| CloseBetween.

(** [_run], against a script of what the environment does. *)
Fixpoint _run (st : SSEStream) (script : list step) (s : S)
  : SSEStream * S * list action * run_end :=
  if _closed st then (st, s, [], Returned)
  else
    match script with
    | [] => (st, s, [], Running)
    | CloseBetween :: rest =>
        let '(st', s', _) := close st s in
        _run st' rest s'
    | Attempt a :: rest =>
        let '(st1, s1, acts, fin) := run_attempt st a s in
        match fin with
        | Some e => (st1, s1, acts, e)
        | None =>
            let '(st2, s2, acts', e) := _run st1 rest s1 in
            (st2, s2, (acts ++ acts')%list, e)
        end
    end.

End Stream.

End SSE.

(** ** [hsafa/auth.py] and [hsafa/http.py]: what [send_and_wait] uses *)

Module Http.

Definition opt_truthy (o : option string) : bool :=
  match o with
  | Some s => negb (String.eqb s "")
  | None => false
  end.

(** [build_auth_headers(secret_key, public_key, jwt)] *)
Definition build_auth_headers (secret_key public_key jwt : option string)
  : gmap string string :=
  if opt_truthy secret_key then {["x-secret-key" := default "" secret_key]}
  else if opt_truthy public_key then
    let headers : gmap string string :=
      {["x-public-key" := default "" public_key]} in
    if opt_truthy jwt then
      <["Authorization" := "Bearer " ++ default "" jwt]> headers
    else headers
  else ∅.

(** [base_url] is the gateway URL with its trailing slashes removed. *)
Record HttpClient : Type := {
  base_url : string;
  secret_key : option string;
  public_key : option string;
  jwt : option string
}.

Definition get_auth_headers (http : HttpClient) : gmap string string :=
  build_auth_headers (secret_key http) (public_key http) (jwt http).

(** [build_url(path)] with no query parameters *)
Definition build_url (http : HttpClient) (path : string) : string :=
  base_url http ++ path.

End Http.

(** ** [hsafa/resources/messages.py]: [MessagesResource.send_and_wait] *)

Module Messages.

Import SSE Http.

(** The objects shared by the closures of one call: [text_parts],
    [tool_calls] (a dict, in insertion order), [done_event] (set or not),
    [error_holder] (a dict with at most the key ["error"]) and
    [_settled[0]]. Every handler body that touches [_settled] runs under
    the lock [settled], so handlers are atomic steps on this state. *)
Record wait_state : Type := {
  text_parts : list json;
  tool_calls : list (string * json);
  done_event : bool;
  error_holder : option string;
  _settled : bool
}.

Definition initial_wait : wait_state :=
  {| text_parts := []; tool_calls := []; done_event := false;
     error_holder := None; _settled := false |}.

Definition set_settled (w : wait_state) : wait_state :=
  {| text_parts := text_parts w; tool_calls := tool_calls w;
     done_event := done_event w; error_holder := error_holder w;
     _settled := true |}.

Definition set_done (w : wait_state) : wait_state :=
  {| text_parts := text_parts w; tool_calls := tool_calls w;
     done_event := true; error_holder := error_holder w;
     _settled := _settled w |}.

Definition set_error (msg : string) (w : wait_state) : wait_state :=
  {| text_parts := text_parts w; tool_calls := tool_calls w;
     done_event := done_event w; error_holder := Some msg;
     _settled := _settled w |}.

Definition set_text_parts (parts : list json) (w : wait_state) : wait_state :=
  {| text_parts := parts; tool_calls := tool_calls w;
     done_event := done_event w; error_holder := error_holder w;
     _settled := _settled w |}.

Definition set_tool_calls (calls : list (string * json)) (w : wait_state)
  : wait_state :=
  {| text_parts := text_parts w; tool_calls := calls;
     done_event := done_event w; error_holder := error_holder w;
     _settled := _settled w |}.

(** Which of the two connections dispatches an event. *)
Inductive feed : Type :=
| SpaceFeed
| RunFeed.

Section SendAndWait.

(** [str(v)] for a value that is not a [str], and the text an f-string
    gives to a [float]: functions of the Python runtime. *)
Variable py_repr : json -> string.
Variable format_float : Q -> string.

(** [str(v)], also the text of [v] in an f-string *)
Definition py_str (v : json) : string :=
  match v with
  | JStr s => s
  | _ => py_repr v
  end.

(** [event.get("data") or {}] *)
Definition data_or_empty (ev : event) : json :=
  py_or (event_get ev "data") (JObj []).

Definition finish (w : wait_state) : wait_state :=
  if _settled w then w else set_done (set_settled w).

Definition on_error_event (ev : event) (w : wait_state)
  : wait_state * result unit :=
  if _settled w then (w, Ok tt)
  else
    let w1 := set_settled w in
    match get_default (data_or_empty ev) "error" (JStr "Stream error") with
    | Raise e => (w1, Raise e)
    | Ok v => (set_done (set_error (py_str v) w1), Ok tt)
    end.

Definition on_run_completed (_event : event) (w : wait_state)
  : wait_state * result unit :=
  (finish w, Ok tt).

Definition on_run_failed (ev : event) (w : wait_state)
  : wait_state * result unit :=
  if _settled w then (w, Ok tt)
  else
    let w1 := set_settled w in
    match get_default (data_or_empty ev) "errorMessage" (JStr "Run failed") with
    | Raise e => (w1, Raise e)
    | Ok v => (set_done (set_error (py_str v) w1), Ok tt)
    end.

Definition on_space_message (ev : event) (w : wait_state)
  : wait_state * result unit :=
  match
    (m ← get (data_or_empty ev) "message";
     let msg := py_or m (JObj []) in
     role_ ← get_default msg "role" (JStr "");
     if negb (py_eq role_ (JStr "assistant") || py_eq role_ (JStr "agent"))
     then Ok None
     else c ← get msg "content"; Ok (Some c))
  with
  | Raise e => (w, Raise e)
  | Ok None => (w, Ok tt)
  | Ok (Some c) =>
      (if truthy c then set_text_parts (text_parts w ++ [c])%list w else w,
       Ok tt)
  end.

(** [event.get("runId") or (event.get("data") or {}).get("runId")] *)
Definition event_rid (ev : event) : result json :=
  if truthy (event_get ev "runId") then Ok (event_get ev "runId")
  else get (data_or_empty ev) "runId".

Definition on_agent_inactive (run_id : json) (ev : event) (w : wait_state)
  : wait_state * result unit :=
  match event_rid ev with
  | Raise e => (w, Raise e)
  | Ok rid => (if py_eq rid run_id then finish w else w, Ok tt)
  end.

(** [str(data.get("streamId") or data.get("toolCallId") or "")] *)
Definition call_id_of (data : json) : result string :=
  a ← get data "streamId";
  b ← get data "toolCallId";
  Ok (py_str (py_or (py_or a b) (JStr ""))).

Definition on_tool_started (ev : event) (w : wait_state)
  : wait_state * result unit :=
  let data := data_or_empty ev in
  match
    (call_id ← call_id_of data;
     if String.eqb call_id "" then Ok None
     else name ← get_default data "toolName" (JStr "");
          Ok (Some (call_id, py_str name)))
  with
  | Raise e => (w, Raise e)
  | Ok None => (w, Ok tt)
  | Ok (Some (call_id, name)) =>
      (set_tool_calls
         (dict_set call_id
            (JObj [("id", JStr call_id); ("name", JStr name);
                   ("input", JNull); ("output", JNull)])
            (tool_calls w)) w,
       Ok tt)
  end.

(** The record stored under [call_id], after its ["input"] and ["output"]
    are assigned. *)
Definition fill_call (input output : json) (call : json) : json :=
  match call with
  | JObj fields => JObj (dict_set "output" output (dict_set "input" input fields))
  | _ => call
  end.

Definition on_tool_done (ev : event) (w : wait_state)
  : wait_state * result unit :=
  let data := data_or_empty ev in
  match
    (call_id ← call_id_of data;
     match dict_get call_id (tool_calls w) with
     | None => Ok None
     | Some call =>
         input ← get data "input";
         res ← get data "result";
         out ← get data "output";
         Ok (Some (call_id, fill_call input (py_or res out) call))
     end)
  with
  | Raise e => (w, Raise e)
  | Ok None => (w, Ok tt)
  | Ok (Some (call_id, call)) =>
      (set_tool_calls (dict_set call_id call (tool_calls w)) w, Ok tt)
  end.

(** The two connections, as they are when [done_event.wait] begins: both
    constructed with [reconnect=False], the handlers registered, the
    threads started. *)
Definition space_stream (http : HttpClient) (space_id : string) (run_id : json)
  : @SSEStream wait_state :=
  start
    (on "error" on_error_event
       (on "agent.inactive" (on_agent_inactive run_id)
          (on "space.message" on_space_message
             (init
                (build_url http ("/api/smart-spaces/" ++ space_id ++ "/stream"))
                (get_auth_headers http) false
                default_reconnect_delay default_max_reconnect_delay
                None None None)))).

Definition run_stream (http : HttpClient) (run_id : json)
  : @SSEStream wait_state :=
  start
    (on "error" on_error_event
       (on "run.failed" on_run_failed
          (on "run.completed" on_run_completed
             (on "tool.done" on_tool_done
                (on "tool.started" on_tool_started
                   (init
                      (build_url http ("/api/runs/" ++ py_str run_id ++ "/stream"))
                      (get_auth_headers http) false
                      default_reconnect_delay default_max_reconnect_delay
                      None None None)))))).

(** One event dispatched by the read loop of one of the two connections:
    [self._emit(event["type"], event)] inside the [try] of
    [_process_raw]. *)
Definition deliver (sp rn : @SSEStream wait_state) (d : feed * event)
    (w : wait_state) : wait_state :=
  let st := match fst d with SpaceFeed => sp | RunFeed => rn end in
  fst (_emit (_handlers st) (ev_type (snd d)) (snd d) w).

Definition deliver_all (sp rn : @SSEStream wait_state)
    (ds : list (feed * event)) (w : wait_state) : wait_state :=
  fold_left (fun w d => deliver sp rn d w) ds w.

Definition empty_result : json :=
  JObj [("text", JStr ""); ("tool_calls", JArr []); ("run", JNull)].

Definition default_timeout : Q := 30.

(** The [try] block (lines 155-163), on the state the waiter finds. *)
Definition conclude (timeout : Q) (run_id : json) (w : wait_state)
  : result json :=
  if negb (done_event w) then
    Raise (TimeoutError
             ("send_and_wait timed out after " ++ format_float timeout ++ "s"))
  else
    match error_holder w with
    | Some msg => Raise (RuntimeError msg)
    | None =>
        text ← join_values newline (text_parts w);
        Ok (JObj [("text", JStr text);
                  ("tool_calls", JArr (map snd (tool_calls w)));
                  ("run", JObj [("id", run_id)])])
    end.

(** Lines 57-63, given what [self.send(...)] returns or raises: the run
    to wait for, [None] when [runs] is empty. *)
Definition run_id_of (send_result : result json) : result (option json) :=
  result ← send_result;
  runs ← get_default result "runs" (JArr []);
  if negb (truthy runs) then Ok None
  else first ← index0 runs;
       run_id ← getitem first "runId";
       Ok (Some run_id).

(** [send_and_wait(space_id, content, ..., timeout)].

    [send_result] is what [self.send(...)] returns or raises.
    [deliveries] are the events that the two read loops dispatch, in the
    order in which they run, until the waiter resumes: [done_event.wait]
    answers whether [done_event] was set by then.

    The second component is the two connections as the call leaves them,
    [None] when it leaves before constructing them. *)
Definition send_and_wait (http : HttpClient) (space_id : string)
    (send_result : result json) (timeout : Q)
    (deliveries : list (feed * event))
  : result json * option (@SSEStream wait_state * @SSEStream wait_state) :=
  match run_id_of send_result with
  | Raise e => (Raise e, None)
  | Ok None => (Ok empty_result, None)
  | Ok (Some run_id) =>
      let sp := space_stream http space_id run_id in
      let rn := run_stream http run_id in
      let w := deliver_all sp rn deliveries initial_wait in
      let outcome := conclude timeout run_id w in
      let '(sp', w', _) := close sp w in
      let '(rn', _, _) := close rn w' in
      (outcome, Some (sp', rn'))
  end.

End SendAndWait.

End Messages.


(** * Vocabulary of the statements *)

Module Statements.

Import SSE Http Messages.

(** ** Lines *)

Fixpoint spaces (n : nat) : string :=
  match n with
  | O => ""
  | Datatypes.S n' => String " " (spaces n')
  end.

Definition starts_with_space (s : string) : bool :=
  match s with
  | String c _ => Ascii.eqb c " "
  | EmptyString => false
  end.

(** ** Registrations *)

(** The registry after the calls [on(t1, h1)], [on(t2, h2)], ... made in
    this order on a new connection. *)
Definition register_all {S : Type} (regs : list (string * listener S))
  : gmap string (list (listener S)) :=
  fold_left (fun hs r => handlers_on (fst r) (snd r) hs) regs ∅.

(** The things registered under [t], in the order of registration. *)
Definition registered {A : Type} (t : string) (regs : list (string * A))
  : list A :=
  map snd (List.filter (fun r => String.eqb (fst r) t) regs).

(** A listener that records its call by appending [tag] to a log, and then
    returns or raises. *)
Definition logging (r : nat * bool) : listener (list nat) :=
  fun _ log =>
    ((log ++ [fst r])%list, if snd r then Raise (UserError "listener") else Ok tt).

Definition logging_regs (regs : list (string * (nat * bool)))
  : list (string * listener (list nat)) :=
  map (fun r => (fst r, logging (snd r))) regs.

(** ** Scripts of the read loop *)

(** The delays slept, in order. *)
Definition sleeps (acts : list action) : list Q :=
  flat_map (fun a => match a with Sleep d => [d] | Connect => [] end) acts.

(** [min(base * 2^(n-1), max)] *)
Definition backoff (base max : Q) (n : Z) : Q :=
  Qmin (base * inject_Z (2 ^ (n - 1))) max.

(** A request that fails while nobody closes the connection. *)
Definition failed_connect (a : attempt) : bool :=
  match a with
  | ConnectError _ false | BadStatus false => true
  | _ => false
  end.

(** A transport failure: the request fails, or reading the response does. *)
Definition transport_failure (a : attempt) : bool :=
  match a with
  | ConnectError _ _ | BadStatus _ | Opened _ (ReadError _) => true
  | Opened _ EndOfStream => false
  end.

(** Only lines arrive: nobody closes the connection meanwhile. *)
Definition lines_only (items : list read_item) : bool :=
  forallb (fun i => match i with Line _ => true | CloseCalled => false end) items.

(** The [on_error] callback, when there is one, returns. *)
Definition on_error_returns {S : Type} (st : @SSEStream S) : Prop :=
  forall f, _on_error st = Some f -> forall e s, snd (f e s) = Ok tt.

(** ** Settling handlers *)

(** A call of one of the four handlers that can settle a wait. *)
Inductive settling : Type :=
| RunCompleted (ev : event)
| RunFailed (ev : event)
| AgentInactive (ev : event)
| StreamError (ev : event).

(** The state after the call; what the handler raises is discarded by
    [_emit]. *)
Definition invoke (py_repr : json -> string) (run_id : json) (c : settling)
    (w : wait_state) : wait_state :=
  fst (match c with
       | RunCompleted ev => on_run_completed ev w
       | RunFailed ev => on_run_failed py_repr ev w
       | AgentInactive ev => on_agent_inactive run_id ev w
       | StreamError ev => on_error_event py_repr ev w
       end).

Definition invoke_all (py_repr : json -> string) (run_id : json)
    (cs : list settling) (w : wait_state) : wait_state :=
  fold_left (fun w c => invoke py_repr run_id c w) cs w.

(** How many of the calls find [_settled] false and leave it true. *)
Fixpoint transitions (py_repr : json -> string) (run_id : json)
    (cs : list settling) (w : wait_state) : nat :=
  match cs with
  | [] => 0
  | c :: rest =>
      let w' := invoke py_repr run_id c w in
      ((if negb (_settled w) && _settled w' then 1 else 0) +
       transitions py_repr run_id rest w')%nat
  end.

(** The part of the state that decides between success, failure and
    timeout. *)
Definition settlement (w : wait_state) : bool * bool * option string :=
  (_settled w, done_event w, error_holder w).

(** Once the wait is settled, a step leaves the settlement as it is. *)
Definition keeps_settlement (w w' : wait_state) : Prop :=
  _settled w = true -> settlement w' = settlement w.

(** [done_event] is only set once [_settled] is. *)
Definition done_when_settled (w : wait_state) : Prop :=
  done_event w = true -> _settled w = true.

Definition keeps_done_when_settled (w w' : wait_state) : Prop :=
  done_when_settled w -> done_when_settled w'.

(** An event with a type and a payload, its other fields unset. *)
Definition plain_event (type : string) (data : json) : event :=
  {| ev_id := JStr ""; ev_type := JStr type; ev_ts := JStr "";
     ev_data := data; ev_smartSpaceId := JNull; ev_runId := JNull;
     ev_entityId := JNull; ev_agentEntityId := JNull; ev_seq := JNull |}.

(** ** Instances of the runtime's functions, for the examples

    [str] of [None], of a [bool] and of an [int]; the text of other values
    is not needed below and is left empty. *)
Definition show (v : json) : string :=
  match v with
  | JNull => "None"
  | JBool true => "True"
  | JBool false => "False"
  | JInt z => NilZero.string_of_int (Z.to_int z)
  | _ => ""
  end.

(** The text of a [float] with an integer value, as in ["30.0"]. *)
Definition show_float (q : Q) : string :=
  if Z.eqb (Qnum q mod Z.pos (Qden q)) 0
  then NilZero.string_of_int (Z.to_int (Qnum q / Z.pos (Qden q))) ++ ".0"
  else "".

Definition example_http : HttpClient :=
  {| base_url := "http://localhost:3001"; secret_key := Some "sk_test";
     public_key := None; jwt := None |}.

(** A response of the send call with two run descriptors. *)
Definition two_runs : json :=
  JObj [("message", JObj [("id", JStr "m1")]);
        ("runs", JArr [JObj [("runId", JStr "r1")];
                       JObj [("runId", JStr "r2")]])].

End Statements.

(** * More of the library *)

(** ** [hsafa/sse.py]: [SSEStream.off] *)

Module Registry.

Import SSE.

Section Off.

Context {S : Type}.

(** Whether two callables are the same object. Python compares functions
    by identity, which a function of the model does not have. *)
Variable same : listener S -> listener S -> bool.

(** [l.remove(handler)]: without the first element that is [handler];
    [None] when there is none ([ValueError]). *)
Fixpoint list_remove (handler : listener S) (l : list (listener S))
  : option (list (listener S)) :=
  match l with
  | [] => None
  | x :: rest =>
      if same x handler then Some rest
      else match list_remove handler rest with
           | Some rest' => Some (x :: rest')
           | None => None
           end
  end.

Definition handlers_off (event_type : string) (handler : listener S)
    (handlers : gmap string (list (listener S)))
  : gmap string (list (listener S)) :=
  match handlers !! event_type with
  | None => handlers
  | Some l =>
      match list_remove handler l with
      | Some l' => <[event_type := l']> handlers
      | None => handlers
      end
  end.

(** [stream.off(event_type, handler)] *)
Definition off (event_type : string) (handler : listener S)
    (st : @SSEStream S) : @SSEStream S :=
  set_handlers (handlers_off event_type handler (_handlers st)) st.

End Off.

End Registry.

(** ** [hsafa/http.py]: the client, its URLs and its errors *)

Module HttpMore.

Import Http Messages.

(** [s.rstrip("/")] *)
Fixpoint rstrip_slashes (s : string) : string :=
  match s with
  | EmptyString => ""
  | String c rest =>
      let r := rstrip_slashes rest in
      if Ascii.eqb c "/" && String.eqb r "" then "" else String c r
  end.

(** [HttpClient(gateway_url, secret_key, public_key, jwt)] *)
Definition new_client (gateway_url : string)
    (secret_key public_key jwt : option string) : HttpClient :=
  {| base_url := rstrip_slashes gateway_url; secret_key := secret_key;
     public_key := public_key; jwt := jwt |}.

Section Urls.

(** [urllib.parse.urlencode] on a dict of strings, and [str] of a value
    that is not a [str]: functions of the Python library. *)
Variable urlencode : list (string * string) -> string.
Variable py_repr : json -> string.

(** [{k: str(v) for k, v in params.items() if v is not None}] *)
Fixpoint filter_params (params : list (string * json))
  : list (string * string) :=
  match params with
  | [] => []
  | (k, v) :: rest =>
      match v with
      | JNull => filter_params rest
      | _ => (k, py_str py_repr v) :: filter_params rest
      end
  end.

(** [build_url(path, params)]; [params] is [None] or a dict. *)
Definition build_url_params (http : HttpClient) (path : string)
    (params : option (list (string * json))) : string :=
  let url := base_url http ++ path in
  match params with
  | Some ((_ :: _) as ps) =>
      match filter_params ps with
      | [] => url
      | (_ :: _) as filtered => url ++ "?" ++ urlencode filtered
      end
  | _ => url
  end.

(** The URL requested by [MessagesResource.list(space_id, after_seq,
    before_seq, limit)]: [get] passes its [params] to [build_url]. An
    absent argument is [JNull]. *)
Definition list_url (http : HttpClient) (space_id : string)
    (after_seq before_seq limit : json) : string :=
  build_url_params http ("/api/smart-spaces/" ++ space_id ++ "/messages")
    (Some [("afterSeq", after_seq); ("beforeSeq", before_seq);
           ("limit", limit)]).

(** The URL of [SpacesResource.subscribe(space_id, after_seq, since)]. *)
Definition space_subscribe_url (http : HttpClient) (space_id : string)
    (after_seq since : json) : string :=
  let params :=
    ((match after_seq with JNull => [] | _ => [("afterSeq", after_seq)] end) ++
     (if truthy since then [("since", since)] else []))%list in
  build_url_params http ("/api/smart-spaces/" ++ space_id ++ "/stream")
    (Some params).

(** What the server answered: [response.ok], [response.status_code],
    [response.json()] (which raises on a body that is not JSON) and
    [response.text]. *)
Record response : Type := {
  ok : bool;
  status_code : Z;
  json_body : result json;
  text : string
}.

(** The [HsafaApiError] object: [status], [body] and the message given to
    [Exception.__init__]. *)
Record api_error : Type := {
  err_status : Z;
  err_body : json;
  err_message : string
}.

(** [HsafaApiError(status, body)] *)
Definition new_api_error (status : Z) (body : json) : api_error :=
  {| err_status := status;
     err_body := body;
     err_message :=
       match body with
       | JObj fields =>
           match dict_get "error" fields with
           | Some v => py_str py_repr v
           | None => "HTTP " ++ py_repr (JInt status)
           end
       | _ => "HTTP " ++ py_repr (JInt status)
       end |}.

(** [_request], from the response on: the decoded body, or what is
    raised: the API error of a response that is not ok, or the exception
    of [response.json()] on one that is. *)
Definition request_outcome (r : response) : json + (api_error + exn) :=
  if negb (ok r) then
    inr (inl (new_api_error (status_code r)
                (match json_body r with
                 | Ok body => body
                 | Raise _ => JStr (text r)
                 end)))
  else
    match json_body r with
    | Ok body => inl body
    | Raise e => inr (inr e)
    end.

End Urls.

End HttpMore.

(** ** [hsafa/resources/messages.py]: [MessagesResource.send] *)

Module MessagesMore.

Import Http Messages.

(** The body that [send] posts: ["content"], then each optional argument
    that is not [None]. *)
Definition send_body (content : string) (entity_id : option string)
    (metadata : option json) (role : option string)
    (trigger_agents : option bool) : json :=
  let body := [("content", JStr content)] in
  let body := match entity_id with
              | Some v => dict_set "entityId" (JStr v) body
              | None => body
              end in
  let body := match metadata with
              | Some v => dict_set "metadata" v body
              | None => body
              end in
  let body := match role with
              | Some v => dict_set "role" (JStr v) body
              | None => body
              end in
  let body := match trigger_agents with
              | Some v => dict_set "triggerAgents" (JBool v) body
              | None => body
              end in
  JObj body.

Section Send.

(** [self._http.post(path, body)], a call to the server. *)
Variable post : string -> json -> result json.

Definition send (space_id content : string) (entity_id : option string)
    (metadata : option json) (role : option string)
    (trigger_agents : option bool) : result json :=
  post ("/api/smart-spaces/" ++ space_id ++ "/messages")
       (send_body content entity_id metadata role trigger_agents).

Variable py_repr : json -> string.
Variable format_float : Q -> string.

(** [send_and_wait] with its first line: it calls [send] with
    [entity_id] and [metadata] only. *)
Definition send_and_wait_call (http : HttpClient) (space_id content : string)
    (entity_id : option string) (metadata : option json) (timeout : Q)
    (deliveries : list (feed * SSE.event)) :=
  send_and_wait py_repr format_float http space_id
    (send space_id content entity_id metadata None None) timeout deliveries.

End Send.

End MessagesMore.

(** ** [hsafa/resources/tools.py]: the tool worker *)

Module Tools.

Import SSE Http Messages.

(** What [listen] gives: without a secret key it raises [ValueError];
    otherwise it returns the worker, a [ToolWorkerInstance] holding the
    connection, whose [close()] is the connection's. *)
Inductive listen_result (A : Type) : Type :=
| ValueError (msg : string)
| Listening (worker : A).
Arguments ValueError {A} msg.
Arguments Listening {A} worker.

Section Worker.

(** [str(v)] of a value that is not a [str], [str(exc)] of an exception,
    and [self._http.post]: the runtime and the server. *)
Variable py_repr : json -> string.
Variable exn_str : exn -> string.
Variable post : string -> json -> result json.

(** The handlers given to [listen]: a dict from tool names to callables
    (for a coroutine function, the callable is what [asyncio.run] makes of
    it). *)
Variable handlers : gmap string (json -> result json).

(** The request of [submit_result(run_id, call_id, result)]. *)
Definition submit_request (run_id call_id result : json) : string * json :=
  ("/api/runs/" ++ py_str py_repr run_id ++ "/tool-results",
   JObj [("callId", call_id); ("result", result)]).

Definition submit_result (run_id call_id value : json) : result json :=
  post (fst (submit_request run_id call_id value))
       (snd (submit_request run_id call_id value)).

(** [run_handler], the body of the thread started for one call: the
    requests it makes, in order. *)
Definition run_handler (handler : json -> result json)
    (args run_id tool_call_id : json) : list (string * json) :=
  let report exc :=
    submit_request run_id tool_call_id
      (JObj [("error", JStr (exn_str exc))]) in
  match handler args with
  | Raise exc => [report exc]
  | Ok value =>
      match submit_result run_id tool_call_id value with
      | Ok _ => [submit_request run_id tool_call_id value]
      | Raise exc => [submit_request run_id tool_call_id value; report exc]
      end
  end.

(** [handlers.get(tool_name)]: the name is whatever the event carries. *)
Definition handler_for (tool_name : json) : result (option (json -> result json)) :=
  if hashable tool_name then
    Ok (match tool_name with
        | JStr name => handlers !! name
        | _ => None
        end)
  else Raise TypeError.

(** [handle_tool_call]: the listener of ["tool.call"]. Its state is the
    list of the threads started so far, each given by the requests it
    makes. *)
Definition handle_tool_call (ev : event) (threads : list (list (string * json)))
  : list (list (string * json)) * result unit :=
  let data := data_or_empty ev in
  match
    (tool_call_id ← get_default data "toolCallId" (JStr "");
     tool_name ← get_default data "toolName" (JStr "");
     a ← get data "args";
     run_id ← get_default data "runId" (JStr "");
     h ← handler_for tool_name;
     Ok (match h with
         | Some handler =>
             Some (run_handler handler (py_or a (JObj [])) run_id tool_call_id)
         | None => None
         end))
  with
  | Raise e => (threads, Raise e)
  | Ok None => (threads, Ok tt)
  | Ok (Some thread) => ((threads ++ [thread])%list, Ok tt)
  end.

(** The connection that [listen] constructs and starts; its callbacks
    only print. *)
Definition worker_stream (http : HttpClient)
  : @SSEStream (list (list (string * json))) :=
  start
    (on "tool.call" handle_tool_call
       (init (base_url http ++ "/api/tools/stream") (get_auth_headers http)
          true 2 default_max_reconnect_delay
          (Some (fun s => (s, Ok tt)))
          (Some (fun _ s => (s, Ok tt)))
          None)).

Definition listen (http : HttpClient)
  : listen_result (@SSEStream (list (list (string * json)))) :=
  if opt_truthy (secret_key http) then Listening (worker_stream http)
  else ValueError
         "[HsafaToolWorker] secret_key is required in HsafaClient to use tools.listen()".

End Worker.

End Tools.

(** ** Vocabulary of the further statements *)

Module MoreStatements.

Import SSE Http Messages Statements.

(** The line [field:value]. *)
Definition field_line (fv : string * string) : string :=
  fst fv ++ ":" ++ snd fv.

(** The accumulator after the field lines [fvs], in order. *)
Definition assemble (fvs : list (string * string)) (current : frame) : frame :=
  fold_left (fun cur fv => assign_field (fst fv) (lstrip_spaces (snd fv)) cur)
            fvs current.

(** A line that is a comment, or is not blank and has no colon, or names
    a field other than [id], [event] and [data]. *)
Definition ignored_line (line : string) : bool :=
  starts_with_colon line ||
  (negb (String.eqb line "") &&
   (Z.eqb (find_colon line) (-1) ||
    let field := slice_to line (find_colon line) in
    negb (String.eqb field "id" || String.eqb field "event" ||
          String.eqb field "data"))).

Definition ignored_item (i : read_item) : bool :=
  match i with
  | Line None => true
  | Line (Some line) => ignored_line line
  | CloseCalled => false
  end.

(** [n] slashes. *)
Fixpoint slashes (n : nat) : string :=
  match n with
  | O => ""
  | Datatypes.S n' => String "/" (slashes n')
  end.

(** The last character is a slash. *)
Fixpoint ends_with_slash (s : string) : bool :=
  match s with
  | EmptyString => false
  | String c EmptyString => Ascii.eqb c "/"
  | String _ rest => ends_with_slash rest
  end.

(** [v is None] *)
Definition is_none (v : json) : bool :=
  match v with JNull => true | _ => false end.

(** [text_parts] has only grown, by truthy values. *)
Definition text_grows (w w' : wait_state) : Prop :=
  exists more, text_parts w' = (text_parts w ++ more)%list /\
               Forall (fun c => truthy c = true) more.

(** The call ids recorded, in order of first insertion. *)
Definition call_ids (w : wait_state) : list string := map fst (tool_calls w).

(** Every record is an object stored under its own ["id"], and no id
    occurs twice. *)
Definition well_keyed (w : wait_state) : Prop :=
  NoDup (call_ids w) /\
  Forall (fun kv => exists fields,
              snd kv = JObj fields /\
              dict_get "id" fields = Some (JStr (fst kv)))
         (tool_calls w).

Definition keeps_well_keyed (w w' : wait_state) : Prop :=
  well_keyed w -> well_keyed w'.

(** [v] is not a [str]. *)
Definition not_str (v : json) : bool :=
  match v with JStr _ => false | _ => true end.

(** The payload is there and is not a dict: [(event.get("data") or
    {}).get] raises. *)
Definition text_payload (ev : event) : bool :=
  truthy (ev_data ev) && negb (is_dict (ev_data ev)).

(** Identity of the listeners [logging r]: by the tag they log. *)
Definition same_log (f g : listener (list nat)) : bool :=
  bool_decide (fst (f (plain_event "" JNull) []) =
               fst (g (plain_event "" JNull) [])).

(** Percent-encoding left out: [k=v] pairs joined by [&], which is what
    [urlencode] gives when keys and values need no escaping. *)
Definition plain_urlencode (pairs : list (string * string)) : string :=
  join "&" (map (fun kv => fst kv ++ "=" ++ snd kv) pairs).

(** An exception's text, for the examples. *)
Definition show_exn (e : exn) : string :=
  match e with
  | TimeoutError msg | RuntimeError msg | UserError msg => msg
  | _ => ""
  end.

End MoreStatements.

(** * Properties of the stream client *)

Module SSEProps.

Import SSE Statements.

(** ** The line parser *)

Lemma find_colon_lower (s : string) : -1 <= find_colon s.
Proof.
  induction s as [|c s IH]; simpl; [lia|].
  destruct (Ascii.eqb c ":"); [lia|].
  destruct (Z.eqb_spec (find_colon s) (-1)); lia.
Qed.

Lemma find_colon_app (field rest : string) :
  find_colon field = -1 ->
  find_colon (field ++ String ":" rest) = Z.of_nat (String.length field).
Proof.
  induction field as [|c field IH]; simpl; [reflexivity|].
  destruct (Ascii.eqb c ":"); [discriminate|].
  destruct (Z.eqb_spec (find_colon field) (-1)) as [E|NE].
  - intros _. rewrite (IH E).
    destruct (Z.eqb_spec (Z.of_nat (String.length field)) (-1)); lia.
  - pose proof (find_colon_lower field). lia.
Qed.

Lemma take_app (field rest : string) :
  take (String.length field) (field ++ rest) = field.
Proof.
  induction field as [|c field IH]; simpl.
  - destruct rest; reflexivity.
  - now rewrite IH.
Qed.

Lemma drop_app_colon (field rest : string) :
  drop (Datatypes.S (String.length field)) (field ++ String ":" rest) = rest.
Proof. induction field as [|c field IH]; simpl; [reflexivity|exact IH]. Qed.

Lemma lstrip_spaces_spaces (n : nat) (v : string) :
  starts_with_space v = false -> lstrip_spaces (spaces n ++ v) = v.
Proof.
  intros Hv. induction n as [|n IH]; simpl; [|exact IH].
  destruct v as [|c v]; simpl in *; [reflexivity|]. now rewrite Hv.
Qed.

Lemma field_line_not_comment (field rest : string) :
  field <> "" -> find_colon field = -1 ->
  starts_with_colon (field ++ String ":" rest) = false.
Proof.
  destruct field as [|c field]; [congruence|]. simpl.
  destruct (Ascii.eqb c ":"); [discriminate|reflexivity].
Qed.

Lemma field_line_not_blank (field rest : string) :
  String.eqb (field ++ String ":" rest) "" = false.
Proof. destruct field; reflexivity. Qed.

(** What a field line does to the accumulator: the part before the first
    colon names the field, and the value is the part after it with all of
    its leading spaces removed. *)
Lemma feed_field_line (loads : string -> option json) {S : Type}
    (handlers : gmap string (list (listener S)))
    (field rest : string) (current : frame) (s : S) :
  field <> "" -> find_colon field = -1 ->
  feed_line loads handlers (field ++ ":" ++ rest) current s =
  (assign_field field (lstrip_spaces rest) current, s).
Proof.
  intros Hne Hnc. change (":" ++ rest) with (String ":" rest).
  unfold feed_line.
  rewrite field_line_not_comment, field_line_not_blank by assumption.
  rewrite (find_colon_app _ _ Hnc).
  destruct (Z.eqb_spec (Z.of_nat (String.length field)) (-1)); [lia|].
  unfold slice_to, slice_from.
  rewrite Nat2Z.id, take_app.
  replace (Z.to_nat (Z.of_nat (String.length field) + 1))
    with (Datatypes.S (String.length field)) by lia.
  now rewrite drop_app_colon.
Qed.

(** C3, as the code has it. A field line is split at its first colon, and
    the value is what follows the colon without any of its leading spaces,
    however many there are. *)
Theorem field_line_split_and_stripped (loads : string -> option json)
    {S : Type} (handlers : gmap string (list (listener S)))
    (field : string) (n : nat) (v : string) (current : frame) (s : S) :
  field <> "" -> find_colon field = -1 -> starts_with_space v = false ->
  feed_line loads handlers (field ++ ":" ++ spaces n ++ v) current s =
  (assign_field field v current, s).
Proof.
  intros Hne Hnc Hv. rewrite feed_field_line by assumption.
  now rewrite lstrip_spaces_spaces.
Qed.

Lemma field_line_split_and_stripped_witness :
  "data" <> "" /\ find_colon "data" = -1 /\ starts_with_space "x" = false /\
  feed_line JsonText.loads (∅ : gmap string (list (listener unit)))
    ("data" ++ ":" ++ spaces 2 ++ "x") empty_frame tt =
  (assign_field "data" "x" empty_frame, tt).
Proof.
  split; [discriminate|]. split; [reflexivity|]. split; [reflexivity|].
  apply (field_line_split_and_stripped JsonText.loads ∅ "data" 2 "x");
    [discriminate|reflexivity|reflexivity].
Defined.

(** The line ["data:  x"], with two spaces after the colon, gives the data
    value ["x"]: no space is kept. *)
Lemma two_spaces_both_stripped :
  frame_data
    (fst (feed_line JsonText.loads (∅ : gmap string (list (listener unit)))
            "data:  x" empty_frame tt)) = ["x"] /\
  frame_data
    (fst (feed_line JsonText.loads (∅ : gmap string (list (listener unit)))
            "data:  x" empty_frame tt)) <> [" x"].
Proof. split; [reflexivity|discriminate]. Qed.

(** ** The decoder *)

Lemma build_event_object (raw : frame) (fields : list (string * json)) :
  exists ev,
    build_event raw (JObj fields) = Ok ev /\
    ev_data ev = py_or (default JNull (dict_get "data" fields)) (JObj fields).
Proof.
  unfold build_event, get, get_default. simpl.
  destruct (py_or (default JNull (dict_get "data" fields)) (JObj fields));
    simpl; eexists; (split; [reflexivity|reflexivity]).
Qed.

(** C4, as the code has it. When the data string of a frame parses as an
    object, an event is built and handed to the dispatcher; its payload is
    the value of the document's [data] field when that value is truthy, and
    the whole document when the field is absent or its value is falsy
    ([null], [false], [0], an empty string, list or object). *)
Theorem payload_is_truthy_data_or_document (loads : string -> option json)
    (raw : frame) (fields : list (string * json)) :
  join newline (frame_data raw) <> "" ->
  loads (join newline (frame_data raw)) = Some (JObj fields) ->
  exists ev,
    decode loads raw (join newline (frame_data raw)) = Ok ev /\
    ev_data ev =
      match dict_get "data" fields with
      | Some v => if truthy v then v else JObj fields
      | None => JObj fields
      end /\
    forall (S : Type) (hs : gmap string (list (listener S))) (s : S),
      _process_raw loads hs raw s = (fst (_emit hs (ev_type ev) ev s), Ok tt).
Proof.
  intros Hne Hload.
  destruct (build_event_object raw fields) as (ev & Hev & Hdata).
  exists ev. split; [|split].
  - unfold decode. now rewrite Hload.
  - rewrite Hdata. unfold py_or. now destruct (dict_get "data" fields).
  - intros S hs s. unfold _process_raw, decode.
    destruct (String.eqb_spec (join newline (frame_data raw)) ""); [contradiction|].
    rewrite Hload, Hev. now destruct (_emit hs (ev_type ev) ev s).
Qed.

Lemma payload_is_truthy_data_or_document_witness :
  let raw := {| frame_data := [JsonText.dq "{'type': 't', 'data': {'k': 1}}"];
                frame_id := None; frame_type := None |} in
  let fields := [("type", JStr "t"); ("data", JObj [("k", JInt 1)])] in
  join newline (frame_data raw) <> "" /\
  JsonText.loads (join newline (frame_data raw)) = Some (JObj fields) /\
  exists ev,
    decode JsonText.loads raw (join newline (frame_data raw)) = Ok ev /\
    ev_data ev =
      match dict_get "data" fields with
      | Some v => if truthy v then v else JObj fields
      | None => JObj fields
      end /\
    forall (S : Type) (hs : gmap string (list (listener S))) (s : S),
      _process_raw JsonText.loads hs raw s =
      (fst (_emit hs (ev_type ev) ev s), Ok tt).
Proof.
  intros raw fields.
  split; [discriminate|]. split; [reflexivity|].
  apply (payload_is_truthy_data_or_document JsonText.loads raw fields);
    [discriminate|reflexivity].
Defined.

(** A document whose [data] field is [null]: the payload of the event is
    the whole document, not the value of the field. *)
Lemma null_data_gives_whole_document :
  let raw := {| frame_data := [JsonText.dq "{'type': 't', 'data': null}"];
                frame_id := None; frame_type := None |} in
  let data_str := join newline (frame_data raw) in
  exists fields ev,
    JsonText.loads data_str = Some (JObj fields) /\
    dict_get "data" fields = Some JNull /\
    decode JsonText.loads raw data_str = Ok ev /\
    ev_data ev = JObj fields /\
    ev_data ev <> JNull.
Proof.
  eexists. eexists.
  split; [reflexivity|]. split; [reflexivity|]. split; [reflexivity|].
  split; [reflexivity|discriminate].
Qed.

(** C7. A frame whose joined data string is empty, or is not valid JSON,
    produces no event: [_process_raw] returns normally and leaves the
    state that listeners act on as it was, whatever the listeners are; the
    [try] block ends before an event is built. *)
Theorem empty_or_malformed_frame_is_dropped (loads : string -> option json)
    {S : Type} (hs : gmap string (list (listener S))) (raw : frame) (s : S) :
  join newline (frame_data raw) = "" \/
  loads (join newline (frame_data raw)) = None ->
  _process_raw loads hs raw s = (s, Ok tt) /\
  (join newline (frame_data raw) <> "" ->
   decode loads raw (join newline (frame_data raw)) = Raise JSONDecodeError).
Proof.
  intros H. unfold _process_raw, decode.
  destruct (String.eqb_spec (join newline (frame_data raw)) "") as [E|NE].
  - split; [reflexivity|]. intros; contradiction.
  - destruct H as [H|H]; [contradiction|]. now rewrite H.
Qed.

Lemma empty_or_malformed_frame_is_dropped_witness :
  let hs := register_all (logging_regs [("*", (1%nat, false))]) in
  let blank := {| frame_data := [""]; frame_id := None; frame_type := None |} in
  let bad := {| frame_data := [JsonText.dq "{'type': 't'"];
                frame_id := None; frame_type := None |} in
  (join newline (frame_data blank) = "" /\
   _process_raw JsonText.loads hs blank [] = ([], Ok tt)) /\
  (JsonText.loads (join newline (frame_data bad)) = None /\
   _process_raw JsonText.loads hs bad [] = ([], Ok tt)).
Proof.
  intros hs blank bad. split.
  - split; [reflexivity|].
    apply (empty_or_malformed_frame_is_dropped JsonText.loads hs blank []).
    left; reflexivity.
  - split; [reflexivity|].
    apply (empty_or_malformed_frame_is_dropped JsonText.loads hs bad []).
    right; reflexivity.
Defined.

(** ** The dispatcher *)

Section Dispatcher.

Context {S : Type}.
Implicit Types (hs : gmap string (list (listener S))) (h : listener S).

Lemma handlers_on_lookup hs (t t' : string) h :
  default [] (handlers_on t h hs !! t') =
  if String.eqb t t' then (default [] (hs !! t) ++ [h])%list
  else default [] (hs !! t').
Proof.
  unfold handlers_on. destruct (String.eqb_spec t t') as [->|Hne].
  - now rewrite lookup_insert_eq.
  - now rewrite lookup_insert_ne.
Qed.

Lemma fold_on_lookup (regs : list (string * listener S)) hs (t : string) :
  default [] (fold_left (fun hs r => handlers_on (fst r) (snd r) hs) regs hs !! t) =
  (default [] (hs !! t) ++ registered t regs)%list.
Proof.
  revert hs. induction regs as [|[t' h] regs IH]; intros hs; simpl.
  - unfold registered. simpl. now rewrite app_nil_r.
  - rewrite IH, handlers_on_lookup. unfold registered. simpl.
    destruct (String.eqb_spec t' t) as [->|Hne]; simpl.
    + now rewrite <- app_assoc.
    + reflexivity.
Qed.

Lemma register_all_lookup (regs : list (string * listener S)) (t : string) :
  default [] (register_all regs !! t) = registered t regs.
Proof. unfold register_all. now rewrite fold_on_lookup, lookup_empty. Qed.

Lemma call_all_app (l1 l2 : list (listener S)) ev s :
  call_all (l1 ++ l2) ev s = call_all l2 ev (call_all l1 ev s).
Proof. revert s. induction l1 as [|h l1 IH]; intros s; simpl; [reflexivity|apply IH]. Qed.

Lemma emit_registered (regs : list (string * listener S)) (t : string) ev s :
  _emit (register_all regs) (JStr t) ev s =
  (call_all (registered t regs ++ registered "*" regs) ev s, Ok tt).
Proof.
  unfold _emit, handlers_get. simpl.
  now rewrite !register_all_lookup, call_all_app.
Qed.

Lemma process_raw_returns (loads : string -> option json) hs raw s :
  snd (_process_raw loads hs raw s) = Ok tt.
Proof.
  unfold _process_raw.
  destruct (String.eqb _ ""); [reflexivity|].
  now destruct (match decode loads raw _ with Ok _ => _ | Raise _ => _ end).
Qed.

(** A relation between the state before and after a call that every
    listener of a registry respects (for the event at hand) is respected
    by [_emit]. *)
Lemma call_all_respects (R : S -> S -> Prop) `{!Reflexive R, !Transitive R}
    (ev : event) (l : list (listener S)) :
  Forall (fun h => forall s, R s (fst (h ev s))) l ->
  forall s, R s (call_all l ev s).
Proof.
  induction 1 as [|h l Hh _ IH]; intros s; simpl; [reflexivity|].
  transitivity (fst (h ev s)); [apply Hh|apply IH].
Qed.

Lemma emit_respects (R : S -> S -> Prop) `{!Reflexive R, !Transitive R}
    hs (event_type : json) (ev : event) :
  (forall t, Forall (fun h => forall s, R s (fst (h ev s))) (default [] (hs !! t))) ->
  forall s, R s (fst (_emit hs event_type ev s)).
Proof.
  intros Hall s. unfold _emit, handlers_get.
  destruct (hashable event_type); [|reflexivity]. simpl.
  set (typed := match event_type with
                | JStr t => default [] (hs !! t)
                | _ => []
                end).
  transitivity (call_all typed ev s).
  - apply (call_all_respects R). subst typed.
    destruct event_type; try constructor. apply Hall.
  - apply (call_all_respects R). apply Hall.
Qed.

Lemma handlers_on_Forall (P : listener S -> Prop) hs (t : string) h :
  (forall t', Forall P (default [] (hs !! t'))) -> P h ->
  forall t', Forall P (default [] (handlers_on t h hs !! t')).
Proof.
  intros Hall Hh t'. rewrite handlers_on_lookup.
  destruct (String.eqb t t'); [|apply Hall].
  apply Forall_app. split; [apply Hall|]. now constructor.
Qed.

Lemma handlers_empty_Forall (P : listener S -> Prop) (t : string) :
  Forall P (default [] ((∅ : gmap string (list (listener S))) !! t)).
Proof. rewrite lookup_empty. constructor. Qed.

End Dispatcher.

(** An event whose type is a list or an object cannot be looked up in the
    registry: [_emit] raises [TypeError] before it calls anyone, and
    [_process_raw] discards the exception. The theorems on dispatch below
    are about events whose type is a string, as [_emit] declares. *)
Lemma emit_unhashable_type {S : Type} (hs : gmap string (list (listener S)))
    (event_type : json) (ev : event) (s : S) :
  hashable event_type = false ->
  _emit hs event_type ev s = (s, Raise TypeError).
Proof. intros H. unfold _emit, handlers_get. now rewrite H. Qed.

Lemma call_all_logging (l : list (nat * bool)) ev (log : list nat) :
  call_all (map logging l) ev log = (log ++ map fst l)%list.
Proof.
  revert log. induction l as [|r l IH]; intros log; simpl.
  - now rewrite app_nil_r.
  - rewrite IH. now rewrite <- app_assoc.
Qed.

Lemma registered_logging (t : string) (regs : list (string * (nat * bool))) :
  registered t (logging_regs regs) = map logging (registered t regs).
Proof.
  unfold registered, logging_regs.
  induction regs as [|[t' r] regs IH]; simpl; [reflexivity|].
  destruct (String.eqb t' t); simpl; now rewrite IH.
Qed.

(** C6. [emit] calls the listeners registered for the type of the event in
    the order of their registration, then the wildcard listeners in the
    order of theirs. A listener that raises stops none of those after it,
    and nothing is raised to the read loop: [_emit] returns, and so does
    [_process_raw], which is what the read loop calls. In turn: what
    [_emit] does on any registry; [on] puts a listener last in the list of
    its type; what [_emit] does after any sequence of registrations; the
    calls as read off a log that each listener extends when it is called,
    whether it then raises or not; [_process_raw] returns. *)
Theorem emit_registration_order_isolated :
  (forall (S : Type) (hs : gmap string (list (listener S))) (t : string)
          (ev : event) (s : S),
      _emit hs (JStr t) ev s =
      (call_all (default [] (hs !! t) ++ default [] (hs !! "*")) ev s, Ok tt)) /\
  (forall (S : Type) (hs : gmap string (list (listener S))) (t t' : string)
          (h : listener S),
      default [] (handlers_on t h hs !! t') =
      if String.eqb t t' then (default [] (hs !! t) ++ [h])%list
      else default [] (hs !! t')) /\
  (forall (S : Type) (regs : list (string * listener S)) (t : string)
          (ev : event) (s : S),
      _emit (register_all regs) (JStr t) ev s =
      (call_all (registered t regs ++ registered "*" regs) ev s, Ok tt)) /\
  (forall (regs : list (string * (nat * bool))) (t : string) (ev : event)
          (log : list nat),
      _emit (register_all (logging_regs regs)) (JStr t) ev log =
      ((log ++ map fst (registered t regs) ++ map fst (registered "*" regs))%list,
       Ok tt)) /\
  (forall (loads : string -> option json) (S : Type)
          (hs : gmap string (list (listener S))) (raw : frame) (s : S),
      snd (_process_raw loads hs raw s) = Ok tt).
Proof.
  split; [|split; [|split; [|split]]].
  - intros. unfold _emit, handlers_get. simpl. now rewrite call_all_app.
  - intros. apply handlers_on_lookup.
  - intros. apply emit_registered.
  - intros. rewrite emit_registered, !registered_logging, <- map_app.
    now rewrite call_all_logging, map_app.
  - intros. apply process_raw_returns.
Qed.

(** Five registrations; an event of type ["a"] reaches the two listeners
    of ["a"] and then the two wildcard listeners, though the first of each
    raises. *)
Example emit_order_example :
  _emit (register_all (logging_regs
           [("a", (1, true)); ("*", (2, true)); ("a", (3, false));
            ("b", (4, false)); ("*", (5, false))]%nat))
        (JStr "a") (plain_event "a" JNull) [] =
  ([1; 3; 2; 5]%nat, Ok tt).
Proof. vm_compute. reflexivity. Qed.

(** ** The read loop *)

Lemma py_min_Qmin (a b : Q) : py_min a b = Qmin a b.
Proof.
  unfold py_min, Qmin, GenericMinMax.gmin.
  rewrite <- (Qcompare_antisym a b).
  now destruct (Qcompare a b).
Qed.

Section ReadLoop.

Variable loads : string -> option json.
Context {S : Type}.
Implicit Types (st : @SSEStream S) (s : S).

Lemma set_reconnect_attempts_id st :
  set_reconnect_attempts (_reconnect_attempts st) st = st.
Proof. now destruct st. Qed.

(** With reconnection enabled, a failure on a connection that is not
    closed counts one more attempt and sleeps its delay. *)
Lemma on_failure_reconnects st (a : Z) (e : exn) s :
  _reconnect st = true -> _closed st = false -> on_error_returns st ->
  a < 1024 ->
  exists s',
    on_failure (set_reconnect_attempts a st) e s =
    (set_reconnect_attempts (a + 1) st, s',
     [Sleep (backoff (_reconnect_delay st) (_max_reconnect_delay st) (a + 1))],
     None).
Proof.
  intros Hre Hcl Herr Ha. unfold on_failure, float_times_pow2.
  cbn [_closed _on_error _reconnect _reconnect_attempts _reconnect_delay
       _max_reconnect_delay set_reconnect_attempts].
  rewrite Hcl, Hre. cbn [negb].
  replace (Z.leb 1024 (a + 1 - 1)) with false by (symmetry; apply Z.leb_gt; lia).
  unfold backoff. rewrite py_min_Qmin.
  destruct (_on_error st) as [f|] eqn:Hf.
  - specialize (Herr f Hf e s).
    destruct (f e s) as [s1 r]. simpl in Herr. subst r. now exists s1.
  - now exists s.
Qed.

(** From the 1025th failure in a row on, the delay cannot be computed:
    the counter is incremented, [OverflowError] leaves the clause, and
    nothing is slept. *)
Lemma on_failure_overflows st (a : Z) (e : exn) s :
  _reconnect st = true -> _closed st = false -> on_error_returns st ->
  1024 <= a ->
  exists s',
    on_failure (set_reconnect_attempts a st) e s =
    (set_reconnect_attempts (a + 1) st, s', [], Some (Crashed OverflowError)).
Proof.
  intros Hre Hcl Herr Ha. unfold on_failure, float_times_pow2.
  cbn [_closed _on_error _reconnect _reconnect_attempts _reconnect_delay
       _max_reconnect_delay set_reconnect_attempts].
  rewrite Hcl, Hre. cbn [negb].
  replace (Z.leb 1024 (a + 1 - 1)) with true by (symmetry; apply Z.leb_le; lia).
  destruct (_on_error st) as [f|] eqn:Hf.
  - specialize (Herr f Hf e s).
    destruct (f e s) as [s1 r]. simpl in Herr. subst r. now exists s1.
  - now exists s.
Qed.

Lemma read_lines_only st (items : list read_item) (current : frame) s :
  lines_only items = true -> _closed st = false ->
  exists s', read_lines loads st items current s = (st, s', false).
Proof.
  revert current s. induction items as [|[raw_line|] items IH];
    intros current s Hl Hcl; simpl in *; [now exists s| |discriminate].
  rewrite Hcl. destruct raw_line as [line|]; [|now apply IH].
  destruct (feed_line loads (_handlers st) line current s) as [current' s'].
  now apply IH.
Qed.

Lemma run_failed_connects st (fails : list attempt) :
  _reconnect st = true -> _closed st = false -> on_error_returns st ->
  Forall (fun a => failed_connect a = true) fails ->
  forall (a : Z) s,
  a + Z.of_nat (length fails) <= 1024 ->
  exists s' acts,
    _run loads (set_reconnect_attempts a st) (map Attempt fails) s =
    (set_reconnect_attempts (a + Z.of_nat (length fails)) st, s', acts, Running) /\
    sleeps acts =
    map (backoff (_reconnect_delay st) (_max_reconnect_delay st))
        (seqZ (a + 1) (Z.of_nat (length fails))).
Proof.
  intros Hre Hcl Herr. induction 1 as [|x fails Hx _ IH]; intros a s Hb.
  - exists s, []. simpl. rewrite Hcl, Z.add_0_r. split; reflexivity.
  - cbn [length] in Hb.
    assert (exists e, run_attempt loads (set_reconnect_attempts a st) x s =
                      let '(st', s', acts, fin) :=
                        on_failure (set_reconnect_attempts a st) e s in
                      (st', s', Connect :: acts, fin)) as [e He].
    { destruct x as [e [|]|[|]|]; try discriminate; eexists; reflexivity. }
    destruct (on_failure_reconnects st a e s Hre Hcl Herr ltac:(lia)) as [s1 Hf].
    rewrite Hf in He.
    destruct (IH (a + 1) s1 ltac:(lia)) as (s2 & acts & Hrun & Hsl).
    exists s2, (Connect :: Sleep (backoff (_reconnect_delay st)
                                  (_max_reconnect_delay st) (a + 1)) :: acts).
    split.
    + cbn [map _run]. cbn [_closed set_reconnect_attempts]. rewrite Hcl, He, Hrun.
      cbn [length].
      replace (a + Z.of_nat (Datatypes.S (length fails)))
        with (a + 1 + Z.of_nat (length fails)) by lia.
      reflexivity.
    + cbn [sleeps flat_map app] in *. fold (sleeps acts). rewrite Hsl.
      cbn [length]. rewrite (seqZ_cons (a + 1)) by lia. cbn [map].
      replace (Z.succ (a + 1)) with (a + 1 + 1) by lia.
      replace (Z.pred (Z.of_nat (Datatypes.S (length fails))))
        with (Z.of_nat (length fails)) by lia.
      reflexivity.
Qed.

(** The same with a script that goes on: after the failures, [_run]
    continues on the rest with the counter they left. *)
Lemma run_failed_connects_then st (fails : list attempt) :
  _reconnect st = true -> _closed st = false -> on_error_returns st ->
  Forall (fun a => failed_connect a = true) fails ->
  forall (a : Z) s,
  a + Z.of_nat (length fails) <= 1024 ->
  exists s' acts,
    sleeps acts =
    map (backoff (_reconnect_delay st) (_max_reconnect_delay st))
        (seqZ (a + 1) (Z.of_nat (length fails))) /\
    forall rest : list step,
      _run loads (set_reconnect_attempts a st) (map Attempt fails ++ rest) s =
      let '(st2, s2, acts2, fin) :=
        _run loads (set_reconnect_attempts (a + Z.of_nat (length fails)) st)
             rest s' in
      (st2, s2, (acts ++ acts2)%list, fin).
Proof.
  intros Hre Hcl Herr. induction 1 as [|x fails Hx _ IH]; intros a s Hb.
  - exists s, []. split; [reflexivity|]. intros rest.
    cbn [map app length Z.of_nat]. rewrite Z.add_0_r.
    now destruct (_run loads (set_reconnect_attempts a st) rest s) as [[[? ?] ?] ?].
  - cbn [length] in Hb.
    assert (exists e, run_attempt loads (set_reconnect_attempts a st) x s =
                      let '(st', s', acts, fin) :=
                        on_failure (set_reconnect_attempts a st) e s in
                      (st', s', Connect :: acts, fin)) as [e He].
    { destruct x as [e [|]|[|]|]; try discriminate; eexists; reflexivity. }
    destruct (on_failure_reconnects st a e s Hre Hcl Herr ltac:(lia)) as [s1 Hf].
    rewrite Hf in He.
    destruct (IH (a + 1) s1 ltac:(lia)) as (s2 & acts & Hsl & Hrun).
    exists s2, (Connect :: Sleep (backoff (_reconnect_delay st)
                                  (_max_reconnect_delay st) (a + 1)) :: acts).
    split.
    + cbn [sleeps flat_map app] in *. fold (sleeps acts). rewrite Hsl.
      cbn [length]. rewrite (seqZ_cons (a + 1)) by lia. cbn [map].
      replace (Z.succ (a + 1)) with (a + 1 + 1) by lia.
      replace (Z.pred (Z.of_nat (Datatypes.S (length fails))))
        with (Z.of_nat (length fails)) by lia.
      reflexivity.
    + intros rest. cbn [map app _run]. cbn [_closed set_reconnect_attempts].
      rewrite Hcl, He, (Hrun rest). cbn [length].
      replace (a + Z.of_nat (Datatypes.S (length fails)))
        with (a + 1 + Z.of_nat (length fails)) by lia.
      now destruct (_run loads _ rest s2) as [[[? ?] ?] ?].
Qed.

(** A failed request when the counter has reached 1024. *)
Lemma run_attempt_overflows st (x : attempt) (a : Z) s :
  _reconnect st = true -> _closed st = false -> on_error_returns st ->
  failed_connect x = true -> 1024 <= a ->
  exists s',
    run_attempt loads (set_reconnect_attempts a st) x s =
    (set_reconnect_attempts (a + 1) st, s', [Connect], Some (Crashed OverflowError)).
Proof.
  intros Hre Hcl Herr Hx Ha.
  assert (exists e, run_attempt loads (set_reconnect_attempts a st) x s =
                    let '(st', s', acts, fin) :=
                      on_failure (set_reconnect_attempts a st) e s in
                    (st', s', Connect :: acts, fin)) as [e ->].
  { destruct x as [e [|]|[|]|]; try discriminate; eexists; reflexivity. }
  destruct (on_failure_overflows st a e s Hre Hcl Herr Ha) as [s1 ->].
  now exists s1.
Qed.

(** Once a response is open the counter is [0]: a failure of the read
    sleeps the delay of a first attempt. *)
Lemma run_attempt_opened_then_fails st (items : list read_item) (e : exn) s :
  _reconnect st = true -> _closed st = false -> on_error_returns st ->
  lines_only items = true ->
  exists s',
    run_attempt loads st (Opened items (ReadError e)) s =
    (set_reconnect_attempts 1 st, s',
     [Connect; Sleep (backoff (_reconnect_delay st) (_max_reconnect_delay st) 1)],
     None).
Proof.
  intros Hre Hcl Herr Hl. unfold run_attempt.
  destruct (call_opt _ s) as [s1 [[]|e1]].
  - destruct (read_lines_only (set_reconnect_attempts 0 st) items empty_frame s1 Hl Hcl)
      as [s2 ->].
    destruct (on_failure_reconnects st 0 e s2 Hre Hcl Herr ltac:(lia)) as [s3 ->].
    now exists s3.
  - destruct (on_failure_reconnects st 0 e1 s1 Hre Hcl Herr ltac:(lia)) as [s3 ->].
    now exists s3.
Qed.

Lemma sleeps_app (l1 l2 : list action) :
  sleeps (l1 ++ l2) = (sleeps l1 ++ sleeps l2)%list.
Proof. unfold sleeps. now rewrite !flat_map_concat_map, map_app, concat_app. Qed.

Lemma run_attempt_opened_to_end st (items : list read_item) s :
  _closed st = false -> lines_only items = true ->
  snd (call_opt (_on_open st) s) = Ok tt ->
  exists s',
    run_attempt loads st (Opened items EndOfStream) s =
    (set_reconnect_attempts 0 st, s', [Connect], None).
Proof.
  intros Hcl Hl Hopen. unfold run_attempt. cbn [_on_open set_reconnect_attempts].
  destruct (call_opt (_on_open st) s) as [s1 r]. simpl in Hopen. subst r.
  destruct (read_lines_only (set_reconnect_attempts 0 st) items empty_frame s1 Hl Hcl)
    as [s2 ->].
  now exists s2.
Qed.

(** Reading a response changes nothing of the connection but, when
    [close()] is called meanwhile, its [closed] flag. *)
Lemma read_lines_stream st (items : list read_item) (current : frame) s :
  fst (fst (read_lines loads st items current s)) = st \/
  fst (fst (read_lines loads st items current s)) = set_closed true st.
Proof.
  revert st current s.
  induction items as [|[raw_line|] items IH]; intros st current s; simpl.
  - now left.
  - destruct (_closed st); [now left|].
    destruct raw_line as [line|]; [|apply IH].
    destruct (feed_line loads (_handlers st) line current s). apply IH.
  - unfold close. destruct (call_opt _ s) as [s' r].
    right. destruct (IH (set_closed true st) current s') as [->| ->]; reflexivity.
Qed.

(** With reconnection disabled, the [except] clause ends the loop. *)
Lemma on_failure_without_reconnect st (e : exn) s :
  _reconnect st = false -> on_error_returns st ->
  exists s', on_failure st e s = (st, s', [], Some Returned).
Proof.
  intros Hre Herr. unfold on_failure.
  destruct (_closed st); [now exists s|].
  destruct (_on_error st) as [f|] eqn:Hf.
  - specialize (Herr f Hf e s). destruct (f e s) as [s1 r].
    simpl in Herr. subst r. rewrite Hre. now exists s1.
  - rewrite Hre. now exists s.
Qed.

Lemma run_without_reconnect st (a : attempt) (rest : list step) s :
  _reconnect st = false -> on_error_returns st -> _closed st = false ->
  transport_failure a = true ->
  exists st' s', _run loads st (Attempt a :: rest) s = (st', s', [Connect], Returned).
Proof.
  intros Hre Herr Hcl Ha. cbn [_run]. rewrite Hcl.
  assert (Hfail : forall st1 e s1,
             _reconnect st1 = false -> on_error_returns st1 ->
             exists st' s',
               (let '(st2, s2, acts, fin) := on_failure st1 e s1 in
                (st2, s2, Connect :: acts, fin)) = (st', s', [Connect], Some Returned)).
  { intros st1 e1 s1 H1 H2.
    destruct (on_failure_without_reconnect st1 e1 s1 H1 H2) as [s' ->]. eauto. }
  assert (Hclosing : forall b : bool,
             exists st1 s1,
               (if b then let '(st', s', _) := close st s in (st', s') else (st, s))
               = (st1, s1) /\ _reconnect st1 = false /\ on_error_returns st1).
  { intros [|].
    - unfold close. destruct (call_opt _ s) as [s' r].
      exists (set_closed true st), s'. repeat split; assumption.
    - exists st, s. repeat split; assumption. }
  destruct a as [e b|b|items [|e]]; try discriminate; unfold run_attempt.
  - destruct (Hclosing b) as (st1 & s1 & -> & H1 & H2).
    destruct (Hfail st1 e s1 H1 H2) as (st' & s' & ->). eauto.
  - destruct (Hclosing b) as (st1 & s1 & -> & H1 & H2).
    destruct (Hfail st1 ConnectionError s1 H1 H2) as (st' & s' & ->). eauto.
  - destruct (call_opt _ s) as [s1 [[]|e1]].
    + pose proof (read_lines_stream (set_reconnect_attempts 0 st) items empty_frame s1) as Hst.
      destruct (read_lines loads (set_reconnect_attempts 0 st) items empty_frame s1)
        as [[st2 s2] [|]]; [eauto|].
      simpl in Hst.
      destruct (Hfail st2 e s2) as (st' & s' & ->); [| |eauto];
        destruct Hst as [->| ->]; assumption.
    + destruct (Hfail (set_reconnect_attempts 0 st) e1 s1 Hre Herr) as (st' & s' & ->).
      eauto.
Qed.

End ReadLoop.

(** C5. On a connection with reconnection enabled that nobody closes,
    whose error callback returns and whose delays are not negative, the
    delays [min(base_delay * 2^(n-1), max_delay)] are slept after the
    first 1024 failures in a row and no further: on the 1025th,
    [2 ** 1024] cannot be converted to a float and line 157 raises
    [OverflowError] inside the [except] clause, after the counter was
    incremented. Nothing is slept, no other request is made, and [_run]
    ends with the exception. *)
Theorem reconnect_delay_overflows_at_1025 (loads : string -> option json)
    {S : Type} (st : @SSEStream S) (s : S)
    (fails : list attempt) (last : attempt) (rest : list step) :
  _reconnect st = true -> _closed st = false -> on_error_returns st ->
  Qle 0 (_reconnect_delay st) -> Qle 0 (_max_reconnect_delay st) ->
  _reconnect_attempts st = 0 ->
  Forall (fun a => failed_connect a = true) fails -> length fails = 1024%nat ->
  failed_connect last = true ->
  let '(st', _, acts, fin) :=
    _run loads st (map Attempt fails ++ Attempt last :: rest) s in
  sleeps acts =
    map (backoff (_reconnect_delay st) (_max_reconnect_delay st)) (seqZ 1 1024) /\
  _reconnect_attempts st' = 1025 /\
  fin = Crashed OverflowError.
Proof.
  intros Hre Hcl Herr _ _ H0 Hf Hlen Hlast.
  destruct (run_failed_connects_then loads st fails Hre Hcl Herr Hf 0 s)
    as (s1 & acts & Hsl & Hrun); [rewrite Hlen; reflexivity|].
  assert (Hst : set_reconnect_attempts 0 st = st)
    by (rewrite <- H0; apply set_reconnect_attempts_id).
  specialize (Hrun (Attempt last :: rest)). rewrite Hst, Hlen in Hrun.
  rewrite Hrun. rewrite Hlen in Hsl.
  change (0 + Z.of_nat 1024) with 1024.
  cbn [_run]. cbn [_closed set_reconnect_attempts]. rewrite Hcl.
  destruct (run_attempt_overflows loads st last 1024 s1 Hre Hcl Herr Hlast)
    as [s2 Hov]; [lia|].
  rewrite Hov, sleeps_app, Hsl. cbn [sleeps flat_map].
  rewrite app_nil_r. repeat split; reflexivity.
Qed.

Lemma reconnect_delay_overflows_at_1025_witness :
  let st : @SSEStream unit :=
    init "http://gateway/api/tools/stream" ∅ true
         default_reconnect_delay default_max_reconnect_delay None None None in
  let fails := repeat (BadStatus false) 1024 in
  let script := (map Attempt fails ++
                 Attempt (BadStatus false) :: [Attempt (BadStatus false)])%list in
  (_reconnect st = true /\ _closed st = false /\ on_error_returns st /\
   Qle 0 (_reconnect_delay st) /\ Qle 0 (_max_reconnect_delay st) /\
   _reconnect_attempts st = 0 /\
   Forall (fun a => failed_connect a = true) fails /\ length fails = 1024%nat /\
   failed_connect (BadStatus false) = true) /\
  let '(st', _, acts, fin) := _run JsonText.loads st script tt in
  sleeps acts =
    map (backoff (_reconnect_delay st) (_max_reconnect_delay st)) (seqZ 1 1024) /\
  _reconnect_attempts st' = 1025 /\
  fin = Crashed OverflowError.
Proof.
  intros st fails script.
  assert (Hq : on_error_returns st) by (intros f Hf; discriminate Hf).
  assert (Hf : Forall (fun a => failed_connect a = true) fails).
  { unfold fails. generalize 1024%nat.
    induction n; simpl; constructor; [reflexivity|assumption]. }
  assert (Hd : Qle 0 (_reconnect_delay st)) by discriminate.
  assert (Hm : Qle 0 (_max_reconnect_delay st)) by discriminate.
  assert (Hlen : length fails = 1024%nat) by apply repeat_length.
  split; [repeat split; assumption|].
  exact (reconnect_delay_overflows_at_1025 JsonText.loads st tt fails
           (BadStatus false) [Attempt (BadStatus false)]
           eq_refl eq_refl Hq Hd Hm eq_refl Hf Hlen eq_refl).
Defined.

(** The delays at the end of the default sequence, and its end: the
    1024th failure in a row still sleeps 30 seconds, the 1025th ends the
    loop, and the request after it is not made. *)
Example default_backoff_overflow :
  let st : @SSEStream unit :=
    init "http://gateway/api/tools/stream" ∅ true
         default_reconnect_delay default_max_reconnect_delay None None None in
  let '(st', _, acts, fin) :=
    _run JsonText.loads st (map Attempt (repeat (BadStatus false) 1026)) tt in
  length (sleeps acts) = 1024%nat /\ last (sleeps acts) = Some 30%Q /\
  length acts = 2049%nat /\
  _reconnect_attempts st' = 1025 /\ fin = Crashed OverflowError.
Proof. vm_compute. repeat split. Qed.

(** The default delays: seven failures in a row sleep 1, 2, 4, 8, 16, 30
    and 30 seconds; after a response was open, the next failure sleeps 1
    second again. *)
Example default_backoff_sequence :
  let st : @SSEStream unit :=
    init "http://gateway/api/tools/stream" ∅ true
         default_reconnect_delay default_max_reconnect_delay None None None in
  sleeps (snd (fst (_run JsonText.loads st
                      (map Attempt (repeat (BadStatus false) 7)
                       ++ [Attempt (Opened [Line (Some ": ping")] (ReadError ConnectionError));
                           Attempt (BadStatus false)]) tt))) =
  [1; 2; 4; 8; 16; 30; 30; 1; 2]%Q.
Proof. vm_compute. reflexivity. Qed.

(** A response read line by line: a comment, a frame typed by its
    [event:] field, a frame whose data is not JSON, a line without colon,
    and a frame typed by its document. The listener of ["tool.call"]
    (tag 2) and the wildcard listener (tag 1, raising) are called for the
    first frame, the wildcard listener alone for the third, nobody for the
    second. *)
Example read_loop_example :
  let st : @SSEStream (list nat) :=
    on "tool.call" (logging (2%nat, false))
       (on "*" (logging (1%nat, true))
           (init "http://gateway/api/tools/stream" ∅ true 2
                 default_max_reconnect_delay None None None)) in
  let lines :=
    [": keep-alive"; "event: tool.call"; JsonText.dq "data: {'data': {'toolName': 'x'}}";
     ""; JsonText.dq "data: {'type': "; ""; "retry"; JsonText.dq "data:   {'type': 'y'}";
     ""] in
  let '(st', log, acts, fin) :=
    _run JsonText.loads st
      [Attempt (Opened (map (fun l => Line (Some l)) lines) (ReadError ConnectionError))]
      [] in
  log = [2; 1; 1]%nat /\ acts = [Connect; Sleep 2] /\ fin = Running /\
  _reconnect_attempts st' = 1.
Proof. vm_compute. repeat split. Qed.

End SSEProps.


(** * Properties of the correlated wait *)

Module MessagesProps.

Import SSE Http Messages Statements SSEProps.

Section Wait.

Variable py_repr : json -> string.
Variable format_float : Q -> string.
Variable http : HttpClient.
Variable space_id : string.
Variable run_id : json.

Abbreviation sp := (space_stream py_repr http space_id run_id).
Abbreviation rn := (run_stream py_repr http run_id).

(** ** The listeners of the two connections *)

Lemma space_stream_lookup (t : string) :
  default [] (_handlers sp !! t) =
  if String.eqb "error" t then [on_error_event py_repr]
  else if String.eqb "agent.inactive" t then [on_agent_inactive run_id]
  else if String.eqb "space.message" t then [on_space_message]
  else [].
Proof.
  unfold space_stream, start, on. cbn [_handlers set_thread set_handlers init].
  rewrite !handlers_on_lookup, ?lookup_empty. reflexivity.
Qed.

Lemma run_stream_lookup (t : string) :
  default [] (_handlers rn !! t) =
  if String.eqb "error" t then [on_error_event py_repr]
  else if String.eqb "run.failed" t then [on_run_failed py_repr]
  else if String.eqb "run.completed" t then [on_run_completed]
  else if String.eqb "tool.done" t then [on_tool_done py_repr]
  else if String.eqb "tool.started" t then [on_tool_started py_repr]
  else [].
Proof.
  unfold run_stream, start, on. cbn [_handlers set_thread set_handlers init].
  rewrite !handlers_on_lookup, ?lookup_empty. reflexivity.
Qed.

Lemma space_stream_Forall (P : listener wait_state -> Prop) :
  P on_space_message -> P (on_agent_inactive run_id) ->
  P (on_error_event py_repr) ->
  forall t, Forall P (default [] (_handlers sp !! t)).
Proof.
  intros H1 H2 H3 t. rewrite space_stream_lookup.
  repeat (destruct (String.eqb _ t); [now repeat constructor|]). constructor.
Qed.

Lemma run_stream_Forall (P : listener wait_state -> Prop) :
  P (on_tool_started py_repr) -> P (on_tool_done py_repr) ->
  P on_run_completed -> P (on_run_failed py_repr) ->
  P (on_error_event py_repr) ->
  forall t, Forall P (default [] (_handlers rn !! t)).
Proof.
  intros H1 H2 H3 H4 H5 t. rewrite run_stream_lookup.
  repeat (destruct (String.eqb _ t); [now repeat constructor|]). constructor.
Qed.

(** A relation that each of the eight handlers respects is respected by
    every delivery, on either connection. *)
Lemma deliver_respects (R : wait_state -> wait_state -> Prop)
    `{!Reflexive R, !Transitive R} (d : feed * event) :
  (forall h, In h [on_space_message; on_agent_inactive run_id;
                   on_error_event py_repr; on_tool_started py_repr;
                   on_tool_done py_repr; on_run_completed;
                   on_run_failed py_repr] ->
             forall w, R w (fst (h (snd d) w))) ->
  forall w, R w (deliver sp rn d w).
Proof.
  intros Hh w. unfold deliver.
  destruct (fst d); apply (emit_respects R).
  - apply space_stream_Forall; apply Hh; simpl; tauto.
  - apply run_stream_Forall; apply Hh; simpl; tauto.
Qed.

Lemma deliver_all_respects (R : wait_state -> wait_state -> Prop)
    `{!Reflexive R, !Transitive R} (ds : list (feed * event)) :
  (forall h, In h [on_space_message; on_agent_inactive run_id;
                   on_error_event py_repr; on_tool_started py_repr;
                   on_tool_done py_repr; on_run_completed;
                   on_run_failed py_repr] ->
             forall ev w, R w (fst (h ev w))) ->
  forall w, R w (deliver_all sp rn ds w).
Proof.
  intros Hh. unfold deliver_all.
  induction ds as [|d ds IH]; intros w; simpl; [reflexivity|].
  transitivity (deliver sp rn d w); [|apply IH].
  apply (deliver_respects R). intros h Hin. now apply Hh.
Qed.

(** ** Settlement *)

Lemma finish_settled (w : wait_state) : _settled w = true -> finish w = w.
Proof. unfold finish. now intros ->. Qed.

Lemma invoke_settled (c : settling) (w : wait_state) :
  _settled w = true -> invoke py_repr run_id c w = w.
Proof.
  intros Hs. unfold invoke.
  destruct c as [ev|ev|ev|ev]; simpl.
  - now apply finish_settled.
  - unfold on_run_failed. now rewrite Hs.
  - unfold on_agent_inactive. destruct (event_rid ev) as [rid|e]; simpl; [|reflexivity].
    destruct (py_eq rid run_id); [now apply finish_settled|reflexivity].
  - unfold on_error_event. now rewrite Hs.
Qed.

Lemma invoke_all_settled (cs : list settling) (w : wait_state) :
  _settled w = true -> invoke_all py_repr run_id cs w = w.
Proof.
  intros Hs. unfold invoke_all. induction cs as [|c cs IH]; simpl; [reflexivity|].
  now rewrite invoke_settled.
Qed.

Lemma transitions_settled (cs : list settling) (w : wait_state) :
  _settled w = true -> transitions py_repr run_id cs w = 0%nat.
Proof.
  intros Hs. induction cs as [|c cs IH]; simpl; [reflexivity|].
  rewrite invoke_settled, Hs by assumption. simpl. exact IH.
Qed.

Lemma transitions_at_most_one (cs : list settling) (w : wait_state) :
  (transitions py_repr run_id cs w <= 1)%nat.
Proof.
  revert w. induction cs as [|c cs IH]; intros w; simpl; [lia|].
  destruct (negb (_settled w) && _settled (invoke py_repr run_id c w)) eqn:E.
  - apply andb_prop in E as [_ E]. rewrite (transitions_settled cs _ E). lia.
  - specialize (IH (invoke py_repr run_id c w)). lia.
Qed.

(** The handlers that do not settle leave the settlement alone. *)
Lemma on_space_message_settlement (ev : event) (w : wait_state) :
  settlement (fst (on_space_message ev w)) = settlement w.
Proof.
  unfold on_space_message.
  destruct (_ ≫= _) as [[c|]|e]; simpl; [|reflexivity..].
  now destruct (truthy c).
Qed.

Lemma on_tool_started_settlement (ev : event) (w : wait_state) :
  settlement (fst (on_tool_started py_repr ev w)) = settlement w.
Proof.
  unfold on_tool_started.
  now destruct (_ ≫= _) as [[[call_id name]|]|e].
Qed.

Lemma on_tool_done_settlement (ev : event) (w : wait_state) :
  settlement (fst (on_tool_done py_repr ev w)) = settlement w.
Proof.
  unfold on_tool_done.
  now destruct (_ ≫= _) as [[[call_id call]|]|e].
Qed.

#[local] Instance keeps_settlement_refl : Reflexive keeps_settlement.
Proof. now intros w. Qed.

#[local] Instance keeps_settlement_trans : Transitive keeps_settlement.
Proof.
  intros w1 w2 w3 H12 H23 Hs. specialize (H12 Hs).
  rewrite <- H12. apply H23.
  unfold settlement in H12. congruence.
Qed.

Lemma handlers_keep_settlement (h : listener wait_state) :
  In h [on_space_message; on_agent_inactive run_id;
        on_error_event py_repr; on_tool_started py_repr;
        on_tool_done py_repr; on_run_completed; on_run_failed py_repr] ->
  forall ev w, keeps_settlement w (fst (h ev w)).
Proof.
  intros Hin ev w Hs. simpl in Hin.
  destruct Hin as [<-|[<-|[<-|[<-|[<-|[<-|[<-|[]]]]]]]].
  - apply on_space_message_settlement.
  - exact (f_equal settlement (invoke_settled (AgentInactive ev) w Hs)).
  - exact (f_equal settlement (invoke_settled (StreamError ev) w Hs)).
  - apply on_tool_started_settlement.
  - apply on_tool_done_settlement.
  - exact (f_equal settlement (invoke_settled (RunCompleted ev) w Hs)).
  - exact (f_equal settlement (invoke_settled (RunFailed ev) w Hs)).
Qed.

#[local] Instance keeps_done_refl : Reflexive keeps_done_when_settled.
Proof. now intros w. Qed.

#[local] Instance keeps_done_trans : Transitive keeps_done_when_settled.
Proof. intros w1 w2 w3 H12 H23 H. auto. Qed.

Lemma finish_done_when_settled (w : wait_state) :
  done_when_settled w -> done_when_settled (finish w).
Proof. unfold finish, done_when_settled. destruct (_settled w) eqn:E; simpl; auto. Qed.

Lemma settlement_done_when_settled (w w' : wait_state) :
  settlement w' = settlement w -> done_when_settled w -> done_when_settled w'.
Proof. unfold settlement, done_when_settled. intros [= -> -> _]. auto. Qed.

Lemma handlers_keep_done (h : listener wait_state) :
  In h [on_space_message; on_agent_inactive run_id;
        on_error_event py_repr; on_tool_started py_repr;
        on_tool_done py_repr; on_run_completed; on_run_failed py_repr] ->
  forall ev w, keeps_done_when_settled w (fst (h ev w)).
Proof.
  intros Hin ev w. unfold keeps_done_when_settled. simpl in Hin.
  destruct Hin as [<-|[<-|[<-|[<-|[<-|[<-|[<-|[]]]]]]]].
  - apply settlement_done_when_settled, on_space_message_settlement.
  - unfold on_agent_inactive. destruct (event_rid ev) as [rid|e]; simpl; [|now intros ?].
    destruct (py_eq rid run_id); [apply finish_done_when_settled|now intros ?].
  - unfold on_error_event. destruct (_settled w) eqn:E; [now intros ?|].
    destruct (get_default _ _ _); simpl; intros _ _; reflexivity.
  - apply settlement_done_when_settled, on_tool_started_settlement.
  - apply settlement_done_when_settled, on_tool_done_settlement.
  - apply finish_done_when_settled.
  - unfold on_run_failed. destruct (_settled w) eqn:E; [now intros ?|].
    destruct (get_default _ _ _); simpl; intros _ _; reflexivity.
Qed.

Lemma deliver_all_done_when_settled (ds : list (feed * event)) :
  done_when_settled (deliver_all sp rn ds initial_wait).
Proof.
  apply (deliver_all_respects keeps_done_when_settled ds handlers_keep_done).
  intros H; discriminate H.
Qed.

Lemma deliver_all_keeps_settlement (ds : list (feed * event)) (w : wait_state) :
  _settled w = true -> settlement (deliver_all sp rn ds w) = settlement w.
Proof. apply (deliver_all_respects keeps_settlement ds handlers_keep_settlement). Qed.

(** A [run.failed] event on the run connection, carrying an error message,
    settles a pending wait with this message. *)
Lemma deliver_run_failed (failed : event) (fields : list (string * json))
    (v : json) (w : wait_state) :
  ev_type failed = JStr "run.failed" -> ev_data failed = JObj fields ->
  dict_get "errorMessage" fields = Some v -> _settled w = false ->
  deliver sp rn (RunFeed, failed) w =
  set_done (set_error (py_str py_repr v) (set_settled w)).
Proof.
  intros Ht Hd Hm Hs. unfold deliver. cbn [fst snd]. rewrite Ht.
  unfold _emit, handlers_get. cbn [hashable].
  rewrite !run_stream_lookup. cbn.
  unfold on_run_failed, data_or_empty. rewrite Hs. cbn. rewrite Hd.
  destruct fields as [|f fields]; [discriminate|].
  unfold py_or, get_default. cbn [truthy]. now rewrite Hm.
Qed.

(** A [run.completed] event on the run connection calls [finish]. *)
Lemma deliver_run_completed (completed : event) (w : wait_state) :
  ev_type completed = JStr "run.completed" ->
  deliver sp rn (RunFeed, completed) w = finish w.
Proof.
  intros Ht. unfold deliver. cbn [fst snd]. rewrite Ht.
  unfold _emit, handlers_get. cbn [hashable].
  rewrite !run_stream_lookup. reflexivity.
Qed.

(** On the space connection, an event that is not a stream error and
    whose run id is not the awaited one leaves the settlement alone. *)
Lemma deliver_space_other_run (ev : event) (w : wait_state) :
  ev_type ev <> JStr "error" ->
  (forall rid, event_rid ev = Ok rid -> py_eq rid run_id = false) ->
  settlement (deliver sp rn (SpaceFeed, ev) w) = settlement w.
Proof.
  intros Ht Hrid. unfold deliver. cbn [fst snd].
  unfold _emit, handlers_get.
  destruct (hashable (ev_type ev)); [|reflexivity]. cbn [fst].
  rewrite (space_stream_lookup "*"). cbn [String.eqb Ascii.eqb Bool.eqb call_all].
  destruct (ev_type ev) as [| | | |t| |]; try reflexivity.
  rewrite space_stream_lookup.
  destruct (String.eqb_spec "error" t) as [<-|_]; [congruence|].
  destruct (String.eqb "agent.inactive" t).
  { cbn [call_all]. unfold on_agent_inactive.
    destruct (event_rid ev) as [rid|e] eqn:E; [|reflexivity].
    now rewrite (Hrid rid eq_refl). }
  destruct (String.eqb "space.message" t); [|reflexivity].
  cbn [call_all]. apply on_space_message_settlement.
Qed.

Lemma send_and_wait_awaits (send_result : result json) (timeout : Q)
    (ds : list (feed * event)) :
  run_id_of send_result = Ok (Some run_id) ->
  send_and_wait py_repr format_float http space_id send_result timeout ds =
  (conclude format_float timeout run_id (deliver_all sp rn ds initial_wait),
   Some (set_closed true sp, set_closed true rn)).
Proof.
  intros H. unfold send_and_wait. rewrite H.
  unfold close. cbn [call_opt _on_close set_closed]. reflexivity.
Qed.

End Wait.

(** ** The run to wait for *)

Lemma run_id_of_no_runs (fields : list (string * json)) :
  truthy (default (JArr []) (dict_get "runs" fields)) = false ->
  run_id_of (Ok (JObj fields)) = Ok None.
Proof. intros H. unfold run_id_of. simpl. now rewrite H. Qed.

Lemma run_id_of_first (fields : list (string * json)) (first : json)
    (others : list json) (run_id : json) :
  dict_get "runs" fields = Some (JArr (first :: others)) ->
  getitem first "runId" = Ok run_id ->
  run_id_of (Ok (JObj fields)) = Ok (Some run_id).
Proof.
  intros Hruns Hfirst. unfold run_id_of. simpl.
  rewrite Hruns. simpl. now rewrite Hfirst.
Qed.

Section Call.

Variable py_repr : json -> string.
Variable format_float : Q -> string.
Variable http : HttpClient.
Variable space_id : string.

Abbreviation sp run_id := (space_stream py_repr http space_id run_id).
Abbreviation rn run_id := (run_stream py_repr http run_id).

(** C1, as the code has it. [send_and_wait] constructs both connections
    with [reconnect=False]: a transport failure on either of them, whether
    of the request or of the read, ends its read loop at once; the loop
    does not sleep and issues no further request. *)
Theorem wait_streams_stop_at_first_failure (loads : string -> option json)
    (send_result : result json) (run_id : json) (timeout : Q)
    (ds : list (feed * event)) (a : attempt) (rest : list step)
    (w : wait_state) :
  run_id_of send_result = Ok (Some run_id) ->
  transport_failure a = true ->
  snd (send_and_wait py_repr format_float http space_id send_result timeout ds) =
    Some (set_closed true (sp run_id), set_closed true (rn run_id)) /\
  _reconnect (sp run_id) = false /\
  _reconnect (rn run_id) = false /\
  (exists st' w',
      _run loads (sp run_id) (Attempt a :: rest) w = (st', w', [Connect], Returned)) /\
  (exists st' w',
      _run loads (rn run_id) (Attempt a :: rest) w = (st', w', [Connect], Returned)).
Proof.
  intros Hrun Ha.
  split.
  { rewrite (send_and_wait_awaits py_repr format_float http space_id run_id
               send_result timeout ds Hrun). reflexivity. }
  split; [reflexivity|]. split; [reflexivity|].
  split; apply run_without_reconnect;
    try reflexivity; try assumption; intros f Hf; discriminate Hf.
Qed.

(** C2. Over any sequence of calls of the settling handlers, [_settled]
    goes from false to true at most once, and once it is true no such call
    changes anything; no delivery on either connection changes the
    settlement after that. After a [run.failed] event with the message
    "boom" the wait is settled with the error "boom", and a later
    [run.completed] event leaves the state as it is. *)
Theorem settles_once_first_event_wins (run_id : json) :
  (forall (cs : list settling) (w : wait_state),
      (transitions py_repr run_id cs w <= 1)%nat) /\
  (forall (cs : list settling) (w : wait_state),
      _settled w = true -> invoke_all py_repr run_id cs w = w) /\
  (forall (ds : list (feed * event)) (w : wait_state),
      _settled w = true ->
      settlement (deliver_all (sp run_id) (rn run_id) ds w) = settlement w) /\
  (forall (failed completed : event) (fields : list (string * json))
          (msg : string) (timeout : Q),
      ev_type failed = JStr "run.failed" ->
      ev_data failed = JObj fields ->
      dict_get "errorMessage" fields = Some (JStr msg) ->
      ev_type completed = JStr "run.completed" ->
      let w1 := deliver (sp run_id) (rn run_id) (RunFeed, failed) initial_wait in
      let w2 := deliver (sp run_id) (rn run_id) (RunFeed, completed) w1 in
      settlement w1 = (true, true, Some msg) /\
      conclude format_float timeout run_id w1 = Raise (RuntimeError msg) /\
      w2 = w1).
Proof.
  split; [|split; [|split]].
  - apply transitions_at_most_one.
  - apply invoke_all_settled.
  - apply deliver_all_keeps_settlement.
  - intros failed completed fields msg timeout Ht Hd Hm Hc w1 w2.
    assert (Hw1 : w1 = set_done (set_error msg (set_settled initial_wait))).
    { subst w1.
      exact (deliver_run_failed py_repr http space_id run_id failed fields
               (JStr msg) initial_wait Ht Hd Hm eq_refl). }
    subst w2.
    rewrite (deliver_run_completed py_repr http space_id run_id completed w1 Hc).
    rewrite Hw1. repeat split.
Qed.

(** C8. When the call waits for a run: it ends as the [try] block does on
    the state that the deliveries leave, and by then both connections are
    closed, whatever the outcome. If no event settled the wait, the
    outcome is a [TimeoutError]; if the wait was settled with an error, it
    is a [RuntimeError] with the error's message, another exception; and
    if it was settled without one, it is the result. The deadline is 30
    seconds unless the caller gives one. *)
Theorem timeout_distinct_and_streams_closed (send_result : result json)
    (run_id : json) (timeout : Q) (ds : list (feed * event)) :
  run_id_of send_result = Ok (Some run_id) ->
  let w := deliver_all (sp run_id) (rn run_id) ds initial_wait in
  let outcome := conclude format_float timeout run_id w in
  (exists sp' rn',
      send_and_wait py_repr format_float http space_id send_result timeout ds =
      (outcome, Some (sp', rn')) /\
      _closed sp' = true /\ _closed rn' = true) /\
  (_settled w = false ->
   outcome = Raise (TimeoutError ("send_and_wait timed out after " ++
                                  format_float timeout ++ "s"))) /\
  (forall msg, done_event w = true -> error_holder w = Some msg ->
               outcome = Raise (RuntimeError msg)) /\
  (forall text, done_event w = true -> error_holder w = None ->
                join_values newline (text_parts w) = Ok text ->
                outcome = Ok (JObj [("text", JStr text);
                                    ("tool_calls", JArr (map snd (tool_calls w)));
                                    ("run", JObj [("id", run_id)])])) /\
  (forall m1 m2, TimeoutError m1 <> RuntimeError m2) /\
  default_timeout = 30%Q.
Proof.
  intros Hrun w outcome.
  split; [|split; [|split; [|split; [|split]]]].
  - exists (set_closed true (sp run_id)), (set_closed true (rn run_id)).
    split; [now apply send_and_wait_awaits|split; reflexivity].
  - intros Hs. subst outcome. unfold conclude.
    destruct (done_event w) eqn:Hd; [|reflexivity].
    pose proof (deliver_all_done_when_settled py_repr http space_id run_id ds Hd).
    fold w in H. congruence.
  - intros msg Hd He. subst outcome. unfold conclude. now rewrite Hd, He.
  - intros text Hd He Ht. subst outcome. unfold conclude. now rewrite Hd, He, Ht.
  - discriminate.
  - reflexivity.
Qed.

(** C9. When the response of the send call has no run descriptors (no
    ["runs"] key, or an empty list under it), the call returns the empty
    result without constructing a connection, whatever would be delivered
    and whatever the deadline. *)
Theorem no_runs_returns_empty_result (fields : list (string * json))
    (timeout : Q) (ds : list (feed * event)) :
  truthy (default (JArr []) (dict_get "runs" fields)) = false ->
  send_and_wait py_repr format_float http space_id (Ok (JObj fields)) timeout ds =
  (Ok (JObj [("text", JStr ""); ("tool_calls", JArr []); ("run", JNull)]), None).
Proof.
  intros H. unfold send_and_wait.
  rewrite (run_id_of_no_runs fields H). reflexivity.
Qed.

(** C10. When the response lists several run descriptors, the call waits
    for the run id of the first: the run connection is opened on that
    run's stream and no other connection but the space connection exists.
    An event on the space connection that carries another run id and is
    not a stream error never changes the settlement. The listeners of the
    run connection do not look at an event's run id: a ["run.completed"]
    or ["run.failed"] event delivered there settles the wait whatever run
    id it carries; the connection's URL is all that ties it to the first
    run. *)
Theorem only_first_run_id_is_awaited (fields : list (string * json))
    (first : json) (others : list json) (run_id : json) (timeout : Q)
    (ds : list (feed * event)) :
  dict_get "runs" fields = Some (JArr (first :: others)) ->
  getitem first "runId" = Ok run_id ->
  send_and_wait py_repr format_float http space_id (Ok (JObj fields)) timeout ds =
    (conclude format_float timeout run_id
       (deliver_all (sp run_id) (rn run_id) ds initial_wait),
     Some (set_closed true (sp run_id), set_closed true (rn run_id))) /\
  _url (rn run_id) =
    base_url http ++ "/api/runs/" ++ py_str py_repr run_id ++ "/stream" /\
  _url (sp run_id) =
    base_url http ++ "/api/smart-spaces/" ++ space_id ++ "/stream" /\
  (forall (ev : event) (w : wait_state),
      ev_type ev <> JStr "error" ->
      (forall rid, event_rid ev = Ok rid -> py_eq rid run_id = false) ->
      settlement (deliver (sp run_id) (rn run_id) (SpaceFeed, ev) w) = settlement w) /\
  (forall (ev : event) (w : wait_state),
      ev_type ev = JStr "run.completed" ->
      deliver (sp run_id) (rn run_id) (RunFeed, ev) w = finish w) /\
  (forall (ev : event) (d : list (string * json)) (v : json) (w : wait_state),
      ev_type ev = JStr "run.failed" -> ev_data ev = JObj d ->
      dict_get "errorMessage" d = Some v -> _settled w = false ->
      deliver (sp run_id) (rn run_id) (RunFeed, ev) w =
      set_done (set_error (py_str py_repr v) (set_settled w))).
Proof.
  intros Hruns Hfirst. split; [|split; [|split; [|split; [|split]]]].
  - apply send_and_wait_awaits.
    exact (run_id_of_first fields first others run_id Hruns Hfirst).
  - reflexivity.
  - reflexivity.
  - intros ev w. apply deliver_space_other_run.
  - intros ev w. apply deliver_run_completed.
  - intros ev d v w. apply deliver_run_failed.
Qed.

End Call.

(** ** The theorems at concrete inputs *)

Lemma wait_streams_stop_at_first_failure_witness :
  let sp := space_stream show example_http "s1" (JStr "r1") in
  let rn := run_stream show example_http (JStr "r1") in
  (run_id_of (Ok two_runs) = Ok (Some (JStr "r1")) /\
   transport_failure (Opened [Line (Some ": ping")] (ReadError ConnectionError)) = true) /\
  (snd (send_and_wait show show_float example_http "s1" (Ok two_runs)
          default_timeout []) =
     Some (set_closed true sp, set_closed true rn) /\
   _reconnect sp = false /\
   _reconnect rn = false /\
   (exists st' w',
       _run JsonText.loads sp
         [Attempt (Opened [Line (Some ": ping")] (ReadError ConnectionError));
          Attempt (BadStatus false)] initial_wait =
       (st', w', [Connect], Returned)) /\
   (exists st' w',
       _run JsonText.loads rn
         [Attempt (Opened [Line (Some ": ping")] (ReadError ConnectionError));
          Attempt (BadStatus false)] initial_wait =
       (st', w', [Connect], Returned))).
Proof.
  intros sp rn. split; [split; reflexivity|].
  exact (wait_streams_stop_at_first_failure show show_float example_http "s1"
           JsonText.loads (Ok two_runs) (JStr "r1") default_timeout []
           (Opened [Line (Some ": ping")] (ReadError ConnectionError))
           [Attempt (BadStatus false)] initial_wait eq_refl eq_refl).
Defined.

(** The two connections of a wait are constructed with reconnection
    disabled; on the run connection a refused request is followed by no
    sleep and no second request, although the server would accept one:
    the read loop has returned. *)
Lemma wait_streams_opened_without_reconnect :
  exists sp' rn',
    snd (send_and_wait show show_float example_http "s1" (Ok two_runs)
           default_timeout []) = Some (sp', rn') /\
    _reconnect sp' = false /\ _reconnect rn' = false /\
    (let '(_, _, acts, fin) :=
       _run JsonText.loads (run_stream show example_http (JStr "r1"))
         [Attempt (BadStatus false); Attempt (Opened [] EndOfStream)]
         initial_wait in
     acts = [Connect] /\ sleeps acts = [] /\ fin = Returned).
Proof.
  exists (set_closed true (space_stream show example_http "s1" (JStr "r1"))),
         (set_closed true (run_stream show example_http (JStr "r1"))).
  split.
  { exact (f_equal snd
             (send_and_wait_awaits show show_float example_http "s1" (JStr "r1")
                (Ok two_runs) default_timeout [] eq_refl)). }
  split; [reflexivity|]. split; [reflexivity|].
  vm_compute. repeat split.
Qed.

Lemma settles_once_first_event_wins_witness :
  let sp := space_stream show example_http "s1" (JStr "r1") in
  let rn := run_stream show example_http (JStr "r1") in
  let failed := plain_event "run.failed" (JObj [("errorMessage", JStr "boom")]) in
  let completed :=
    plain_event "run.completed" (JObj [("type", JStr "run.completed")]) in
  (ev_type failed = JStr "run.failed" /\
   ev_data failed = JObj [("errorMessage", JStr "boom")] /\
   dict_get "errorMessage" [("errorMessage", JStr "boom")] = Some (JStr "boom") /\
   ev_type completed = JStr "run.completed") /\
  let w1 := deliver sp rn (RunFeed, failed) initial_wait in
  let w2 := deliver sp rn (RunFeed, completed) w1 in
  settlement w1 = (true, true, Some "boom") /\
  conclude show_float default_timeout (JStr "r1") w1 = Raise (RuntimeError "boom") /\
  w2 = w1.
Proof.
  intros sp rn failed completed. split; [repeat split|].
  exact (proj2 (proj2 (proj2
           (settles_once_first_event_wins show show_float example_http "s1"
              (JStr "r1"))))
           failed completed [("errorMessage", JStr "boom")] "boom"
           default_timeout eq_refl eq_refl eq_refl eq_refl).
Defined.

Lemma timeout_distinct_and_streams_closed_witness :
  let sp := space_stream show example_http "s1" (JStr "r1") in
  let rn := run_stream show example_http (JStr "r1") in
  let ds := [(SpaceFeed, plain_event "agent.inactive" (JObj [("runId", JStr "r2")]))] in
  run_id_of (Ok two_runs) = Ok (Some (JStr "r1")) /\
  let w := deliver_all sp rn ds initial_wait in
  let outcome := conclude show_float default_timeout (JStr "r1") w in
  (exists sp' rn',
      send_and_wait show show_float example_http "s1" (Ok two_runs)
        default_timeout ds = (outcome, Some (sp', rn')) /\
      _closed sp' = true /\ _closed rn' = true) /\
  (_settled w = false ->
   outcome = Raise (TimeoutError ("send_and_wait timed out after " ++
                                  show_float default_timeout ++ "s"))).
Proof.
  intros sp rn ds. split; [reflexivity|].
  intros w outcome.
  pose proof (timeout_distinct_and_streams_closed show show_float example_http
                "s1" (Ok two_runs) (JStr "r1") default_timeout ds eq_refl)
    as (H1 & H2 & _).
  split; [exact H1|exact H2].
Defined.

Lemma no_runs_returns_empty_result_witness :
  let fields := [("message", JObj [("id", JStr "m1")]); ("runs", JArr [])] in
  truthy (default (JArr []) (dict_get "runs" fields)) = false /\
  send_and_wait show show_float example_http "s1" (Ok (JObj fields))
    default_timeout
    [(RunFeed, plain_event "run.completed" (JObj [("type", JStr "run.completed")]))] =
  (Ok (JObj [("text", JStr ""); ("tool_calls", JArr []); ("run", JNull)]), None).
Proof.
  intros fields. split; [reflexivity|].
  apply (no_runs_returns_empty_result show show_float example_http "s1" fields).
  reflexivity.
Defined.

Lemma only_first_run_id_is_awaited_witness :
  let sp := space_stream show example_http "s1" (JStr "r1") in
  let rn := run_stream show example_http (JStr "r1") in
  let ev := plain_event "agent.inactive" (JObj [("runId", JStr "r2")]) in
  let completed := plain_event "run.completed" (JObj [("runId", JStr "r2")]) in
  (dict_get "runs" [("message", JObj [("id", JStr "m1")]);
                    ("runs", JArr [JObj [("runId", JStr "r1")];
                                   JObj [("runId", JStr "r2")]])] =
     Some (JArr [JObj [("runId", JStr "r1")]; JObj [("runId", JStr "r2")]]) /\
   getitem (JObj [("runId", JStr "r1")]) "runId" = Ok (JStr "r1") /\
   ev_type ev <> JStr "error" /\
   (forall rid, event_rid ev = Ok rid -> py_eq rid (JStr "r1") = false) /\
   ev_type completed = JStr "run.completed" /\
   event_rid completed = Ok (JStr "r2")) /\
  _url rn = base_url example_http ++ "/api/runs/" ++ py_str show (JStr "r1") ++ "/stream" /\
  settlement (deliver sp rn (SpaceFeed, ev) initial_wait) = settlement initial_wait /\
  deliver sp rn (RunFeed, completed) initial_wait = finish initial_wait.
Proof.
  intros sp rn ev completed.
  assert (Ht : ev_type ev <> JStr "error") by discriminate.
  assert (Hr : forall rid, event_rid ev = Ok rid -> py_eq rid (JStr "r1") = false).
  { intros rid [= <-]. reflexivity. }
  split; [repeat split; assumption|].
  pose proof (only_first_run_id_is_awaited show show_float example_http "s1"
                [("message", JObj [("id", JStr "m1")]);
                 ("runs", JArr [JObj [("runId", JStr "r1")];
                                JObj [("runId", JStr "r2")]])]
                (JObj [("runId", JStr "r1")]) [JObj [("runId", JStr "r2")]]
                (JStr "r1") default_timeout [] eq_refl eq_refl)
    as (_ & Hurl & _ & Hev & Hdone & _).
  split; [exact Hurl|]. split; [exact (Hev ev initial_wait Ht Hr)|].
  exact (Hdone completed initial_wait eq_refl).
Defined.

(** Events of the second run, [r2], on the run connection of the first:
    as decoded from the frames of a ["run.completed"] and of a
    ["run.failed"] document with [runId] [r2]. Either one settles the
    wait for [r1]: the call returns the result of [r1], or raises the
    failure. *)
Lemma other_run_event_settles_the_wait :
  let doc t := JsonText.dq ("{'type': '" ++ t ++ "', 'runId': 'r2', " ++
                            "'data': {'runId': 'r2', 'errorMessage': 'boom'}}") in
  let raw t := {| frame_data := [doc t]; frame_id := None; frame_type := None |} in
  let call ev :=
    fst (send_and_wait show show_float example_http "s1" (Ok two_runs)
           default_timeout [(RunFeed, ev)]) in
  run_id_of (Ok two_runs) = Ok (Some (JStr "r1")) /\
  match decode JsonText.loads (raw "run.completed") (doc "run.completed"),
        decode JsonText.loads (raw "run.failed") (doc "run.failed") with
  | Ok completed, Ok failed =>
      event_rid completed = Ok (JStr "r2") /\
      event_rid failed = Ok (JStr "r2") /\
      py_eq (JStr "r2") (JStr "r1") = false /\
      call completed =
        Ok (JObj [("text", JStr ""); ("tool_calls", JArr []);
                  ("run", JObj [("id", JStr "r1")])]) /\
      call failed = Raise (RuntimeError "boom")
  | _, _ => False
  end.
Proof. vm_compute. repeat split. Qed.

(** The three ways out of a wait, on the response [two_runs]: a
    [tool.started], a [tool.done] and a [run.completed] event give the
    result with one tool call; a [run.failed] event gives a
    [RuntimeError]; an [agent.inactive] event of the other run gives a
    [TimeoutError]. Both connections are closed each time. *)
Example three_exits_close_both :
  let call ds := send_and_wait show show_float example_http "s1" (Ok two_runs)
                   default_timeout ds in
  let both_closed r :=
    match snd r with
    | Some (a, b) => _closed a && _closed b
    | None => false
    end in
  let success :=
    call [(RunFeed, plain_event "tool.started"
                      (JObj [("toolName", JStr "x"); ("streamId", JStr "1")]));
          (SpaceFeed, plain_event "space.message"
                        (JObj [("message", JObj [("role", JStr "assistant");
                                                 ("content", JStr "hello")])]));
          (RunFeed, plain_event "tool.done"
                      (JObj [("streamId", JStr "1");
                             ("result", JObj [("ok", JBool true)])]));
          (RunFeed, plain_event "run.completed"
                      (JObj [("type", JStr "run.completed")]))] in
  let failure :=
    call [(RunFeed, plain_event "run.failed" (JObj [("errorMessage", JStr "boom")]));
          (RunFeed, plain_event "run.completed"
                      (JObj [("type", JStr "run.completed")]))] in
  let timed_out :=
    call [(SpaceFeed, plain_event "agent.inactive" (JObj [("runId", JStr "r2")]))] in
  fst success =
    Ok (JObj [("text", JStr "hello");
              ("tool_calls",
               JArr [JObj [("id", JStr "1"); ("name", JStr "x");
                           ("input", JNull);
                           ("output", JObj [("ok", JBool true)])]]);
              ("run", JObj [("id", JStr "r1")])]) /\
  fst failure = Raise (RuntimeError "boom") /\
  fst timed_out = Raise (TimeoutError "send_and_wait timed out after 30.0s") /\
  both_closed success = true /\ both_closed failure = true /\
  both_closed timed_out = true.
Proof. vm_compute. repeat split. Qed.

(** A [run.failed] event whose payload is a string: [on_run_failed] sets
    [_settled] and then raises on [data.get], before [done_event.set()].
    The wait is settled, a later [run.completed] event finds it so, and
    the waiter runs into the deadline. *)
Example run_failed_with_text_payload :
  let r := send_and_wait show show_float example_http "s1" (Ok two_runs)
             default_timeout
             [(RunFeed, plain_event "run.failed" (JStr "oops"));
              (RunFeed, plain_event "run.completed"
                          (JObj [("type", JStr "run.completed")]))] in
  fst r = Raise (TimeoutError "send_and_wait timed out after 30.0s").
Proof. vm_compute. reflexivity. Qed.

End MessagesProps.

(** * Further properties of the stream client *)

Module SSEExtra.

Import SSE Statements MoreStatements SSEProps.

(** ** Lines *)

Lemma feed_ignored_line (loads : string -> option json) {S : Type}
    (hs : gmap string (list (listener S))) (line : string)
    (current : frame) (s : S) :
  ignored_line line = true -> feed_line loads hs line current s = (current, s).
Proof.
  unfold ignored_line, feed_line.
  destruct (starts_with_colon line); [reflexivity|]. simpl.
  destruct (String.eqb line ""); [discriminate|]. simpl.
  destruct (Z.eqb (find_colon line) (-1)); [reflexivity|]. simpl.
  unfold assign_field.
  destruct (String.eqb _ "id"); [discriminate|].
  destruct (String.eqb _ "event"); [discriminate|].
  destruct (String.eqb _ "data"); [discriminate|reflexivity].
Qed.

(** X1. While nobody closes the connection, the lines that are comments,
    that have no colon, or that name a field other than [id], [event] and
    [data] (and the [None] items of [iter_lines]) can be taken out of a
    response without changing what reading it does. *)
Theorem ignored_lines_change_nothing (loads : string -> option json)
    {S : Type} (st : @SSEStream S) (items : list read_item)
    (current : frame) (s : S) :
  _closed st = false -> lines_only items = true ->
  read_lines loads st (List.filter (fun i => negb (ignored_item i)) items)
             current s =
  read_lines loads st items current s.
Proof.
  intros Hcl. revert current s.
  induction items as [|[[line|]|] items IH]; intros current s Hl;
    simpl in *; try discriminate; [reflexivity| |].
  - destruct (ignored_line line) eqn:E; simpl; rewrite Hcl.
    + rewrite (feed_ignored_line loads _ line current s E). now apply IH.
    + destruct (feed_line loads (_handlers st) line current s). now apply IH.
  - rewrite Hcl. now apply IH.
Qed.

Lemma ignored_lines_change_nothing_witness :
  let st : @SSEStream (list nat) :=
    on "*" (logging (1%nat, false))
       (init "http://gateway/stream" ∅ true 1 30 None None None) in
  let items := [Line (Some ": ping"); Line (Some "retry: 3000"); Line None;
                Line (Some (JsonText.dq "data: {'type': 'x'}"));
                Line (Some "garbage"); Line (Some "")] in
  (_closed st = false /\ lines_only items = true) /\
  read_lines JsonText.loads st
    [Line (Some (JsonText.dq "data: {'type': 'x'}")); Line (Some "")]
    empty_frame [] =
  read_lines JsonText.loads st items empty_frame [].
Proof.
  intros st items. split; [split; reflexivity|].
  exact (ignored_lines_change_nothing JsonText.loads st items empty_frame []
           eq_refl eq_refl).
Defined.

(** X2. A run of field lines followed by a blank line: the fields are
    stored in order (a later [id] or [event] replaces an earlier one,
    [data] values accumulate), the frame is handed to [_process_raw] when
    it has at least one data value, and in either case reading goes on
    with an empty accumulator, so that no [id] or [event] reaches the next
    frame. *)
Theorem field_lines_then_blank (loads : string -> option json)
    {S : Type} (st : @SSEStream S) (fvs : list (string * string))
    (rest : list read_item) (current : frame) (s : S) :
  _closed st = false ->
  Forall (fun fv => fst fv <> "" /\ find_colon (fst fv) = -1) fvs ->
  read_lines loads st
    (map (fun fv => Line (Some (field_line fv))) fvs ++ Line (Some "") :: rest)
    current s =
  read_lines loads st rest empty_frame
    (match frame_data (assemble fvs current) with
     | [] => s
     | _ :: _ => fst (_process_raw loads (_handlers st) (assemble fvs current) s)
     end).
Proof.
  intros Hcl Hf. revert current.
  induction Hf as [|[field value] fvs [Hne Hnc] _ IH]; intros current.
  - simpl. rewrite Hcl. reflexivity.
  - cbn [map app read_lines]. rewrite Hcl. unfold field_line. cbn [fst snd].
    rewrite (feed_field_line loads _ field value current s Hne Hnc).
    apply IH.
Qed.

Lemma field_lines_then_blank_witness :
  let st : @SSEStream (list nat) :=
    on "*" (logging (1%nat, false))
       (init "http://gateway/stream" ∅ true 1 30 None None None) in
  let fvs := [("id", " 7"); ("data", JsonText.dq " {'type':"); ("id", " 8");
              ("data", JsonText.dq " 'x'}")] in
  (_closed st = false /\
   Forall (fun fv => fst fv <> "" /\ find_colon (fst fv) = -1) fvs) /\
  assemble fvs empty_frame =
    {| frame_data := [JsonText.dq "{'type':"; JsonText.dq "'x'}"];
       frame_id := Some "8"; frame_type := None |} /\
  read_lines JsonText.loads st
    (map (fun fv => Line (Some (field_line fv))) fvs ++ [Line (Some "")])
    empty_frame [] = (st, [1%nat], false).
Proof.
  intros st fvs.
  assert (Hf : Forall (fun fv => fst fv <> "" /\ find_colon (fst fv) = -1) fvs).
  { repeat constructor; discriminate. }
  split; [split; [reflexivity|exact Hf]|]. split; [reflexivity|].
  rewrite (field_lines_then_blank JsonText.loads st fvs [] empty_frame []
             eq_refl Hf).
  vm_compute. reflexivity.
Defined.

(** ** Documents *)

(** X3. A data string that is valid JSON but not an object (a list, a
    string, a number, [true], [null]) produces no event: [parsed.get]
    raises [AttributeError], which [_process_raw] discards; no listener
    is called. *)
Theorem non_object_document_is_dropped (loads : string -> option json)
    {S : Type} (hs : gmap string (list (listener S))) (raw : frame) (s : S)
    (v : json) :
  loads (join newline (frame_data raw)) = Some v -> is_dict v = false ->
  _process_raw loads hs raw s = (s, Ok tt) /\
  decode loads raw (join newline (frame_data raw)) = Raise AttributeError.
Proof.
  intros Hl Hv. unfold _process_raw, decode. rewrite Hl.
  assert (Hb : build_event raw v = Raise AttributeError)
    by (destruct v; try discriminate; reflexivity).
  rewrite Hb. split; [|reflexivity].
  now destruct (String.eqb _ "").
Qed.

Lemma non_object_document_is_dropped_witness :
  let hs := register_all (logging_regs [("*", (1%nat, false))]) in
  let raw := {| frame_data := [JsonText.dq "[{'type': 'x'}]"];
                frame_id := None; frame_type := Some "x" |} in
  (JsonText.loads (join newline (frame_data raw)) =
     Some (JArr [JObj [("type", JStr "x")]]) /\
   is_dict (JArr [JObj [("type", JStr "x")]]) = false) /\
  _process_raw JsonText.loads hs raw [] = ([], Ok tt).
Proof.
  intros hs raw. split; [split; reflexivity|].
  apply (non_object_document_is_dropped JsonText.loads hs raw []
           (JArr [JObj [("type", JStr "x")]])); reflexivity.
Defined.

Lemma py_or_truthy (a b : json) : truthy b = true -> truthy (py_or a b) = true.
Proof. unfold py_or. intros Hb. now destruct (truthy a) eqn:E. Qed.

(** The type and the id of the event built from an object document. *)
Lemma build_event_type_id (raw : frame) (fields : list (string * json)) :
  exists ev,
    build_event raw (JObj fields) = Ok ev /\
    truthy (ev_type ev) = true /\
    ev_type ev =
      (let ty := default JNull (dict_get "type" fields) in
       if truthy ty then ty
       else match frame_type raw with
            | Some t => if String.eqb t "" then JStr "unknown" else JStr t
            | None => JStr "unknown"
            end) /\
    ev_id ev =
      (match frame_id raw with
       | Some i => if String.eqb i "" then default (JStr "") (dict_get "id" fields)
                   else JStr i
       | None => default (JStr "") (dict_get "id" fields)
       end).
Proof.
  destruct (build_event_object raw fields) as (ev & Hev & _).
  exists ev. split; [exact Hev|].
  unfold build_event, get, get_default in Hev. simpl in Hev.
  destruct (if is_dict _ then _ else _) as [drun|e] eqn:Hd; [|discriminate].
  simpl in Hev. injection Hev as <-. cbn [ev_type ev_id].
  split; [now apply py_or_truthy|]. split.
  - unfold py_or.
    destruct (truthy (default JNull (dict_get "type" fields))) eqn:E;
      [now rewrite E|].
    destruct (frame_type raw) as [t|]; simpl; [|reflexivity].
    now destruct (String.eqb t "").
  - unfold py_or. destruct (frame_id raw) as [i|]; simpl; [|reflexivity].
    now destruct (String.eqb i "").
Qed.

(** X4. An object document always gives an event, and the event always
    has a type: the document's [type] when it is truthy, else the frame's
    [event:] value when there is one and it is not empty, else
    ["unknown"]. Its id is the frame's [id:] value when there is one and
    it is not empty, else the document's [id], else the empty string. *)
Theorem decoded_event_type_and_id (raw : frame) (fields : list (string * json)) :
  exists ev,
    build_event raw (JObj fields) = Ok ev /\
    truthy (ev_type ev) = true /\
    ev_type ev =
      (let ty := default JNull (dict_get "type" fields) in
       if truthy ty then ty
       else match frame_type raw with
            | Some t => if String.eqb t "" then JStr "unknown" else JStr t
            | None => JStr "unknown"
            end) /\
    ev_id ev =
      (match frame_id raw with
       | Some i => if String.eqb i "" then default (JStr "") (dict_get "id" fields)
                   else JStr i
       | None => default (JStr "") (dict_get "id" fields)
       end).
Proof. exact (build_event_type_id raw fields). Qed.

(** X5. An event whose type is truthy but not a string reaches no
    listener registered for a type: the wildcard listeners alone are
    called when the type is a number or a boolean, and nobody is when it
    is a list or an object (the lookup raises [TypeError], which
    [_process_raw] discards). *)
Theorem non_string_type_reaches_no_typed_listener
    (loads : string -> option json) {S : Type}
    (hs : gmap string (list (listener S))) (raw : frame) (s : S)
    (fields : list (string * json)) (ty : json) :
  join newline (frame_data raw) <> "" ->
  loads (join newline (frame_data raw)) = Some (JObj fields) ->
  dict_get "type" fields = Some ty -> truthy ty = true ->
  (forall t, ty <> JStr t) ->
  exists ev,
    decode loads raw (join newline (frame_data raw)) = Ok ev /\
    ev_type ev = ty /\
    _process_raw loads hs raw s =
    (if hashable ty then call_all (default [] (hs !! "*")) ev s else s, Ok tt).
Proof.
  intros Hne Hl Hty Htr Hns.
  destruct (build_event_type_id raw fields) as (ev & Hev & _ & Ht & _).
  rewrite Hty in Ht. simpl in Ht. rewrite Htr in Ht.
  exists ev. split; [unfold decode; now rewrite Hl|]. split; [exact Ht|].
  unfold _process_raw, decode.
  destruct (String.eqb_spec (join newline (frame_data raw)) ""); [contradiction|].
  rewrite Hl, Hev, Ht. unfold _emit, handlers_get.
  destruct ty; simpl; try reflexivity. now destruct (Hns s0).
Qed.

Lemma non_string_type_reaches_no_typed_listener_witness :
  let hs := register_all (logging_regs [("7", (1%nat, false)); ("*", (2%nat, false))]) in
  let raw := {| frame_data := [JsonText.dq "{'type': 7}"];
                frame_id := None; frame_type := Some "7" |} in
  let raw' := {| frame_data := [JsonText.dq "{'type': ['a']}"];
                 frame_id := None; frame_type := Some "a" |} in
  (join newline (frame_data raw) <> "" /\
   JsonText.loads (join newline (frame_data raw)) = Some (JObj [("type", JInt 7)]) /\
   JsonText.loads (join newline (frame_data raw')) =
     Some (JObj [("type", JArr [JStr "a"])])) /\
  (exists ev, decode JsonText.loads raw (join newline (frame_data raw)) = Ok ev /\
              ev_type ev = JInt 7 /\
              _process_raw JsonText.loads hs raw [] =
              (call_all (default [] (hs !! "*")) ev [], Ok tt)) /\
  (exists ev, decode JsonText.loads raw' (join newline (frame_data raw')) = Ok ev /\
              ev_type ev = JArr [JStr "a"] /\
              _process_raw JsonText.loads hs raw' [] = ([], Ok tt)).
Proof.
  intros hs raw raw'. split; [split; [discriminate|split; reflexivity]|]. split.
  - apply (non_string_type_reaches_no_typed_listener JsonText.loads hs raw []
             [("type", JInt 7)] (JInt 7)); try reflexivity; discriminate.
  - apply (non_string_type_reaches_no_typed_listener JsonText.loads hs raw' []
             [("type", JArr [JStr "a"])] (JArr [JStr "a"]));
      try reflexivity; discriminate.
Defined.

(** ** The read loop *)

Section Loop.

Variable loads : string -> option json.
Context {S : Type}.
Implicit Types (st : @SSEStream S) (s : S).

Lemma read_lines_until_close st (items1 items2 : list read_item)
    (current : frame) s :
  _closed st = false -> lines_only items1 = true -> lines_only items2 = true ->
  read_lines loads st (items1 ++ CloseCalled :: items2) current s =
  (set_closed true st,
   fst (call_opt (_on_close st)
          (snd (fst (read_lines loads st items1 current s)))),
   match items2 with [] => false | _ :: _ => true end).
Proof.
  intros Hcl Hl1 Hl2. revert current s.
  induction items1 as [|[raw_line|] items1 IH]; intros current s;
    simpl in Hl1; try discriminate.
  - cbn [app read_lines fst snd]. unfold close. cbn [_on_close set_closed].
    destruct (call_opt (_on_close st) s) as [s' r]. cbn [fst snd].
    destruct items2 as [|[raw_line|] items2]; try discriminate; reflexivity.
  - cbn [app read_lines]. rewrite Hcl.
    destruct raw_line as [line|]; [|now apply IH].
    destruct (feed_line loads (_handlers st) line current s) as [current' s'].
    now apply IH.
Qed.

Lemma run_closed st (script : list step) s :
  _closed st = true -> _run loads st script s = (st, s, [], Returned).
Proof. intros H. destruct script; simpl; now rewrite H. Qed.

(** X6. When [close()] is called while a response is being read: the
    lines that arrived before are processed, the [on_close] callback
    runs, and that is all. No later line is processed, the error callback
    is not called even if the read then fails, nothing is slept and no
    other request is made: [_run] returns. *)
Theorem nothing_happens_after_close st (items1 items2 : list read_item)
    (ending : stream_end) (rest : list step) s :
  _closed st = false ->
  lines_only items1 = true -> lines_only items2 = true ->
  snd (call_opt (_on_open st) s) = Ok tt ->
  let st0 := set_reconnect_attempts 0 st in
  let s0 := fst (call_opt (_on_open st) s) in
  let s1 := snd (fst (read_lines loads st0 items1 empty_frame s0)) in
  _run loads st
       (Attempt (Opened (items1 ++ CloseCalled :: items2) ending) :: rest) s =
  (set_closed true st0, fst (call_opt (_on_close st) s1), [Connect], Returned).
Proof.
  intros Hcl Hl1 Hl2 Hopen. cbv zeta. cbn [_run]. rewrite Hcl.
  unfold run_attempt.
  change (_on_open (set_reconnect_attempts 0 st)) with (_on_open st).
  destruct (call_opt (_on_open st) s) as [s0 r].
  cbn [fst snd] in *. subst r.
  rewrite (read_lines_until_close (set_reconnect_attempts 0 st) items1 items2
             empty_frame s0 Hcl Hl1 Hl2).
  change (_on_close (set_reconnect_attempts 0 st)) with (_on_close st).
  destruct items2 as [|i items2]; [|reflexivity].
  destruct ending as [|e]; [|reflexivity].
  now rewrite run_closed.
Qed.

Lemma run_clean_ends st (responses : list (list read_item)) :
  _closed st = false ->
  (forall s, snd (call_opt (_on_open st) s) = Ok tt) ->
  Forall (fun items => lines_only items = true) responses ->
  forall (a : Z) s,
  exists st' s',
    _run loads (set_reconnect_attempts a st)
         (map (fun items => Attempt (Opened items EndOfStream)) responses) s =
    (st', s', repeat Connect (length responses), Running).
Proof.
  intros Hcl Hopen. induction 1 as [|items responses Hl _ IH]; intros a s.
  - exists (set_reconnect_attempts a st), s. simpl. now rewrite Hcl.
  - destruct (run_attempt_opened_to_end loads (set_reconnect_attempts a st)
                items s Hcl Hl (Hopen s)) as [s1 Hatt].
    destruct (IH 0 s1) as (st' & s' & Hrun).
    exists st', s'. cbn [map _run]. cbn [_closed set_reconnect_attempts].
    rewrite Hcl, Hatt.
    change (set_reconnect_attempts 0 (set_reconnect_attempts a st))
      with (set_reconnect_attempts 0 st).
    now rewrite Hrun.
Qed.

(** X7. When the server ends a response without error, [_run] makes the
    next request at once: there is no sleep and no limit, and the
    [reconnect] flag is not consulted. A connection constructed with
    [reconnect=False] is still re-opened after every clean end of
    stream. *)
Theorem clean_end_reconnects_at_once st (responses : list (list read_item)) s :
  _closed st = false ->
  (forall s, snd (call_opt (_on_open st) s) = Ok tt) ->
  Forall (fun items => lines_only items = true) responses ->
  let '(_, _, acts, fin) :=
    _run loads st
         (map (fun items => Attempt (Opened items EndOfStream)) responses) s in
  acts = repeat Connect (length responses) /\ sleeps acts = [] /\ fin = Running.
Proof.
  intros Hcl Hopen Hl.
  destruct (run_clean_ends st responses Hcl Hopen Hl (_reconnect_attempts st) s)
    as (st' & s' & Hrun).
  rewrite set_reconnect_attempts_id in Hrun. rewrite Hrun.
  split; [reflexivity|]. split; [|reflexivity].
  clear. induction (length responses); simpl; assumption || reflexivity.
Qed.

(** X8. An exception raised by the [on_open] callback is handled as a
    failure of the connection: the error callback receives it, the
    counter goes to 1, the first delay is slept, and the lines of the
    response are not read. *)
Theorem on_open_exception_is_a_failure st
    (f : S -> S * result unit) (items : list read_item)
    (ending : stream_end) s (s1 : S) (e : exn) :
  _closed st = false -> _reconnect st = true -> on_error_returns st ->
  _on_open st = Some f -> f s = (s1, Raise e) ->
  run_attempt loads st (Opened items ending) s =
  (set_reconnect_attempts 1 st,
   match _on_error st with Some g => fst (g e s1) | None => s1 end,
   [Connect; Sleep (backoff (_reconnect_delay st) (_max_reconnect_delay st) 1)],
   None).
Proof.
  intros Hcl Hre Herr Hf Hfs. unfold run_attempt.
  cbn [_on_open set_reconnect_attempts]. rewrite Hf. cbn [call_opt]. rewrite Hfs.
  unfold on_failure, float_times_pow2.
  cbn [_closed _on_error _reconnect set_reconnect_attempts
       _reconnect_attempts _reconnect_delay _max_reconnect_delay].
  change (Z.leb 1024 (0 + 1 - 1)) with false. cbv iota.
  rewrite Hcl, Hre. unfold backoff. rewrite py_min_Qmin.
  destruct (_on_error st) as [g|] eqn:Hg; [|reflexivity].
  specialize (Herr g Hg e s1). destruct (g e s1) as [s2 r].
  cbn [snd] in Herr. subst r. reflexivity.
Qed.

(** X9. An exception raised by the error callback is not caught: it ends
    [_run] (and with it the background thread) without a sleep or another
    request, whether reconnection is enabled or not. *)
Theorem on_error_exception_ends_the_loop st
    (g : exn -> S -> S * result unit) (a : attempt) (rest : list step)
    s (s1 : S) (e' : exn) :
  _closed st = false -> _on_error st = Some g -> failed_connect a = true ->
  (forall exc, g exc s = (s1, Raise e')) ->
  _run loads st (Attempt a :: rest) s = (st, s1, [Connect], Crashed e').
Proof.
  intros Hcl Hg Ha Hraise. cbn [_run]. rewrite Hcl.
  destruct a as [e [|]|[|]|]; try discriminate;
    unfold run_attempt, on_failure; rewrite Hcl, Hg, Hraise; reflexivity.
Qed.

Lemma on_failure_bounded st (e : exn) s :
  _max_reconnect_delay (fst (fst (fst (on_failure st e s)))) =
    _max_reconnect_delay st /\
  Forall (fun d => Qle d (_max_reconnect_delay st))
         (sleeps (snd (fst (on_failure st e s)))).
Proof.
  unfold on_failure. destruct (_closed st); [split; [reflexivity|constructor]|].
  destruct (match _on_error st with Some f => f e s | None => (s, Ok tt) end)
    as [s1 [[]|e1]]; [|split; [reflexivity|constructor]].
  destruct (_reconnect st); simpl; [|split; [reflexivity|constructor]].
  destruct (float_times_pow2 _ _) as [scaled|e1]; simpl;
    [|split; [reflexivity|constructor]].
  split; [reflexivity|]. constructor; [|constructor].
  rewrite py_min_Qmin. apply Q.le_min_r.
Qed.

Lemma run_attempt_bounded st (a : attempt) s :
  _max_reconnect_delay (fst (fst (fst (run_attempt loads st a s)))) =
    _max_reconnect_delay st /\
  Forall (fun d => Qle d (_max_reconnect_delay st))
         (sleeps (snd (fst (run_attempt loads st a s)))).
Proof.
  assert (Hfail : forall st1 e s1,
             _max_reconnect_delay st1 = _max_reconnect_delay st ->
             _max_reconnect_delay
               (fst (fst (fst (let '(st2, s2, acts, fin) := on_failure st1 e s1 in
                               (st2, s2, Connect :: acts, fin))))) =
               _max_reconnect_delay st /\
             Forall (fun d => Qle d (_max_reconnect_delay st))
               (sleeps (snd (fst (let '(st2, s2, acts, fin) := on_failure st1 e s1 in
                                  (st2, s2, Connect :: acts, fin)))))).
  { intros st1 e s1 H1. destruct (on_failure_bounded st1 e s1) as [Hm Hs].
    destruct (on_failure st1 e s1) as [[[st2 s2] acts] fin].
    cbn [fst snd] in *. rewrite <- H1. split; [exact Hm|exact Hs]. }
  assert (Hclosing : forall b : bool,
             _max_reconnect_delay
               (fst (if b then let '(st', s', _) := close st s in (st', s')
                     else (st, s))) = _max_reconnect_delay st).
  { intros [|]; [|reflexivity]. unfold close.
    now destruct (call_opt _ s). }
  destruct a as [e b|b|items ending]; unfold run_attempt.
  - specialize (Hclosing b).
    destruct (if b then _ else _) as [st1 s1]. now apply Hfail.
  - specialize (Hclosing b).
    destruct (if b then _ else _) as [st1 s1]. now apply Hfail.
  - destruct (call_opt _ s) as [s1 [[]|e1]]; [|now apply Hfail].
    pose proof (read_lines_stream loads (set_reconnect_attempts 0 st) items
                  empty_frame s1) as Hst.
    destruct (read_lines loads (set_reconnect_attempts 0 st) items empty_frame s1)
      as [[st2 s2] ret]. cbn [fst] in Hst.
    assert (H2 : _max_reconnect_delay st2 = _max_reconnect_delay st)
      by (destruct Hst as [->| ->]; reflexivity).
    destruct ret; [split; [exact H2|constructor]|].
    destruct ending as [|e]; [split; [exact H2|constructor]|now apply Hfail].
Qed.

(** X10. Whatever the server and the callbacks do, and for any delays
    given to the constructor, no sleep of [_run] is longer than
    [max_reconnect_delay]. *)
Theorem sleeps_never_exceed_max st (script : list step) s :
  Forall (fun d => Qle d (_max_reconnect_delay st))
         (sleeps (snd (fst (_run loads st script s)))).
Proof.
  revert st s. induction script as [|[a|] script IH]; intros st s; cbn [_run].
  - destruct (_closed st); constructor.
  - destruct (_closed st); [constructor|].
    destruct (run_attempt_bounded st a s) as [Hm Hs].
    destruct (run_attempt loads st a s) as [[[st1 s1] acts] [e|]];
      cbn [fst snd] in *; [exact Hs|].
    specialize (IH st1 s1). rewrite Hm in IH.
    destruct (_run loads st1 script s1) as [[[st2 s2] acts'] e].
    cbn [fst snd] in *. rewrite sleeps_app. apply Forall_app. now split.
  - destruct (_closed st); [constructor|].
    unfold close. destruct (call_opt _ s) as [s' r].
    apply (IH (set_closed true st) s').
Qed.

End Loop.

(** X29. With reconnection enabled, on a connection that nobody closes,
    whose error callback returns and whose delays are not negative: while
    no more than 1024 requests have failed in a row, the sleep after the
    n-th failure is
    [min(base_delay * 2^(n-1), max_delay)] and the loop goes on; opening
    a response sets the counter to [0], so that the failures after it
    sleep the delays of attempts 1, 2, ... again, whatever the counter
    was before; the delay of attempt 1 is [base_delay] when
    [base_delay <= max_delay]. *)
Theorem backoff_delays_and_reset (loads : string -> option json)
    {S : Type} (st : @SSEStream S) (s : S) :
  _reconnect st = true -> _closed st = false -> on_error_returns st ->
  Qle 0 (_reconnect_delay st) -> Qle 0 (_max_reconnect_delay st) ->
  0 <= _reconnect_attempts st ->
  (forall fails : list attempt,
      Forall (fun a => failed_connect a = true) fails ->
      _reconnect_attempts st + Z.of_nat (length fails) <= 1024 ->
      let '(st', _, acts, fin) := _run loads st (map Attempt fails) s in
      sleeps acts =
        map (backoff (_reconnect_delay st) (_max_reconnect_delay st))
            (seqZ (_reconnect_attempts st + 1) (Z.of_nat (length fails))) /\
      _reconnect_attempts st' = _reconnect_attempts st + Z.of_nat (length fails) /\
      fin = Running) /\
  (forall (items : list read_item) (e : exn) (fails : list attempt),
      lines_only items = true ->
      Forall (fun a => failed_connect a = true) fails ->
      1 + Z.of_nat (length fails) <= 1024 ->
      let '(st', _, acts, fin) :=
        _run loads st (Attempt (Opened items (ReadError e)) :: map Attempt fails) s in
      sleeps acts =
        map (backoff (_reconnect_delay st) (_max_reconnect_delay st))
            (seqZ 1 (1 + Z.of_nat (length fails))) /\
      _reconnect_attempts st' = 1 + Z.of_nat (length fails) /\
      fin = Running) /\
  (forall items : list read_item,
      lines_only items = true ->
      snd (call_opt (_on_open st) s) = Ok tt ->
      let '(st', _, acts, fin) :=
        _run loads st [Attempt (Opened items EndOfStream)] s in
      _reconnect_attempts st' = 0 /\ sleeps acts = [] /\ fin = Running) /\
  (Qle (_reconnect_delay st) (_max_reconnect_delay st) ->
   Qeq (backoff (_reconnect_delay st) (_max_reconnect_delay st) 1)
       (_reconnect_delay st)).
Proof.
  intros Hre Hcl Herr _ _ _. split; [|split; [|split]].
  - intros fails Hf Hb.
    destruct (run_failed_connects loads st fails Hre Hcl Herr Hf
                (_reconnect_attempts st) s Hb) as (s' & acts & Hrun & Hsl).
    rewrite set_reconnect_attempts_id in Hrun. rewrite Hrun.
    repeat split; assumption.
  - intros items e fails Hl Hf Hb. cbn [_run]. rewrite Hcl.
    destruct (run_attempt_opened_then_fails loads st items e s Hre Hcl Herr Hl)
      as [s1 ->].
    destruct (run_failed_connects loads st fails Hre Hcl Herr Hf 1 s1 Hb)
      as (s' & acts & -> & Hsl).
    split; [|split; reflexivity].
    rewrite sleeps_app, Hsl. rewrite (seqZ_cons 1) by lia.
    replace (Z.pred (1 + Z.of_nat (length fails)))
      with (Z.of_nat (length fails)) by lia.
    reflexivity.
  - intros items Hl Hopen. cbn [_run]. rewrite Hcl.
    destruct (run_attempt_opened_to_end loads st items s Hcl Hl Hopen) as [s1 ->].
    cbn [_closed set_reconnect_attempts]. rewrite Hcl.
    repeat split; reflexivity.
  - intros Hle. unfold backoff.
    change (inject_Z (2 ^ (1 - 1))) with 1%Q.
    rewrite Q.min_l; [apply Qmult_1_r|].
    now rewrite Qmult_1_r.
Qed.

Lemma backoff_delays_and_reset_witness :
  let st : @SSEStream unit :=
    init "http://gateway/api/tools/stream" ∅ true
         default_reconnect_delay default_max_reconnect_delay None None None in
  let fails := [BadStatus false; ConnectError ConnectionError false;
                BadStatus false; BadStatus false; BadStatus false;
                BadStatus false; BadStatus false] in
  (_reconnect st = true /\ _closed st = false /\ on_error_returns st /\
   Qle 0 (_reconnect_delay st) /\ Qle 0 (_max_reconnect_delay st) /\
   0 <= _reconnect_attempts st /\
   Forall (fun a => failed_connect a = true) fails /\
   _reconnect_attempts st + Z.of_nat (length fails) <= 1024) /\
  let '(st', _, acts, fin) := _run JsonText.loads st (map Attempt fails) tt in
  sleeps acts =
    map (backoff (_reconnect_delay st) (_max_reconnect_delay st))
        (seqZ (_reconnect_attempts st + 1) (Z.of_nat (length fails))) /\
  _reconnect_attempts st' = _reconnect_attempts st + Z.of_nat (length fails) /\
  fin = Running.
Proof.
  intros st fails.
  assert (Hq : on_error_returns st) by (intros f Hf; discriminate Hf).
  assert (Hf : Forall (fun a => failed_connect a = true) fails)
    by (repeat constructor).
  assert (Hd : Qle 0 (_reconnect_delay st)) by discriminate.
  assert (Hm : Qle 0 (_max_reconnect_delay st)) by discriminate.
  assert (Hc : 0 <= _reconnect_attempts st) by (cbn; lia).
  assert (Hb : _reconnect_attempts st + Z.of_nat (length fails) <= 1024)
    by (cbn; lia).
  split; [repeat split; assumption|].
  exact (proj1 (backoff_delays_and_reset JsonText.loads st tt
                  eq_refl eq_refl Hq Hd Hm Hc) fails Hf Hb).
Defined.

Lemma nothing_happens_after_close_witness :
  let st : @SSEStream (list nat) :=
    on "*" (logging (1%nat, false))
       (init "http://gateway/stream" ∅ true 1 30 None None None) in
  let items1 := [Line (Some (JsonText.dq "data: {'type': 'a'}")); Line (Some "")] in
  let items2 := [Line (Some (JsonText.dq "data: {'type': 'b'}")); Line (Some "")] in
  (_closed st = false /\ lines_only items1 = true /\ lines_only items2 = true /\
   snd (call_opt (_on_open st) []) = Ok tt) /\
  _run JsonText.loads st
    [Attempt (Opened (items1 ++ CloseCalled :: items2) (ReadError ConnectionError));
     Attempt (Opened items2 EndOfStream)] [] =
  (set_closed true (set_reconnect_attempts 0 st), [1%nat], [Connect], Returned).
Proof.
  intros st items1 items2. split; [repeat split|].
  exact (nothing_happens_after_close JsonText.loads st items1 items2
           (ReadError ConnectionError) [Attempt (Opened items2 EndOfStream)] []
           eq_refl eq_refl eq_refl eq_refl).
Defined.

Lemma clean_end_reconnects_at_once_witness :
  let st : @SSEStream unit :=
    init "http://gateway/api/runs/r1/stream" ∅ false 1 30 None None None in
  let responses := [[Line (Some ": bye")]; []; [Line None]] in
  (_reconnect st = false /\ _closed st = false /\
   (forall s, snd (call_opt (_on_open st) s) = Ok tt) /\
   Forall (fun items => lines_only items = true) responses) /\
  let '(_, _, acts, fin) :=
    _run JsonText.loads st
      (map (fun items => Attempt (Opened items EndOfStream)) responses) tt in
  acts = repeat Connect (length responses) /\ sleeps acts = [] /\ fin = Running.
Proof.
  intros st responses.
  assert (Hl : Forall (fun items => lines_only items = true) responses)
    by (repeat constructor).
  split; [repeat split; assumption|].
  exact (clean_end_reconnects_at_once JsonText.loads st responses tt eq_refl
           (fun _ => eq_refl) Hl).
Defined.

Lemma on_open_exception_is_a_failure_witness :
  let f : list nat -> list nat * result unit :=
    fun log => ((log ++ [0%nat])%list, Raise (UserError "on_open")) in
  let g : exn -> list nat -> list nat * result unit :=
    fun _ log => ((log ++ [9%nat])%list, Ok tt) in
  let st : @SSEStream (list nat) :=
    on "*" (logging (1%nat, false))
       (init "http://gateway/stream" ∅ true 1 30 (Some f) (Some g) None) in
  (_closed st = false /\ _reconnect st = true /\ on_error_returns st /\
   _on_open st = Some f /\ f [] = ([0%nat], Raise (UserError "on_open"))) /\
  run_attempt JsonText.loads st
    (Opened [Line (Some (JsonText.dq "data: {'type': 'a'}")); Line (Some "")]
            EndOfStream) [] =
  (set_reconnect_attempts 1 st, [0; 9]%nat,
   [Connect; Sleep (backoff (_reconnect_delay st) (_max_reconnect_delay st) 1)],
   None).
Proof.
  intros f g st.
  assert (Herr : on_error_returns st).
  { intros g' [= <-] e s. reflexivity. }
  split; [repeat split; assumption|].
  exact (on_open_exception_is_a_failure JsonText.loads st f _ EndOfStream []
           [0%nat] (UserError "on_open") eq_refl eq_refl Herr eq_refl eq_refl).
Defined.

Lemma on_error_exception_ends_the_loop_witness :
  let g : exn -> list nat -> list nat * result unit :=
    fun _ log => ((log ++ [9%nat])%list, Raise (UserError "on_error")) in
  let st : @SSEStream (list nat) :=
    init "http://gateway/stream" ∅ true 1 30 None (Some g) None in
  (_closed st = false /\ _on_error st = Some g /\
   failed_connect (BadStatus false) = true /\
   (forall exc, g exc [] = ([9%nat], Raise (UserError "on_error")))) /\
  _run JsonText.loads st [Attempt (BadStatus false); Attempt (BadStatus false)] [] =
  (st, [9%nat], [Connect], Crashed (UserError "on_error")).
Proof.
  intros g st. split; [repeat split|].
  exact (on_error_exception_ends_the_loop JsonText.loads st g (BadStatus false)
           [Attempt (BadStatus false)] [] [9%nat] (UserError "on_error")
           eq_refl eq_refl eq_refl (fun _ => eq_refl)).
Defined.

End SSEExtra.

(** * Properties of [off] *)

Module RegistryExtra.

Import SSE Registry Statements MoreStatements SSEProps.

Section Off.

Context {S : Type}.
Variable same : listener S -> listener S -> bool.
Implicit Types (hs : gmap string (list (listener S))) (h : listener S).

Lemma list_remove_first h (l1 l2 : list (listener S)) :
  same h h = true -> Forall (fun x => same x h = false) l1 ->
  list_remove same h (l1 ++ h :: l2) = Some (l1 ++ l2)%list.
Proof.
  intros Hh. induction 1 as [|x l1 Hx _ IH]; simpl.
  - now rewrite Hh.
  - now rewrite Hx, IH.
Qed.

Lemma list_remove_absent h (l : list (listener S)) :
  Forall (fun x => same x h = false) l -> list_remove same h l = None.
Proof.
  induction 1 as [|x l Hx _ IH]; simpl; [reflexivity|]. now rewrite Hx, IH.
Qed.

(** What [off] does to a registry that holds the listener. *)
Lemma handlers_off_first hs (t : string) h
    (l1 l2 : list (listener S)) :
  same h h = true -> Forall (fun x => same x h = false) l1 ->
  hs !! t = Some (l1 ++ h :: l2)%list ->
  default [] (handlers_off same t h hs !! t) = (l1 ++ l2)%list /\
  forall t', t' <> t -> handlers_off same t h hs !! t' = hs !! t'.
Proof.
  intros Hh Hl Ht. unfold handlers_off. rewrite Ht.
  rewrite (list_remove_first h l1 l2 Hh Hl). split.
  - now rewrite lookup_insert_eq.
  - intros t' Hne. now rewrite lookup_insert_ne.
Qed.

(** X11. [off(t, h)] removes the first registration of [h] under [t] and
    nothing else: the other listeners of [t] keep their order, a second
    registration of [h] stays, and the listeners of every other type are
    untouched. *)
Theorem off_removes_first_registration hs (t : string) h
    (l1 l2 : list (listener S)) :
  same h h = true -> Forall (fun x => same x h = false) l1 ->
  hs !! t = Some (l1 ++ h :: l2)%list ->
  default [] (handlers_off same t h hs !! t) = (l1 ++ l2)%list /\
  forall t', t' <> t -> handlers_off same t h hs !! t' = hs !! t'.
Proof. exact (handlers_off_first hs t h l1 l2). Qed.

(** X12. [off(t, h)] changes nothing when nothing is registered under [t]
    or when [h] is not among the listeners of [t]: the [ValueError] of
    [list.remove] is discarded. *)
Theorem off_without_registration hs (t : string) h :
  Forall (fun x => same x h = false) (default [] (hs !! t)) ->
  handlers_off same t h hs = hs.
Proof.
  intros Hl. unfold handlers_off. destruct (hs !! t) as [l|]; [|reflexivity].
  simpl in Hl. now rewrite (list_remove_absent h l Hl).
Qed.

(** X13. [on(t, h)] followed by [off(t, h)], for a listener [h] that was
    not registered under [t] before, leaves every type with the listeners
    it had. *)
Theorem on_then_off hs (t : string) h :
  same h h = true ->
  Forall (fun x => same x h = false) (default [] (hs !! t)) ->
  forall t', default [] (handlers_off same t h (handlers_on t h hs) !! t') =
             default [] (hs !! t').
Proof.
  intros Hh Hl t'.
  assert (Ht : handlers_on t h hs !! t = Some (default [] (hs !! t) ++ h :: [])%list)
    by (unfold handlers_on; now rewrite lookup_insert_eq).
  destruct (handlers_off_first (handlers_on t h hs) t h _ []
              Hh Hl Ht) as [H1 H2].
  destruct (String.eqb_spec t' t) as [->|Hne].
  - rewrite H1. apply app_nil_r.
  - rewrite (H2 t' Hne). unfold handlers_on. rewrite lookup_insert_ne by congruence.
    reflexivity.
Qed.

End Off.

Lemma off_removes_first_registration_witness :
  let h := logging (1%nat, false) in
  let l1 := [logging (2%nat, true)] in
  let l2 := [logging (1%nat, false); logging (3%nat, false)] in
  let hs : gmap string (list (listener (list nat))) :=
    {["a" := (l1 ++ h :: l2)%list; "*" := [h]]} in
  (same_log h h = true /\ Forall (fun x => same_log x h = false) l1 /\
   hs !! "a" = Some (l1 ++ h :: l2)%list) /\
  default [] (handlers_off same_log "a" h hs !! "a") = (l1 ++ l2)%list /\
  (forall t', t' <> "a" -> handlers_off same_log "a" h hs !! t' = hs !! t').
Proof.
  intros h l1 l2 hs.
  assert (H1 : same_log h h = true) by reflexivity.
  assert (H2 : Forall (fun x => same_log x h = false) l1)
    by (repeat constructor).
  assert (H3 : hs !! "a" = Some (l1 ++ h :: l2)%list) by reflexivity.
  split; [repeat split; assumption|].
  exact (off_removes_first_registration same_log hs "a" h l1 l2 H1 H2 H3).
Defined.

Lemma off_without_registration_witness :
  let h := logging (1%nat, false) in
  let hs : gmap string (list (listener (list nat))) :=
    {["a" := [logging (2%nat, true)]]} in
  (Forall (fun x => same_log x h = false) (default [] (hs !! "a")) /\
   handlers_off same_log "a" h hs = hs) /\
  (Forall (fun x => same_log x h = false) (default [] (hs !! "b")) /\
   handlers_off same_log "b" h hs = hs).
Proof.
  intros h hs.
  assert (Ha : Forall (fun x => same_log x h = false) (default [] (hs !! "a")))
    by (repeat constructor).
  assert (Hb : Forall (fun x => same_log x h = false) (default [] (hs !! "b")))
    by constructor.
  split; (split; [assumption|]).
  - exact (off_without_registration same_log hs "a" h Ha).
  - exact (off_without_registration same_log hs "b" h Hb).
Defined.

Lemma on_then_off_witness :
  let h := logging (1%nat, false) in
  let hs : gmap string (list (listener (list nat))) :=
    {["a" := [logging (2%nat, true)]]} in
  (same_log h h = true /\
   Forall (fun x => same_log x h = false) (default [] (hs !! "a"))) /\
  forall t', default [] (handlers_off same_log "a" h (handlers_on "a" h hs) !! t') =
             default [] (hs !! t').
Proof.
  intros h hs.
  assert (Ha : Forall (fun x => same_log x h = false) (default [] (hs !! "a")))
    by (repeat constructor).
  split; [split; [reflexivity|assumption]|].
  exact (on_then_off same_log hs "a" h eq_refl Ha).
Defined.

End RegistryExtra.

(** * Properties of the HTTP client *)

Module HttpExtra.

Import Http Messages HttpMore Statements MoreStatements.

(** X14. The authentication headers: a secret key, when given and not
    empty, is sent alone; otherwise a public key, when given and not
    empty, is sent, together with the JWT as a bearer token when there is
    one; a JWT without a public key is not sent. The two keys are never
    sent together. *)
Theorem auth_headers_by_precedence (sk pk tok : option string) :
  let h := build_auth_headers sk pk tok in
  h !! "x-secret-key" = (if opt_truthy sk then sk else None) /\
  h !! "x-public-key" =
    (if opt_truthy sk then None else if opt_truthy pk then pk else None) /\
  h !! "Authorization" =
    (if negb (opt_truthy sk) && opt_truthy pk && opt_truthy tok
     then Some ("Bearer " ++ default "" tok) else None) /\
  (opt_truthy sk = false -> opt_truthy pk = false -> h = ∅) /\
  ~ (is_Some (h !! "x-secret-key") /\ is_Some (h !! "x-public-key")).
Proof.
  assert (Hsome : forall o, opt_truthy o = true -> Some (default "" o) = o).
  { intros [x|]; [reflexivity|discriminate]. }
  unfold build_auth_headers. cbv zeta.
  destruct (opt_truthy sk) eqn:Es; [|destruct (opt_truthy pk) eqn:Ep;
                                      [destruct (opt_truthy tok) eqn:Et|]]; simpl.
  - rewrite lookup_singleton_eq, !lookup_singleton_ne by discriminate.
    rewrite (Hsome sk Es). repeat split; try discriminate.
    intros [_ [x Hx]]. discriminate.
  - rewrite !lookup_insert_ne, lookup_insert_eq by discriminate.
    rewrite lookup_singleton_eq, !lookup_singleton_ne by discriminate.
    rewrite (Hsome pk Ep). repeat split; try discriminate.
    intros [[x Hx] _]. discriminate.
  - rewrite lookup_singleton_eq, !lookup_singleton_ne by discriminate.
    rewrite (Hsome pk Ep). repeat split; try discriminate.
    intros [[x Hx] _]. discriminate.
  - rewrite !lookup_empty. repeat split.
    intros [[x Hx] _]. discriminate.
Qed.

Lemma rstrip_slashes_spec (s : string) :
  ends_with_slash (rstrip_slashes s) = false /\
  exists n, s = rstrip_slashes s ++ slashes n.
Proof.
  induction s as [|c s [IH1 [n IH2]]]; simpl.
  - split; [reflexivity|]. now exists 0%nat.
  - destruct (Ascii.eqb_spec c "/") as [->|Hc]; simpl.
    + destruct (String.eqb_spec (rstrip_slashes s) "") as [E|NE].
      * split; [reflexivity|]. exists (Datatypes.S n). simpl.
        rewrite E in IH2. simpl in IH2. now rewrite <- IH2.
      * split.
        -- destruct (rstrip_slashes s); [contradiction|exact IH1].
        -- exists n. simpl. now rewrite <- IH2.
    + split.
      * destruct (rstrip_slashes s) as [|c' r] eqn:E; [|exact IH1].
        simpl. destruct (Ascii.eqb_spec c "/"); [contradiction|reflexivity].
      * exists n. simpl. now rewrite <- IH2.
Qed.

(** X15. The base URL of a client is its gateway URL without the slashes
    at its end, all of them: it does not end with a slash, and the
    gateway URL is the base URL followed by slashes only. *)
Theorem base_url_has_no_trailing_slash (gateway_url : string)
    (sk pk tok : option string) :
  let http := new_client gateway_url sk pk tok in
  ends_with_slash (base_url http) = false /\
  (exists n, gateway_url = base_url http ++ slashes n) /\
  forall path, build_url http path = rstrip_slashes gateway_url ++ path.
Proof.
  destruct (rstrip_slashes_spec gateway_url) as [H1 H2].
  repeat split; assumption.
Qed.

Section Urls.

Variable urlencode : list (string * string) -> string.
Variable py_repr : json -> string.

Lemma filter_params_all_none (ps : list (string * json)) :
  Forall (fun kv => is_none (snd kv) = true) ps ->
  filter_params py_repr ps = [].
Proof.
  induction 1 as [|[k v] ps Hv _ IH]; simpl; [reflexivity|].
  destruct v; try discriminate. exact IH.
Qed.

(** X16. Query parameters that are [None] are left out, and when all of
    them are, no ["?"] is appended: the URL is that of the path alone. So
    [MessagesResource.list] with none of its optional arguments requests
    [/api/smart-spaces/{space_id}/messages]. *)
Theorem none_params_give_plain_url (http : HttpClient) (path : string)
    (ps : list (string * json)) :
  Forall (fun kv => is_none (snd kv) = true) ps ->
  build_url_params urlencode py_repr http path (Some ps) = build_url http path.
Proof.
  intros H. unfold build_url_params, build_url.
  destruct ps as [|p ps]; [reflexivity|].
  now rewrite (filter_params_all_none (p :: ps) H).
Qed.

Lemma filter_params_keeps (ps : list (string * json)) (k : string) (v : json) :
  In (k, v) ps -> is_none v = false ->
  In (k, py_str py_repr v) (filter_params py_repr ps).
Proof.
  intros Hin Hv. induction ps as [|[k' v'] ps IH]; simpl in *; [contradiction|].
  destruct Hin as [[= -> ->]|Hin].
  - destruct v; try discriminate; now left.
  - specialize (IH Hin). destruct v'; try right; exact IH.
Qed.

(** X17. A query parameter that is not [None] is sent, as the text of its
    value, also when the value is falsy ([0], [False], an empty string):
    the filter is [is not None]. The query string is then [urlencode] of
    the parameters that are left, after a ["?"]. *)
Theorem given_param_is_sent (http : HttpClient) (path : string)
    (ps : list (string * json)) (k : string) (v : json) :
  In (k, v) ps -> is_none v = false ->
  In (k, py_str py_repr v) (filter_params py_repr ps) /\
  build_url_params urlencode py_repr http path (Some ps) =
  build_url http path ++ "?" ++ urlencode (filter_params py_repr ps).
Proof.
  intros Hin Hv. pose proof (filter_params_keeps ps k v Hin Hv) as Hk.
  split; [exact Hk|]. unfold build_url_params, build_url.
  destruct ps as [|p ps]; [contradiction|].
  destruct (filter_params py_repr (p :: ps)); [contradiction|reflexivity].
Qed.

(** A response that is not ok never gives data: [_request] raises an
    [HsafaApiError] with the status of the response; its body is the
    decoded body, or the text of the response when that is not JSON; its
    message is the text of the body's ["error"] entry when the body is an
    object that has one, and ["HTTP <status>"] otherwise. Data is
    returned only for an ok response whose body is JSON. *)
Lemma failed_response_raises_api_error (r : response) :
  (ok r = false ->
   exists err,
     request_outcome py_repr r = inr (inl err) /\
     err_status err = status_code r /\
     err_body err = match json_body r with
                    | Ok body => body
                    | Raise _ => JStr (text r)
                    end /\
     err_message err =
       match err_body err with
       | JObj fields =>
           match dict_get "error" fields with
           | Some v => py_str py_repr v
           | None => "HTTP " ++ py_repr (JInt (status_code r))
           end
       | _ => "HTTP " ++ py_repr (JInt (status_code r))
       end) /\
  (forall body, request_outcome py_repr r = inl body ->
                ok r = true /\ json_body r = Ok body).
Proof.
  unfold request_outcome. split.
  - intros ->. simpl. eexists. repeat split.
  - intros body. destruct (ok r); simpl; [|discriminate].
    destruct (json_body r); [|discriminate]. now intros [= ->].
Qed.

End Urls.

Lemma none_params_give_plain_url_witness :
  Forall (fun kv => is_none (snd kv) = true)
         [("afterSeq", JNull); ("beforeSeq", JNull); ("limit", JNull)] /\
  list_url plain_urlencode show example_http "s1" JNull JNull JNull =
  build_url example_http "/api/smart-spaces/s1/messages".
Proof.
  assert (H : Forall (fun kv => is_none (snd kv) = true)
                [("afterSeq", JNull); ("beforeSeq", JNull); ("limit", JNull)])
    by (repeat constructor).
  split; [exact H|].
  exact (none_params_give_plain_url plain_urlencode show example_http
           "/api/smart-spaces/s1/messages" _ H).
Defined.

Lemma given_param_is_sent_witness :
  let ps := [("afterSeq", JNull); ("beforeSeq", JStr ""); ("limit", JInt 0)] in
  (In ("limit", JInt 0) ps /\ is_none (JInt 0) = false) /\
  In ("limit", py_str show (JInt 0)) (filter_params show ps) /\
  build_url_params plain_urlencode show example_http
    "/api/smart-spaces/s1/messages" (Some ps) =
  build_url example_http "/api/smart-spaces/s1/messages" ++ "?" ++
  plain_urlencode (filter_params show ps).
Proof.
  intros ps.
  assert (Hin : In ("limit", JInt 0) ps) by (simpl; tauto).
  split; [split; [exact Hin|reflexivity]|].
  exact (given_param_is_sent plain_urlencode show example_http
           "/api/smart-spaces/s1/messages" ps "limit" (JInt 0) Hin eq_refl).
Defined.

(** The URLs of the two theorems above, written out. *)
Example list_urls :
  list_url plain_urlencode show example_http "s1" JNull JNull JNull =
    "http://localhost:3001/api/smart-spaces/s1/messages" /\
  list_url plain_urlencode show example_http "s1" JNull (JStr "") (JInt 0) =
    "http://localhost:3001/api/smart-spaces/s1/messages?beforeSeq=&limit=0" /\
  space_subscribe_url plain_urlencode show example_http "s1" (JInt 0) (JStr "") =
    "http://localhost:3001/api/smart-spaces/s1/stream?afterSeq=0" /\
  base_url (new_client "http://localhost:3001//" None None None) =
    "http://localhost:3001".
Proof. vm_compute. repeat split. Qed.

End HttpExtra.

(** * Further properties of the correlated wait *)

Module MessagesExtra.

Import SSE Http Messages MessagesMore Statements MoreStatements SSEProps
       MessagesProps.

(** The body that [send] posts has ["content"] and, of the optional
    arguments, exactly those that are not [None], also when they are an
    empty string or [False]; [send_and_wait] sends neither ["role"] nor
    ["triggerAgents"]. *)
Lemma send_body_has_given_fields (content : string)
    (entity_id : option string) (metadata : option json)
    (role : option string) (trigger_agents : option bool) :
  exists fields,
    send_body content entity_id metadata role trigger_agents = JObj fields /\
    dict_get "content" fields = Some (JStr content) /\
    dict_get "entityId" fields = JStr <$> entity_id /\
    dict_get "metadata" fields = metadata /\
    dict_get "role" fields = JStr <$> role /\
    dict_get "triggerAgents" fields = JBool <$> trigger_agents /\
    (forall post py_repr format_float http space_id timeout ds,
        send_and_wait_call post py_repr format_float http space_id content
          entity_id metadata timeout ds =
        send_and_wait py_repr format_float http space_id
          (post ("/api/smart-spaces/" ++ space_id ++ "/messages")
                (send_body content entity_id metadata None None))
          timeout ds).
Proof.
  eexists. split; [reflexivity|].
  destruct entity_id, metadata, role, trigger_agents; repeat split.
Qed.

Section Wait.

Variable py_repr : json -> string.
Variable format_float : Q -> string.
Variable http : HttpClient.
Variable space_id : string.
Variable run_id : json.

Abbreviation sp := (space_stream py_repr http space_id run_id).
Abbreviation rn := (run_stream py_repr http run_id).

(** ** The text *)

#[local] Instance text_grows_refl : Reflexive text_grows.
Proof. intros w. exists []. split; [now rewrite app_nil_r|constructor]. Qed.

#[local] Instance text_grows_trans : Transitive text_grows.
Proof.
  intros w1 w2 w3 (m1 & H1 & F1) (m2 & H2 & F2). exists (m1 ++ m2)%list.
  split; [now rewrite H2, H1, app_assoc|]. apply Forall_app. now split.
Qed.

Lemma settlement_handlers_keep_text (h : listener wait_state) (ev : event)
    (w : wait_state) :
  In h [on_agent_inactive run_id; on_error_event py_repr; on_run_completed;
        on_run_failed py_repr] ->
  text_parts (fst (h ev w)) = text_parts w /\
  tool_calls (fst (h ev w)) = tool_calls w.
Proof.
  assert (Hfin : text_parts (finish w) = text_parts w /\
                 tool_calls (finish w) = tool_calls w).
  { unfold finish. destruct (_settled w); split; reflexivity. }
  simpl. intros [<-|[<-|[<-|[<-|[]]]]].
  - unfold on_agent_inactive. destruct (event_rid ev); [|split; reflexivity].
    simpl. destruct (py_eq _ _); [exact Hfin|split; reflexivity].
  - unfold on_error_event. destruct (_settled w); [split; reflexivity|].
    destruct (get_default _ _ _); split; reflexivity.
  - exact Hfin.
  - unfold on_run_failed. destruct (_settled w); [split; reflexivity|].
    destruct (get_default _ _ _); split; reflexivity.
Qed.

Lemma tool_handlers_keep_text (ev : event) (w : wait_state) :
  text_parts (fst (on_tool_started py_repr ev w)) = text_parts w /\
  text_parts (fst (on_tool_done py_repr ev w)) = text_parts w.
Proof.
  unfold on_tool_started, on_tool_done. split.
  - now destruct (_ ≫= _) as [[[call_id name]|]|e].
  - now destruct (_ ≫= _) as [[[call_id call]|]|e].
Qed.

Lemma on_space_message_grows (ev : event) (w : wait_state) :
  text_grows w (fst (on_space_message ev w)).
Proof.
  unfold on_space_message.
  destruct (_ ≫= _) as [[c|]|e]; simpl; try reflexivity.
  destruct (truthy c) eqn:E; [|reflexivity].
  exists [c]. split; [reflexivity|]. now repeat constructor.
Qed.

Lemma handlers_grow_text (h : listener wait_state) :
  In h [on_space_message; on_agent_inactive run_id;
        on_error_event py_repr; on_tool_started py_repr;
        on_tool_done py_repr; on_run_completed; on_run_failed py_repr] ->
  forall ev w, text_grows w (fst (h ev w)).
Proof.
  assert (Heq : forall w w', text_parts w' = text_parts w -> text_grows w w').
  { intros w w' E. exists []. split; [now rewrite app_nil_r|constructor]. }
  intros Hin ev w. simpl in Hin.
  destruct Hin as [<-|[<-|[<-|[<-|[<-|[<-|[<-|[]]]]]]]].
  - apply on_space_message_grows.
  - apply Heq, (settlement_handlers_keep_text (on_agent_inactive run_id)). simpl; tauto.
  - apply Heq, (settlement_handlers_keep_text (on_error_event py_repr)). simpl; tauto.
  - apply Heq, tool_handlers_keep_text.
  - apply Heq, tool_handlers_keep_text.
  - apply Heq, (settlement_handlers_keep_text on_run_completed). simpl; tauto.
  - apply Heq, (settlement_handlers_keep_text (on_run_failed py_repr)). simpl; tauto.
Qed.

(** X18. Over any deliveries [text_parts] only grows, at its end and by
    truthy values; and only a ["space.message"] event of the space
    connection changes it: events of the run connection and events of
    other types leave it as it is. *)
Theorem text_parts_only_grow :
  (forall (ds : list (feed * event)) (w : wait_state),
      text_grows w (deliver_all sp rn ds w)) /\
  (forall (d : feed * event) (w : wait_state),
      fst d = RunFeed \/ ev_type (snd d) <> JStr "space.message" ->
      text_parts (deliver sp rn d w) = text_parts w).
Proof.
  split.
  - intros ds w.
    apply (deliver_all_respects py_repr http space_id run_id text_grows ds
             handlers_grow_text).
  - intros [f ev] w H. cbn [fst snd] in H.
    assert (Hall : forall l,
               Forall (fun h => forall w, text_parts (fst (h ev w)) = text_parts w) l ->
               forall w, text_parts (call_all l ev w) = text_parts w).
    { induction 1 as [|h l Hh _ IH]; intros w0; simpl; [reflexivity|].
      now rewrite IH, Hh. }
    assert (Hs : forall h, In h [on_agent_inactive run_id; on_error_event py_repr;
                                 on_run_completed; on_run_failed py_repr] ->
                           forall w, text_parts (fst (h ev w)) = text_parts w).
    { intros h Hin w0. now apply settlement_handlers_keep_text. }
    destruct f; unfold deliver; cbn [fst snd]; unfold _emit, handlers_get;
      (destruct (hashable (ev_type ev)); [|reflexivity]); cbn [fst].
    + rewrite (space_stream_lookup py_repr http space_id run_id "*").
      cbn [String.eqb Ascii.eqb Bool.eqb call_all].
      apply Hall.
      destruct (ev_type ev) as [| | | |t| |]; try constructor.
      rewrite space_stream_lookup.
      destruct (String.eqb "error" t);
        [repeat constructor; apply Hs; simpl; tauto|].
      destruct (String.eqb "agent.inactive" t);
        [repeat constructor; apply Hs; simpl; tauto|].
      destruct (String.eqb_spec "space.message" t) as [<-|_]; [|constructor].
      destruct H as [H|H]; [discriminate|congruence].
    + rewrite (run_stream_lookup py_repr http run_id "*").
      cbn [String.eqb Ascii.eqb Bool.eqb call_all].
      apply Hall.
      destruct (ev_type ev) as [| | | |t| |]; try constructor.
      rewrite run_stream_lookup.
      repeat (destruct (String.eqb _ t);
              [repeat constructor; intros w0;
               (apply Hs; simpl; tauto) || apply tool_handlers_keep_text|]).
      constructor.
Qed.

Lemma as_strs_not_str (parts : list json) :
  Exists (fun c => not_str c = true) parts -> as_strs parts = Raise TypeError.
Proof.
  induction 1 as [c parts Hc|c parts _ IH]; simpl.
  - destruct c; try discriminate; reflexivity.
  - destruct c; try reflexivity. now rewrite IH.
Qed.

(** X19. When a collected message content is not a string (a list of
    parts, a number, an object), a wait that is settled without error does
    not return: joining the text raises [TypeError]. *)
Theorem non_text_content_raises_type_error (send_result : result json)
    (timeout : Q) (ds : list (feed * event)) :
  run_id_of send_result = Ok (Some run_id) ->
  let w := deliver_all sp rn ds initial_wait in
  done_event w = true -> error_holder w = None ->
  Exists (fun c => not_str c = true) (text_parts w) ->
  fst (send_and_wait py_repr format_float http space_id send_result timeout ds) =
  Raise TypeError.
Proof.
  intros Hrun w Hd He Hex.
  rewrite (send_and_wait_awaits py_repr format_float http space_id run_id
             send_result timeout ds Hrun).
  cbn [fst]. fold w. unfold conclude. rewrite Hd, He. cbn [negb].
  unfold join_values. now rewrite (as_strs_not_str _ Hex).
Qed.

(** ** The tool calls *)

Lemma dict_get_set_eq (k : string) (v : json) (l : list (string * json)) :
  dict_get k (dict_set k v l) = Some v.
Proof.
  induction l as [|[k' v'] l IH]; simpl.
  - now rewrite String.eqb_refl.
  - destruct (String.eqb k k') eqn:E; simpl; rewrite ?String.eqb_refl, ?E; auto.
Qed.

Lemma dict_get_set_ne (k k' : string) (v : json) (l : list (string * json)) :
  k <> k' -> dict_get k' (dict_set k v l) = dict_get k' l.
Proof.
  intros Hne. induction l as [|[k0 v0] l IH]; simpl.
  - destruct (String.eqb_spec k' k); [congruence|reflexivity].
  - destruct (String.eqb_spec k k0) as [->|Hk]; simpl.
    + destruct (String.eqb_spec k' k0); [congruence|reflexivity].
    + now rewrite IH.
Qed.

Lemma dict_get_none_keys (k : string) (l : list (string * json)) :
  dict_get k l = None -> ~ In k (map fst l).
Proof.
  induction l as [|[k' v'] l IH]; simpl; [tauto|].
  destruct (String.eqb_spec k k'); [discriminate|].
  intros H [E|Hin]; [congruence|]. now apply IH.
Qed.

Lemma dict_get_some_in (k : string) (v : json) (l : list (string * json)) :
  dict_get k l = Some v -> In (k, v) l.
Proof.
  induction l as [|[k' v'] l IH]; simpl; [discriminate|].
  destruct (String.eqb_spec k k') as [->|Hne].
  - intros [= ->]. now left.
  - intros H. right. now apply IH.
Qed.

Lemma dict_set_keys (k : string) (v : json) (l : list (string * json)) :
  map fst (dict_set k v l) =
  match dict_get k l with
  | Some _ => map fst l
  | None => (map fst l ++ [k])%list
  end.
Proof.
  induction l as [|[k' v'] l IH]; simpl; [reflexivity|].
  destruct (String.eqb_spec k k') as [->|Hne]; simpl; [reflexivity|].
  rewrite IH. now destruct (dict_get k l).
Qed.

Lemma dict_set_Forall (P : string * json -> Prop) (k : string) (v : json)
    (l : list (string * json)) :
  Forall P l -> P (k, v) -> Forall P (dict_set k v l).
Proof.
  intros Hl Hv. induction Hl as [|[k' v'] l Hx Hl IH]; simpl.
  - now repeat constructor.
  - destruct (String.eqb k k'); constructor; assumption.
Qed.

Lemma dict_set_well_keyed (w : wait_state) (k : string) (fields : list (string * json)) :
  dict_get "id" fields = Some (JStr k) ->
  well_keyed w ->
  well_keyed (set_tool_calls (dict_set k (JObj fields) (tool_calls w)) w).
Proof.
  intros Hid [Hnd Hall]. unfold well_keyed, call_ids. cbn [tool_calls set_tool_calls].
  split.
  - rewrite dict_set_keys. destruct (dict_get k (tool_calls w)) eqn:E; [exact Hnd|].
    apply NoDup_app. repeat split; [exact Hnd| |apply NoDup_singleton].
    intros x Hx [->|[]]%list_elem_of_In. apply (dict_get_none_keys _ _ E).
    now apply list_elem_of_In.
  - apply dict_set_Forall; [exact Hall|]. now exists fields.
Qed.

#[local] Instance keeps_well_keyed_refl : Reflexive keeps_well_keyed.
Proof. now intros w. Qed.

#[local] Instance keeps_well_keyed_trans : Transitive keeps_well_keyed.
Proof. intros w1 w2 w3 H12 H23 H. auto. Qed.

Lemma on_tool_started_well_keyed (ev : event) (w : wait_state) :
  keeps_well_keyed w (fst (on_tool_started py_repr ev w)).
Proof.
  unfold on_tool_started.
  destruct (_ ≫= _) as [[[call_id name]|]|e]; simpl; try (now intros ?).
  intros Hw. now apply dict_set_well_keyed.
Qed.

Lemma on_tool_done_well_keyed (ev : event) (w : wait_state) :
  keeps_well_keyed w (fst (on_tool_done py_repr ev w)) /\
  call_ids (fst (on_tool_done py_repr ev w)) = call_ids w.
Proof.
  unfold on_tool_done.
  destruct (call_id_of py_repr (data_or_empty ev)) as [call_id|e]; simpl;
    [|split; [now intros ?|reflexivity]].
  destruct (dict_get call_id (tool_calls w)) as [call|] eqn:E; simpl;
    [|split; [now intros ?|reflexivity]].
  destruct (get (data_or_empty ev) "input") as [input|e]; simpl;
    [|split; [now intros ?|reflexivity]].
  destruct (get (data_or_empty ev) "result") as [res|e]; simpl;
    [|split; [now intros ?|reflexivity]].
  destruct (get (data_or_empty ev) "output") as [out|e]; simpl;
    [|split; [now intros ?|reflexivity]].
  split.
  - intros Hw. pose proof Hw as [_ Hall].
    apply dict_get_some_in in E as Hin.
    rewrite Forall_forall in Hall.
    destruct (Hall _ (proj2 (list_elem_of_In _ _) Hin)) as (fields & Hc & Hid).
    cbn [fst snd] in Hc, Hid. subst call. cbn [fill_call].
    apply dict_set_well_keyed; [|exact Hw].
    rewrite !dict_get_set_ne by discriminate. exact Hid.
  - unfold call_ids. cbn [tool_calls set_tool_calls].
    rewrite dict_set_keys. now rewrite E.
Qed.

Lemma handlers_keep_well_keyed (h : listener wait_state) :
  In h [on_space_message; on_agent_inactive run_id;
        on_error_event py_repr; on_tool_started py_repr;
        on_tool_done py_repr; on_run_completed; on_run_failed py_repr] ->
  forall ev w, keeps_well_keyed w (fst (h ev w)).
Proof.
  assert (Heq : forall w w', tool_calls w' = tool_calls w -> keeps_well_keyed w w').
  { intros w w' E. unfold keeps_well_keyed, well_keyed, call_ids. now rewrite E. }
  intros Hin ev w. simpl in Hin.
  destruct Hin as [<-|[<-|[<-|[<-|[<-|[<-|[<-|[]]]]]]]].
  - apply Heq. unfold on_space_message.
    destruct (_ ≫= _) as [[c|]|e]; simpl; try reflexivity. now destruct (truthy c).
  - apply Heq, (settlement_handlers_keep_text (on_agent_inactive run_id)). simpl; tauto.
  - apply Heq, (settlement_handlers_keep_text (on_error_event py_repr)). simpl; tauto.
  - apply on_tool_started_well_keyed.
  - apply on_tool_done_well_keyed.
  - apply Heq, (settlement_handlers_keep_text on_run_completed). simpl; tauto.
  - apply Heq, (settlement_handlers_keep_text (on_run_failed py_repr)). simpl; tauto.
Qed.

(** X20. Whatever is delivered, the tool-call records of a wait have
    distinct ids, and each is an object stored under its own ["id"]; a
    ["tool.done"] event fills a record that exists and never adds one. *)
Theorem tool_calls_are_well_keyed :
  (forall ds : list (feed * event),
      well_keyed (deliver_all sp rn ds initial_wait)) /\
  (forall (ev : event) (w : wait_state),
      call_ids (fst (on_tool_done py_repr ev w)) = call_ids w).
Proof.
  split.
  - intros ds.
    apply (deliver_all_respects py_repr http space_id run_id keeps_well_keyed ds
             handlers_keep_well_keyed).
    split; constructor.
  - intros ev w. apply on_tool_done_well_keyed.
Qed.

Lemma deliver_run_feed (t : string) (ev : event) (w : wait_state) :
  ev_type ev = JStr t ->
  deliver sp rn (RunFeed, ev) w =
  call_all (default [] (_handlers rn !! t)) ev w.
Proof.
  intros Ht. unfold deliver. cbn [fst snd]. rewrite Ht.
  unfold _emit, handlers_get. cbn [hashable fst].
  now rewrite (run_stream_lookup py_repr http run_id "*").
Qed.

Lemma deliver_space_feed (t : string) (ev : event) (w : wait_state) :
  ev_type ev = JStr t ->
  deliver sp rn (SpaceFeed, ev) w =
  call_all (default [] (_handlers sp !! t)) ev w.
Proof.
  intros Ht. unfold deliver. cbn [fst snd]. rewrite Ht.
  unfold _emit, handlers_get. cbn [hashable fst].
  now rewrite (space_stream_lookup py_repr http space_id run_id "*").
Qed.

(** X21. A ["tool.started"] event and then a ["tool.done"] event with the
    same [streamId] leave, under that id, the record with the name of the
    first event and the input and output of the second, the output being
    its ["result"] when that is truthy and its ["output"] otherwise. *)
Theorem tool_started_then_done (started finished : event)
    (d1 d2 : list (string * json)) (sid : string) (w : wait_state) :
  ev_type started = JStr "tool.started" -> data_or_empty started = JObj d1 ->
  dict_get "streamId" d1 = Some (JStr sid) -> sid <> "" ->
  ev_type finished = JStr "tool.done" -> data_or_empty finished = JObj d2 ->
  dict_get "streamId" d2 = Some (JStr sid) ->
  let w1 := deliver sp rn (RunFeed, started) w in
  let w2 := deliver sp rn (RunFeed, finished) w1 in
  dict_get sid (tool_calls w2) =
  Some (JObj [("id", JStr sid);
              ("name", JStr (py_str py_repr (default (JStr "") (dict_get "toolName" d1))));
              ("input", default JNull (dict_get "input" d2));
              ("output", py_or (default JNull (dict_get "result" d2))
                               (default JNull (dict_get "output" d2)))]).
Proof.
  intros Ht1 Hd1 Hs1 Hne Ht2 Hd2 Hs2 w1 w2.
  assert (Hne' : String.eqb sid "" = false)
    by (destruct (String.eqb_spec sid ""); [contradiction|reflexivity]).
  assert (Hid : forall d, dict_get "streamId" d = Some (JStr sid) ->
                          call_id_of py_repr (JObj d) = Ok sid).
  { intros d Hd. unfold call_id_of, get, get_default. simpl. rewrite Hd. simpl.
    unfold py_or. simpl. rewrite Hne'. simpl. now rewrite Hne'. }
  assert (Hw1 : tool_calls w1 =
                dict_set sid
                  (JObj [("id", JStr sid);
                         ("name", JStr (py_str py_repr
                                          (default (JStr "") (dict_get "toolName" d1))));
                         ("input", JNull); ("output", JNull)])
                  (tool_calls w)).
  { subst w1. rewrite (deliver_run_feed "tool.started" started w Ht1).
    rewrite run_stream_lookup. cbn [String.eqb Ascii.eqb Bool.eqb call_all].
    unfold on_tool_started. rewrite Hd1, (Hid d1 Hs1). simpl. rewrite Hne'.
    reflexivity. }
  subst w2. rewrite (deliver_run_feed "tool.done" finished w1 Ht2).
  rewrite run_stream_lookup. cbn [String.eqb Ascii.eqb Bool.eqb call_all].
  unfold on_tool_done. rewrite Hd2, (Hid d2 Hs2). simpl.
  rewrite Hw1, dict_get_set_eq. simpl. now rewrite dict_get_set_eq.
Qed.

(** ** Settlement *)

Lemma settling_on_text_payload (ev : event) (w : wait_state) :
  _settled w = false -> text_payload ev = true ->
  fst (on_run_failed py_repr ev w) = set_settled w /\
  fst (on_error_event py_repr ev w) = set_settled w.
Proof.
  intros Hs Hp. unfold text_payload in Hp. apply andb_prop in Hp as [Ht Hd].
  unfold on_run_failed, on_error_event, data_or_empty. rewrite Hs.
  unfold py_or. cbn [event_get String.eqb Ascii.eqb Bool.eqb]. rewrite Ht.
  destruct (ev_data ev); try discriminate; split; reflexivity.
Qed.

(** X22. A ["run.failed"] event, or a stream ["error"] event, whose
    payload is there but is not an object (a string, a number, a list)
    settles the wait without waking the waiter: the handler sets
    [_settled] and then raises before [done_event.set()]. No later event
    can settle the wait again, so whatever arrives afterwards, the call
    ends with a [TimeoutError]. *)
Theorem text_payload_failure_blocks_the_wait (f : feed) (ev : event)
    (w : wait_state) :
  _settled w = false -> done_event w = false -> text_payload ev = true ->
  ev_type ev = JStr "error" \/ (f = RunFeed /\ ev_type ev = JStr "run.failed") ->
  deliver sp rn (f, ev) w = set_settled w /\
  forall (ds : list (feed * event)) (timeout : Q),
    conclude format_float timeout run_id
      (deliver_all sp rn ds (deliver sp rn (f, ev) w)) =
    Raise (TimeoutError ("send_and_wait timed out after " ++
                         format_float timeout ++ "s")).
Proof.
  intros Hs Hd Hp Ht.
  destruct (settling_on_text_payload ev w Hs Hp) as [Hrf Herr].
  assert (H1 : deliver sp rn (f, ev) w = set_settled w).
  { destruct Ht as [Ht|[-> Ht]].
    - destruct f.
      + rewrite (deliver_space_feed "error" ev w Ht), space_stream_lookup.
        exact Herr.
      + rewrite (deliver_run_feed "error" ev w Ht), run_stream_lookup.
        exact Herr.
    - rewrite (deliver_run_feed "run.failed" ev w Ht), run_stream_lookup.
      exact Hrf. }
  split; [exact H1|]. intros ds timeout. rewrite H1.
  pose proof (deliver_all_keeps_settlement py_repr http space_id run_id ds
                (set_settled w) eq_refl) as Hk.
  unfold settlement in Hk. cbn [_settled done_event error_holder set_settled] in Hk.
  injection Hk as _ Hdone _. unfold conclude. now rewrite Hdone, Hd.
Qed.

(** X23. An ["agent.inactive"] event of the space connection whose run id
    equals the awaited one settles a pending wait with success, without a
    ["run.completed"] event: the waiter is woken and no error is
    recorded. *)
Theorem agent_inactive_settles (ev : event) (rid : json) (w : wait_state) :
  _settled w = false -> ev_type ev = JStr "agent.inactive" ->
  event_rid ev = Ok rid -> py_eq rid run_id = true ->
  deliver sp rn (SpaceFeed, ev) w = set_done (set_settled w).
Proof.
  intros Hs Ht Hr He.
  rewrite (deliver_space_feed "agent.inactive" ev w Ht), space_stream_lookup.
  cbn [String.eqb Ascii.eqb Bool.eqb call_all]. unfold on_agent_inactive.
  rewrite Hr, He. cbn [fst]. unfold finish. now rewrite Hs.
Qed.

(** X24. The messages of a failure: a ["run.failed"] event of the run
    connection settles a pending wait with the text of its
    ["errorMessage"], and with ["Run failed"] when it has none; a stream
    ["error"] event of either connection settles it with the text of its
    ["error"], and with ["Stream error"] when it has none. *)
Theorem failure_messages (ev : event) (d : list (string * json))
    (w : wait_state) :
  _settled w = false -> data_or_empty ev = JObj d ->
  (ev_type ev = JStr "run.failed" ->
   deliver sp rn (RunFeed, ev) w =
   set_done (set_error (py_str py_repr
                          (default (JStr "Run failed") (dict_get "errorMessage" d)))
               (set_settled w))) /\
  (ev_type ev = JStr "error" ->
   forall f, deliver sp rn (f, ev) w =
             set_done (set_error (py_str py_repr
                                    (default (JStr "Stream error") (dict_get "error" d)))
                         (set_settled w))).
Proof.
  intros Hs Hd. split; intros Ht.
  - rewrite (deliver_run_feed "run.failed" ev w Ht), run_stream_lookup.
    cbn [String.eqb Ascii.eqb Bool.eqb call_all]. unfold on_run_failed.
    now rewrite Hs, Hd.
  - intros [|].
    + rewrite (deliver_space_feed "error" ev w Ht), space_stream_lookup.
      cbn [String.eqb Ascii.eqb Bool.eqb call_all]. unfold on_error_event.
      now rewrite Hs, Hd.
    + rewrite (deliver_run_feed "error" ev w Ht), run_stream_lookup.
      cbn [String.eqb Ascii.eqb Bool.eqb call_all]. unfold on_error_event.
      now rewrite Hs, Hd.
Qed.

End Wait.

(** ** The theorems at concrete inputs *)

Lemma non_text_content_raises_type_error_witness :
  let sp := space_stream show example_http "s1" (JStr "r1") in
  let rn := run_stream show example_http (JStr "r1") in
  let ds :=
    [(SpaceFeed,
      plain_event "space.message"
        (JObj [("message",
                JObj [("role", JStr "assistant");
                      ("content", JArr [JObj [("type", JStr "text");
                                              ("text", JStr "hello")]])])]));
     (RunFeed, plain_event "run.completed" (JObj [("type", JStr "run.completed")]))] in
  let w := deliver_all sp rn ds initial_wait in
  (run_id_of (Ok two_runs) = Ok (Some (JStr "r1")) /\
   done_event w = true /\ error_holder w = None /\
   Exists (fun c => not_str c = true) (text_parts w)) /\
  fst (send_and_wait show show_float example_http "s1" (Ok two_runs)
         default_timeout ds) = Raise TypeError.
Proof.
  intros sp rn ds w.
  assert (H1 : done_event w = true) by (vm_compute; reflexivity).
  assert (H2 : error_holder w = None) by (vm_compute; reflexivity).
  assert (H3 : Exists (fun c => not_str c = true) (text_parts w))
    by (vm_compute; constructor; reflexivity).
  split; [repeat split; assumption|].
  exact (non_text_content_raises_type_error show show_float example_http "s1"
           (JStr "r1") (Ok two_runs) default_timeout ds eq_refl H1 H2 H3).
Defined.

Lemma tool_started_then_done_witness :
  let sp := space_stream show example_http "s1" (JStr "r1") in
  let rn := run_stream show example_http (JStr "r1") in
  let d1 := [("toolName", JStr "x"); ("streamId", JStr "1")] in
  let d2 := [("streamId", JStr "1"); ("result", JObj [("ok", JBool true)])] in
  let started := plain_event "tool.started" (JObj d1) in
  let finished := plain_event "tool.done" (JObj d2) in
  (ev_type started = JStr "tool.started" /\ data_or_empty started = JObj d1 /\
   dict_get "streamId" d1 = Some (JStr "1") /\ "1" <> "" /\
   ev_type finished = JStr "tool.done" /\ data_or_empty finished = JObj d2 /\
   dict_get "streamId" d2 = Some (JStr "1")) /\
  dict_get "1"
    (tool_calls (deliver sp rn (RunFeed, finished)
                   (deliver sp rn (RunFeed, started) initial_wait))) =
  Some (JObj [("id", JStr "1");
              ("name", JStr (py_str show (default (JStr "") (dict_get "toolName" d1))));
              ("input", default JNull (dict_get "input" d2));
              ("output", py_or (default JNull (dict_get "result" d2))
                               (default JNull (dict_get "output" d2)))]).
Proof.
  intros sp rn d1 d2 started finished.
  assert (Hne : "1" <> "") by discriminate.
  split; [repeat split; exact Hne|].
  exact (tool_started_then_done show example_http "s1" (JStr "r1") started
           finished d1 d2 "1" initial_wait eq_refl eq_refl eq_refl Hne
           eq_refl eq_refl eq_refl).
Defined.

Lemma text_payload_failure_blocks_the_wait_witness :
  let sp := space_stream show example_http "s1" (JStr "r1") in
  let rn := run_stream show example_http (JStr "r1") in
  let ev := plain_event "run.failed" (JStr "out of memory") in
  (_settled initial_wait = false /\ done_event initial_wait = false /\
   text_payload ev = true /\
   (ev_type ev = JStr "error" \/ (RunFeed = RunFeed /\ ev_type ev = JStr "run.failed"))) /\
  deliver sp rn (RunFeed, ev) initial_wait = set_settled initial_wait /\
  forall (ds : list (feed * event)) (timeout : Q),
    conclude show_float timeout (JStr "r1")
      (deliver_all sp rn ds (deliver sp rn (RunFeed, ev) initial_wait)) =
    Raise (TimeoutError ("send_and_wait timed out after " ++
                         show_float timeout ++ "s")).
Proof.
  intros sp rn ev.
  assert (Ht : ev_type ev = JStr "error" \/
               (RunFeed = RunFeed /\ ev_type ev = JStr "run.failed"))
    by (right; split; reflexivity).
  split; [repeat split; exact Ht|].
  exact (text_payload_failure_blocks_the_wait show show_float example_http "s1"
           (JStr "r1") RunFeed ev initial_wait eq_refl eq_refl eq_refl Ht).
Defined.

Lemma agent_inactive_settles_witness :
  let sp := space_stream show example_http "s1" (JStr "r1") in
  let rn := run_stream show example_http (JStr "r1") in
  let ev := plain_event "agent.inactive" (JObj [("runId", JStr "r1")]) in
  (_settled initial_wait = false /\ ev_type ev = JStr "agent.inactive" /\
   event_rid ev = Ok (JStr "r1") /\ py_eq (JStr "r1") (JStr "r1") = true) /\
  deliver sp rn (SpaceFeed, ev) initial_wait = set_done (set_settled initial_wait).
Proof.
  intros sp rn ev. split; [repeat split|].
  exact (agent_inactive_settles show example_http "s1" (JStr "r1") ev (JStr "r1")
           initial_wait eq_refl eq_refl eq_refl eq_refl).
Defined.

Lemma failure_messages_witness :
  let sp := space_stream show example_http "s1" (JStr "r1") in
  let rn := run_stream show example_http (JStr "r1") in
  let failed := plain_event "run.failed" (JObj [("code", JInt 500)]) in
  let broken := plain_event "error" JNull in
  (_settled initial_wait = false /\
   data_or_empty failed = JObj [("code", JInt 500)] /\
   data_or_empty broken = JObj [] /\
   ev_type failed = JStr "run.failed" /\ ev_type broken = JStr "error") /\
  error_holder (deliver sp rn (RunFeed, failed) initial_wait) = Some "Run failed" /\
  error_holder (deliver sp rn (SpaceFeed, broken) initial_wait) = Some "Stream error".
Proof.
  intros sp rn failed broken. split; [repeat split|]. split.
  - exact (f_equal error_holder
             (proj1 (failure_messages show example_http "s1" (JStr "r1") failed
                       [("code", JInt 500)] initial_wait eq_refl eq_refl) eq_refl)).
  - exact (f_equal error_holder
             (proj2 (failure_messages show example_http "s1" (JStr "r1") broken
                       [] initial_wait eq_refl eq_refl) eq_refl SpaceFeed)).
Defined.

(** X25. The run id of a decoded event is the document's top-level
    [runId] when that is truthy, and otherwise the [runId] of the payload
    when the payload is an object. For such an event with an object
    payload, the run id that [on_agent_inactive] works out is the event's
    [runId]: its own look into the payload finds nothing else. *)
Theorem decoded_run_id (raw : frame) (fields : list (string * json)) (ev : event) :
  build_event raw (JObj fields) = Ok ev ->
  ev_runId ev =
    (let top := default JNull (dict_get "runId" fields) in
     if truthy top then top
     else match ev_data ev with
          | JObj d => default JNull (dict_get "runId" d)
          | _ => JNull
          end) /\
  (is_dict (ev_data ev) = true -> event_rid ev = Ok (ev_runId ev)).
Proof.
  intros Hev. unfold build_event, get, get_default in Hev. simpl in Hev.
  set (payload := py_or (default JNull (dict_get "data" fields)) (JObj fields)) in *.
  destruct (is_dict payload) eqn:Hp.
  - destruct payload as [| | | | | |d] eqn:E; try discriminate.
    simpl in Hev. injection Hev as <-. cbn [ev_runId ev_data]. split.
    + unfold py_or. now destruct (truthy (default JNull (dict_get "runId" fields))).
    + intros _. unfold event_rid, data_or_empty.
      cbn [event_get String.eqb Ascii.eqb Bool.eqb ev_runId ev_data].
      unfold py_or.
      destruct (truthy (default JNull (dict_get "runId" fields))) eqn:Et;
        rewrite ?Et; [reflexivity|].
      destruct (truthy (default JNull (dict_get "runId" d))) eqn:Ed;
        rewrite ?Ed; [reflexivity|].
      destruct d; reflexivity.
  - simpl in Hev. injection Hev as <-. cbn [ev_runId ev_data]. split.
    + unfold py_or.
      destruct (truthy (default JNull (dict_get "runId" fields))) eqn:Et;
        [reflexivity|].
      fold payload. now destruct payload.
    + fold payload. intros H. rewrite Hp in H. discriminate.
Qed.

Lemma decoded_run_id_witness :
  let raw := {| frame_data := [JsonText.dq "{'type': 'agent.inactive', 'data': {'runId': 'r1'}}"];
                frame_id := None; frame_type := None |} in
  let fields := [("type", JStr "agent.inactive");
                 ("data", JObj [("runId", JStr "r1")])] in
  exists ev,
    (JsonText.loads (join newline (frame_data raw)) = Some (JObj fields) /\
     build_event raw (JObj fields) = Ok ev) /\
    ev_runId ev = JStr "r1" /\ event_rid ev = Ok (ev_runId ev).
Proof.
  intros raw fields. eexists. split; [split; reflexivity|].
  match goal with
  | |- ev_runId ?e = _ /\ _ =>
      pose proof (decoded_run_id raw fields e eq_refl) as [H1 H2]
  end.
  split; [exact H1|exact (H2 eq_refl)].
Defined.

End MessagesExtra.

(** * Properties of the tool worker *)

Module ToolsExtra.

Import SSE Http Messages Tools Statements MoreStatements SSEProps.

Section Worker.

Variable py_repr : json -> string.
Variable exn_str : exn -> string.
Variable post : string -> json -> result json.
Variable handlers : gmap string (json -> result json).

Abbreviation worker http := (worker_stream py_repr exn_str post handlers http).

(** X26. A thread for a tool call makes one request when everything goes
    well, one when the handler raises (the report of the error), and two
    when the handler returns but submitting its result fails (the failed
    submission, then the report of that failure); never more. Every
    request goes to the tool-results path of the call's run and carries
    the call's id. *)
Theorem run_handler_requests (handler : json -> result json)
    (args run_id tool_call_id : json) :
  let reqs := run_handler py_repr exn_str post handler args run_id tool_call_id in
  let path := "/api/runs/" ++ py_str py_repr run_id ++ "/tool-results" in
  let report exc :=
    (path, JObj [("callId", tool_call_id);
                 ("result", JObj [("error", JStr (exn_str exc))])]) in
  Forall (fun r => fst r = path /\ get (snd r) "callId" = Ok tool_call_id) reqs /\
  (forall exc, handler args = Raise exc -> reqs = [report exc]) /\
  (forall v, handler args = Ok v ->
             exists more,
               reqs = (path, JObj [("callId", tool_call_id); ("result", v)]) :: more /\
               match post path (JObj [("callId", tool_call_id); ("result", v)]) with
               | Ok _ => more = []
               | Raise exc => more = [report exc]
               end).
Proof.
  cbv zeta. unfold run_handler, submit_result, submit_request. cbn [fst snd].
  split; [|split].
  - destruct (handler args) as [v|exc]; [|now repeat constructor].
    destruct (post _ _); now repeat constructor.
  - now intros exc ->.
  - intros v ->. destruct (post _ _) as [r|exc]; eexists; split; reflexivity.
Qed.

(** X27. On the worker's connection only a ["tool.call"] event for a
    registered tool name starts a thread, and it starts exactly one, with
    the event's arguments (an empty dict when missing). A call for a name
    that has no handler, and an event of any other type, start nothing
    and submit nothing. *)
Theorem only_registered_tools_run (http : HttpClient) (ev : event)
    (d : list (string * json)) (name : string)
    (threads : list (list (string * json))) :
  data_or_empty ev = JObj d ->
  default (JStr "") (dict_get "toolName" d) = JStr name ->
  (forall t, t <> "tool.call" ->
             _emit (_handlers (worker http)) (JStr t) ev threads = (threads, Ok tt)) /\
  _emit (_handlers (worker http)) (JStr "tool.call") ev threads =
  (match handlers !! name with
   | Some handler =>
       (threads ++
        [run_handler py_repr exn_str post handler
           (py_or (default JNull (dict_get "args" d)) (JObj []))
           (default (JStr "") (dict_get "runId" d))
           (default (JStr "") (dict_get "toolCallId" d))])%list
   | None => threads
   end, Ok tt).
Proof.
  intros Hd Hn.
  assert (Hl : forall t, default [] (_handlers (worker http) !! t) =
                         if String.eqb "tool.call" t
                         then [handle_tool_call py_repr exn_str post handlers]
                         else []).
  { intros t. unfold worker_stream, start, on.
    cbn [_handlers set_thread set_handlers init].
    rewrite handlers_on_lookup, ?lookup_empty. reflexivity. }
  split.
  - intros t Ht. unfold _emit, handlers_get. cbn [hashable]. rewrite !Hl.
    destruct (String.eqb_spec "tool.call" t); [congruence|reflexivity].
  - unfold _emit, handlers_get. cbn [hashable]. rewrite !Hl.
    cbn [String.eqb Ascii.eqb Bool.eqb call_all].
    unfold handle_tool_call. rewrite Hd. unfold get, get_default. simpl.
    rewrite Hn. unfold handler_for. simpl.
    now destruct (handlers !! name).
Qed.

Lemma worker_error_returns (http : HttpClient) : on_error_returns (worker http).
Proof. intros f [= <-] e s. reflexivity. Qed.

(** X28. [listen] needs a secret key: without one (absent or empty) it
    raises [ValueError] and constructs no connection. With one, the
    connection it starts has reconnection enabled: after the n-th failed
    request in a row, for n up to 1024, it sleeps [min(2 * 2^(n-1), 30)]
    seconds and tries again (past 1024 the delay cannot be computed). *)
Theorem listen_needs_key_and_reconnects (loads : string -> option json)
    (http : HttpClient) :
  (opt_truthy (secret_key http) = false ->
   exists msg, listen py_repr exn_str post handlers http = ValueError msg) /\
  (opt_truthy (secret_key http) = true ->
   listen py_repr exn_str post handlers http = Listening (worker http) /\
   _thread (worker http) = true /\
   forall (fails : list attempt) threads,
     Forall (fun a => failed_connect a = true) fails ->
     (length fails <= 1024)%nat ->
     let '(_, threads', acts, fin) :=
       _run loads (worker http) (map Attempt fails) threads in
     sleeps acts = map (backoff 2 30) (seqZ 1 (Z.of_nat (length fails))) /\
     threads' = threads /\ fin = Running).
Proof.
  unfold listen. split; intros ->; [eexists; reflexivity|].
  split; [reflexivity|]. split; [reflexivity|].
  intros fails threads Hf Hlen.
  assert (Hstate : forall (a : Z) s,
             a + Z.of_nat (length fails) <= 1024 ->
             exists acts,
               _run loads (set_reconnect_attempts a (worker http))
                    (map Attempt fails) s =
               (set_reconnect_attempts (a + Z.of_nat (length fails)) (worker http),
                s, acts, Running) /\
               sleeps acts =
               map (backoff 2 30) (seqZ (a + 1) (Z.of_nat (length fails)))).
  { clear Hlen. induction Hf as [|x fails Hx _ IH]; intros a s Hb.
    - exists []. simpl. rewrite Z.add_0_r. split; reflexivity.
    - cbn [length] in Hb.
      assert (Hlt : Z.leb 1024 (a + 1 - 1) = false) by (apply Z.leb_gt; lia).
      destruct (IH (a + 1) s ltac:(lia)) as (acts & Hrun & Hsl).
      exists (Connect :: Sleep (backoff 2 30 (a + 1)) :: acts).
      assert (Hatt : run_attempt loads (set_reconnect_attempts a (worker http)) x s =
                     (set_reconnect_attempts (a + 1) (worker http), s,
                      [Connect; Sleep (backoff 2 30 (a + 1))], None)).
      { destruct x as [e [|]|[|]|]; try discriminate;
          unfold run_attempt, on_failure, float_times_pow2;
          cbn [_reconnect_attempts set_reconnect_attempts]; rewrite Hlt;
          simpl; unfold backoff; rewrite py_min_Qmin; reflexivity. }
      split.
      + cbn [map _run]. cbn [_closed set_reconnect_attempts worker_stream].
        change (_closed (worker http)) with false. cbv iota.
        rewrite Hatt, Hrun. cbn [length].
        replace (a + Z.of_nat (Datatypes.S (length fails)))
          with (a + 1 + Z.of_nat (length fails)) by lia.
        reflexivity.
      + cbn [sleeps flat_map app]. fold (sleeps acts). rewrite Hsl.
        cbn [length]. rewrite (seqZ_cons (a + 1)) by lia. cbn [map].
        replace (Z.succ (a + 1)) with (a + 1 + 1) by lia.
        replace (Z.pred (Z.of_nat (Datatypes.S (length fails))))
          with (Z.of_nat (length fails)) by lia.
        reflexivity. }
  destruct (Hstate 0 threads ltac:(lia)) as (acts & Hrun & Hsl).
  change (set_reconnect_attempts 0 (worker http)) with (worker http) in Hrun.
  rewrite Hrun. repeat split. exact Hsl.
Qed.

End Worker.

Lemma only_registered_tools_run_witness :
  let handlers : gmap string (json -> result json) :=
    {["fetchExternalData" := fun args => Ok (JObj [("echo", args)]);
      "explode" := fun _ => Raise (UserError "no such table")]} in
  let post : string -> json -> result json := fun _ _ => Ok (JObj []) in
  let st := worker_stream show show_exn post handlers example_http in
  let d := [("toolCallId", JStr "c1"); ("toolName", JStr "explode");
            ("runId", JStr "r1")] in
  let ev := plain_event "tool.call" (JObj d) in
  (data_or_empty ev = JObj d /\
   default (JStr "") (dict_get "toolName" d) = JStr "explode") /\
  _emit (_handlers st) (JStr "tool.call") ev [] =
  ([[("/api/runs/r1/tool-results",
      JObj [("callId", JStr "c1");
            ("result", JObj [("error", JStr "no such table")])])]],
   Ok tt).
Proof.
  intros handlers post st d ev. split; [split; reflexivity|].
  exact (proj2 (only_registered_tools_run show show_exn post handlers
                  example_http ev d "explode" [] eq_refl eq_refl)).
Defined.

Lemma listen_needs_key_and_reconnects_witness :
  let handlers : gmap string (json -> result json) := ∅ in
  let post : string -> json -> result json := fun _ _ => Ok (JObj []) in
  let keyless := {| base_url := "http://localhost:3001"; secret_key := Some "";
                    public_key := Some "pk_test"; jwt := None |} in
  (opt_truthy (secret_key keyless) = false /\
   opt_truthy (secret_key example_http) = true) /\
  (exists msg, listen show show_exn post handlers keyless = ValueError msg) /\
  listen show show_exn post handlers example_http =
    Listening (worker_stream show show_exn post handlers example_http) /\
  let fails := repeat (BadStatus false) 5 in
  (Forall (fun a => failed_connect a = true) fails /\ (length fails <= 1024)%nat) /\
  let '(_, threads', acts, fin) :=
    _run JsonText.loads (worker_stream show show_exn post handlers example_http)
         (map Attempt fails) [] in
  sleeps acts = map (backoff 2 30) (seqZ 1 (Z.of_nat (length fails))) /\
  threads' = [] /\ fin = Running.
Proof.
  intros handlers post keyless. split; [split; reflexivity|]. split; [|split].
  - exact (proj1 (listen_needs_key_and_reconnects show show_exn post handlers
                    JsonText.loads keyless) eq_refl).
  - exact (proj1 (proj2 (listen_needs_key_and_reconnects show show_exn post
                           handlers JsonText.loads example_http) eq_refl)).
  - intros fails.
    assert (Hf : Forall (fun a => failed_connect a = true) fails)
      by (repeat constructor).
    assert (Hlen : (length fails <= 1024)%nat) by (cbn; lia).
    split; [split; assumption|].
    exact (proj2 (proj2 (proj2 (listen_needs_key_and_reconnects show show_exn post
                                  handlers JsonText.loads example_http) eq_refl))
             fails [] Hf Hlen).
Defined.

(** The worker's delays on five failed requests in a row. *)
Example worker_backoff :
  sleeps (snd (fst (_run JsonText.loads
                      (worker_stream show show_exn (fun _ _ => Ok (JObj [])) ∅
                         example_http)
                      (map Attempt (repeat (BadStatus false) 5)) []))) =
  [2; 4; 8; 16; 30]%Q.
Proof. vm_compute. reflexivity. Qed.

End ToolsExtra.
